(** * Virtual chemistry lab: the titration simulation and its step tracker

    A shallow embedding of the simulation logic of
    [client/src/components/VirtualLab/VirtualLabApp.tsx] (the titration
    handlers, the step tracker, the pH/molarity calculation, the reset)
    and of the [Equipment] component (mixed colour and solution height),
    followed by the handlers that place equipment and drop chemicals, the
    undo history and the drop targets of the component and of the
    workbench.

    Modelling conventions.
    - A JavaScript [number] is a value of [JS.number]: a finite rational
      kept in lowest terms, or one of the IEEE special values
      [+Infinity], [-Infinity], [NaN].  Finite arithmetic is exact (no
      rounding, no overflow) and zero carries no sign; the special values
      follow IEEE 754 / ECMAScript.  What is stated of a rounded result is
      stated for inputs on which binary64 arithmetic is exact as well, or
      as bounds that rounding does not cross.
    - A React render is a snapshot of the component state.  A handler or a
      timer callback reads the variables of the render that created it
      (its closure) and writes through the state setters, which act on the
      live state.  Every handler below therefore takes the render it
      closes over and the live state as two separate arguments.
    - [setTimeout], [setInterval] and [requestAnimationFrame] return the
      callbacks they schedule as data ([task]), each carrying the render
      it closes over; [Date.now()] is the argument [now] of a handler.
    - The handlers that place equipment and drop chemicals
      ([handleEquipmentDrop], [handleChemicalDrop], [handleReaction])
      come after the titration model, whose events keep [StepTrigger] for
      their calls of [markStepCompleted].  A setter whose updater
      function calls other setters runs them on the state the updater
      leaves.

    The file has two parts: the model and the definitions the statements
    use, then the lemmas and theorems. *)

From Stdlib Require Import ZArith QArith Qround Qreduction List String Ascii Bool Lia Lqa.
From Stdlib Require Import DecimalString.
Import ListNotations.

Local Open Scope string_scope.
Local Open Scope list_scope.
Local Open Scope Z_scope.

(* ------------------------------------------------------------------ *)
(** ** JavaScript numbers *)

Module JS.

Inductive number : Type :=
| Fin (q : Q)
| PInf
| NInf
| NaN.

(** A numeric literal of the source, in lowest terms. *)
Definition lit (q : Q) : number := Fin (Qred q).

Definition int (z : Z) : number := Fin (inject_Z z).

Definition neg (a : number) : number :=
  match a with
  | Fin x => Fin (Qred (- x))
  | PInf => NInf
  | NInf => PInf
  | NaN => NaN
  end.

Definition add (a b : number) : number :=
  match a, b with
  | NaN, _ | _, NaN => NaN
  | PInf, NInf | NInf, PInf => NaN
  | PInf, _ | _, PInf => PInf
  | NInf, _ | _, NInf => NInf
  | Fin x, Fin y => Fin (Qred (x + y))
  end.

Definition sub (a b : number) : number := add a (neg b).

Definition mul (a b : number) : number :=
  match a, b with
  | NaN, _ | _, NaN => NaN
  | Fin x, Fin y => Fin (Qred (x * y))
  | Fin x, PInf | PInf, Fin x =>
      match (x ?= 0)%Q with Eq => NaN | Gt => PInf | Lt => NInf end
  | Fin x, NInf | NInf, Fin x =>
      match (x ?= 0)%Q with Eq => NaN | Gt => NInf | Lt => PInf end
  | PInf, PInf | NInf, NInf => PInf
  | PInf, NInf | NInf, PInf => NInf
  end.

(** [x / 0] is an infinity of the sign of [x], [0 / 0] is [NaN]. *)
Definition div (a b : number) : number :=
  match a, b with
  | NaN, _ | _, NaN => NaN
  | Fin x, Fin y =>
      match (y ?= 0)%Q with
      | Eq => match (x ?= 0)%Q with Eq => NaN | Gt => PInf | Lt => NInf end
      | _ => Fin (Qred (x / y))
      end
  | Fin _, PInf | Fin _, NInf => Fin 0
  | PInf, Fin y => match (y ?= 0)%Q with Lt => NInf | _ => PInf end
  | NInf, Fin y => match (y ?= 0)%Q with Lt => PInf | _ => NInf end
  | PInf, PInf | PInf, NInf | NInf, PInf | NInf, NInf => NaN
  end.

(** The relational operators [<], [<=], [>], [>=] and [===]: every
    comparison with [NaN] is false. *)
Definition lt (a b : number) : bool :=
  match a, b with
  | NaN, _ | _, NaN => false
  | Fin x, Fin y => match (x ?= y)%Q with Lt => true | _ => false end
  | NInf, NInf | PInf, _ | _, NInf => false
  | NInf, _ | _, PInf => true
  end.

Definition le (a b : number) : bool :=
  match a, b with
  | NaN, _ | _, NaN => false
  | Fin x, Fin y => match (x ?= y)%Q with Gt => false | _ => true end
  | NInf, _ | _, PInf => true
  | PInf, _ | _, NInf => false
  end.

Definition gt (a b : number) : bool := lt b a.
Definition ge (a b : number) : bool := le b a.

Definition strict_eq (a b : number) : bool :=
  match a, b with
  | Fin x, Fin y => Qeq_bool x y
  | PInf, PInf | NInf, NInf => true
  | _, _ => false
  end.

(** [ToBoolean] on a number, as used by [x || y]. *)
Definition truthy (a : number) : bool :=
  match a with
  | Fin x => negb (Qeq_bool x 0)
  | NaN => false
  | PInf | NInf => true
  end.

Definition or_else (a b : number) : number := if truthy a then a else b.

(** [Math.min], [Math.max]: [NaN] as soon as one argument is [NaN]. *)
Definition Math_min (a b : number) : number :=
  match a, b with
  | NaN, _ | _, NaN => NaN
  | _, _ => if lt b a then b else a
  end.

Definition Math_max (a b : number) : number :=
  match a, b with
  | NaN, _ | _, NaN => NaN
  | _, _ => if lt a b then b else a
  end.

(** [Math.round]: the integer nearest to [x], ties towards [+Infinity]. *)
Definition Math_round (a : number) : number :=
  match a with
  | Fin x => int (Qfloor (x + (1 # 2)))
  | _ => a
  end.

(** [Math.pow(x, n)] for a literal natural exponent [n]. *)
Fixpoint Math_pow (a : number) (n : nat) : number :=
  match n with
  | O => int 1
  | S n' => mul a (Math_pow a n')
  end.

(** [Number.prototype.toString] as used by template literals: an
    integer prints its decimal digits; another finite value prints its
    integer part, a point and its decimal expansion, cut after twenty
    digits (the program interpolates results of [Math.round] and
    timestamps, which are integers).  JavaScript switches to exponent
    notation from 1e21 on and below 1e-6; the model is meant for the
    values in between. *)
Fixpoint fraction_digits (fuel : nat) (num den : Z) : string :=
  match fuel with
  | O => EmptyString
  | S fuel' =>
      if num =? 0 then EmptyString
      else
        let d := (10 * num) / den in
        String (ascii_of_nat (Z.to_nat (48 + d)))
               (fraction_digits fuel' (10 * num - d * den) den)
  end.

Definition decimal_of_nonneg (x : Q) : string :=
  let i := Qfloor x in
  let r := (Qnum x - i * Zpos (Qden x)) in
  let int_part := NilZero.string_of_uint (N.to_uint (Z.to_N i)) in
  if r =? 0 then int_part
  else (int_part ++ "." ++ fraction_digits 20 r (Zpos (Qden x)))%string.

Definition toString (a : number) : string :=
  match a with
  | Fin x =>
      match (x ?= 0)%Q with
      | Lt => ("-" ++ decimal_of_nonneg (Qred (- x)))%string
      | _ => decimal_of_nonneg (Qred x)
      end
  | PInf => "Infinity"
  | NInf => "-Infinity"
  | NaN => "NaN"
  end.

End JS.

Import JS.

(* ------------------------------------------------------------------ *)
(** ** Strings and arrays of the JavaScript library *)

(** [s.replace(pat, "")] for a one-character pattern: the first
    occurrence is removed. *)
Fixpoint remove_first (pat : ascii) (s : string) : string :=
  match s with
  | EmptyString => EmptyString
  | String c s' => if Ascii.eqb c pat then s' else String c (remove_first pat s')
  end.

(** [s.substr(start, length)]. *)
Definition substr (s : string) (start length : nat) : string :=
  String.substring start length s.

Definition hex_digit (c : ascii) : option Z :=
  let n := Z.of_nat (nat_of_ascii c) in
  if (48 <=? n) && (n <=? 57) then Some (n - 48)
  else if (97 <=? n) && (n <=? 102) then Some (n - 87)
  else if (65 <=? n) && (n <=? 70) then Some (n - 55)
  else None.

(** The value of the longest prefix of hexadecimal digits, [None] when
    the first character is no digit. *)
Fixpoint hex_prefix (s : string) (acc : option Z) : option Z :=
  match s with
  | EmptyString => acc
  | String c s' =>
      match hex_digit c with
      | Some d =>
          hex_prefix s' (Some (16 * match acc with Some a => a | None => 0 end + d))
      | None => acc
      end
  end.

Definition is_white_space (c : ascii) : bool :=
  let n := nat_of_ascii c in
  (Nat.eqb n 32 || (Nat.leb 9 n && Nat.leb n 13))%bool.

Fixpoint trim_start (s : string) : string :=
  match s with
  | String c s' => if is_white_space c then trim_start s' else s
  | EmptyString => s
  end.

(** [parseInt(s, 16)]: leading white space, a sign and a [0x] prefix
    are skipped, then the longest run of hexadecimal digits is read;
    [NaN] when there is none. *)
Definition parseInt16 (s : string) : number :=
  let s1 := trim_start s in
  let '(negative, s2) :=
    match s1 with
    | String "-" r => (true, r)
    | String "+" r => (false, r)
    | _ => (false, s1)
    end in
  let s3 :=
    match s2 with
    | String "0" (String "x" r) | String "0" (String "X" r) => r
    | _ => s2
    end in
  match hex_prefix s3 None with
  | Some v => int (if negative then - v else v)
  | None => NaN
  end.

(** [xs.includes(x)] on an array of strings. *)
Definition includes (xs : list string) (x : string) : bool :=
  existsb (String.eqb x) xs.

(** [xs.sort()] with the default comparison (code-unit order). *)
Fixpoint sort_insert (x : string) (xs : list string) : list string :=
  match xs with
  | [] => [x]
  | y :: ys => if String.leb x y then x :: xs else y :: sort_insert x ys
  end.

Definition sort (xs : list string) : list string :=
  fold_right sort_insert [] xs.

(* ------------------------------------------------------------------ *)
(** ** The Equipment component: mixed colour and solution height *)

(** An entry of an equipment's [chemicals] array. *)
Record ChemicalQuantity : Type := mkChemical {
  chem_id : string;
  chem_name : string;
  chem_color : string;
  chem_amount : number;
  chem_concentration : string
}.

(** The template literal [`rgb(${r}, ${g}, ${b})`]. *)
Definition rgb_template (r g b : number) : string :=
  ("rgb(" ++ toString r ++ ", " ++ toString g ++ ", " ++ toString b ++ ")")%string.

(** [start + (end - start) * easedProgress], rounded. *)
Definition blend (startC endC easedProgress : number) : number :=
  Math_round (add startC (mul (sub endC startC) easedProgress)).

(** The body of [chemicals.forEach] in the default colour mixing: the
    accumulators are [r], [g], [b] and [totalAmount]. *)
Definition mix_step (acc : number * number * number * number)
    (chemical : ChemicalQuantity) : number * number * number * number :=
  let '(r, g, b, totalAmount) := acc in
  let color := chem_color chemical in
  let amount := chem_amount chemical in
  let hex := remove_first "#" color in
  let rVal := parseInt16 (substr hex 0 2) in
  let gVal := parseInt16 (substr hex 2 2) in
  let bVal := parseInt16 (substr hex 4 2) in
  (add r (mul rVal amount), add g (mul gVal amount),
   add b (mul bVal amount), add totalAmount amount).

Definition getMixedColor (chemicals : list ChemicalQuantity)
    (titrationColorProgress : number) : string :=
  match chemicals with
  | [] => "transparent"
  | [c] => chem_color c
  | _ =>
    let chemicalIds := sort (map chem_id chemicals) in
    if includes chemicalIds "hcl" && includes chemicalIds "naoh" then
      if includes chemicalIds "phenol" then
        if gt titrationColorProgress (int 0) then
          if le titrationColorProgress (int 1) then
            let easedProgress :=
              mul (mul titrationColorProgress titrationColorProgress)
                  (sub (int 3) (mul (int 2) titrationColorProgress)) in
            rgb_template (blend (int 255) (int 255) easedProgress)
                         (blend (int 220) (int 182) easedProgress)
                         (blend (int 230) (int 193) easedProgress)
          else
            let normalizedProgress :=
              Math_min (div (sub titrationColorProgress (int 1)) (int 2)) (int 1) in
            let easedProgress :=
              mul (mul normalizedProgress normalizedProgress)
                  (sub (int 3) (mul (int 2) normalizedProgress)) in
            rgb_template (blend (int 255) (int 199) easedProgress)
                         (blend (int 182) (int 21) easedProgress)
                         (blend (int 193) (int 133) easedProgress)
        else "#FFB6C1"
      else "#E8F5E8"
    else if includes chemicalIds "phenol" && includes chemicalIds "naoh" then
      "#FF69B4"
    else if includes chemicalIds "hcl" && includes chemicalIds "phenol"
            && negb (includes chemicalIds "naoh") then
      "#ADD8E6"
    else
      let '(r, g, b, totalAmount) :=
        fold_left mix_step chemicals (int 0, int 0, int 0, int 0) in
      if strict_eq totalAmount (int 0) then "transparent"
      else rgb_template (Math_round (div r totalAmount))
                        (Math_round (div g totalAmount))
                        (Math_round (div b totalAmount))
  end.

Definition getSolutionHeight (chemicals : list ChemicalQuantity) : number :=
  let totalVolume :=
    fold_left (fun sum chemical => add sum (chem_amount chemical)) chemicals (int 0) in
  Math_min (int 85) (mul (div totalVolume (int 100)) (int 85)).

(** The total volume of a mixture as the specification words it: the
    sum of the amounts of its entries. *)
Definition totalVolumeMl (chemicals : list ChemicalQuantity) : number :=
  fold_right (fun chemical rest => add (chem_amount chemical) rest) (int 0) chemicals.

(** The specification's formula [min(85, totalVolumeMl / 100 * 85)]. *)
Definition spec_height_percent (totalVolume : number) : number :=
  Math_min (int 85) (mul (div totalVolume (int 100)) (int 85)).

(* ------------------------------------------------------------------ *)
(** ** The pH / molarity calculation *)

Record ChemicalProperties : Type := mkProperties {
  molarity : number;
  moles : number;
  ph : number
}.

Section ChemicalPropertiesModel.

(** [Math.log10] is implementation-approximated on positive finite
    arguments: its value there is a parameter of the development.  On
    the other arguments ECMAScript fixes the result. *)
Variable log10_pos : Q -> Q.

Definition Math_log10 (a : number) : number :=
  match a with
  | NaN | NInf => NaN
  | PInf => PInf
  | Fin x =>
      match (x ?= 0)%Q with
      | Eq => NInf
      | Lt => NaN
      | Gt => Fin (log10_pos x)
      end
  end.

(** The object literal [concentrations], read at a key. *)
Definition concentrations (key : string) : option number :=
  if String.eqb key "hcl" then Some (lit (1 # 10))
  else if String.eqb key "naoh" then Some (lit (1 # 10))
  else if String.eqb key "phenol" then Some (int 0)
  else None.

Definition calculateChemicalProperties (chemical : ChemicalQuantity)
    (amount totalVolume : number) : ChemicalProperties :=
  let molarity :=
    match concentrations (chem_id chemical) with
    | Some m => or_else m (int 0)
    | None => int 0
    end in
  let volumeInL := div amount (int 1000) in
  let moles := mul molarity volumeInL in
  let ph :=
    if String.eqb (chem_id chemical) "hcl" then
      neg (Math_log10 (mul molarity (div amount totalVolume)))
    else if String.eqb (chem_id chemical) "naoh" then
      let poh := neg (Math_log10 (mul molarity (div amount totalVolume))) in
      sub (int 14) poh
    else int 7 in
  mkProperties (mul molarity (div amount totalVolume))
               moles
               (Math_max (int 0) (Math_min (int 14) ph)).

End ChemicalPropertiesModel.

(* ------------------------------------------------------------------ *)
(** ** The state of the VirtualLabApp component *)

(** An element of [equipmentPositions]: a piece of equipment on the
    workbench with the chemicals dropped into it. *)
Record EquipmentPosition : Type := mkEquipment {
  eq_id : string;
  eq_x : number;
  eq_y : number;
  eq_chemicals : list ChemicalQuantity
}.

Inductive ResultType : Type := success | warning | error | reaction.

Record Thermodynamics : Type := mkThermodynamics {
  deltaH : number;
  deltaG : number;
  equilibriumConstant : number
}.

Record Calculation : Type := mkCalculation {
  calc_volumeAdded : number;
  calc_totalVolume : number;
  calc_concentration : string;
  calc_molarity : number;
  calc_moles : number;
  calc_reaction : string;
  calc_yield : number;
  calc_ph : number;
  calc_balancedEquation : string;
  calc_reactionType : string;
  calc_products : list string;
  calc_mechanism : list string;
  calc_thermodynamics : Thermodynamics
}.

(** An entry of the results log.  [res_timestamp] is the instant of
    [new Date()]; its rendering by [toLocaleTimeString] depends on the
    locale and is left to the presentation. *)
Record Result : Type := mkResult {
  res_id : string;
  res_type : ResultType;
  res_title : string;
  res_description : string;
  res_timestamp : Z;
  res_calculation : Calculation
}.

Record Measurements : Type := mkMeasurements {
  m_volume : number;
  m_concentration : number;
  m_ph : number;
  m_molarity : number;
  m_moles : number;
  m_temperature : number
}.

Record Drop : Type := mkDrop {
  drop_id : string;
  drop_x : number;
  drop_y : number;
  drop_color : string
}.

Record DropwiseAnimation : Type := mkDropwise {
  dw_active : bool;
  dw_chemicalId : string;
  dw_drops : list Drop
}.

(** The properties the component receives from its parent. *)
Record Props : Type := mkProps {
  experimentTitle : string;
  stepNumber : Z;
  allSteps_length : Z
}.

(** The [useState] cells of the component.  [completedSteps] is a
    [Set<number>]: its elements in insertion order, without repetition. *)

Record State : Type := mkState {
  equipmentPositions : list EquipmentPosition;
  undoHistory : list (list EquipmentPosition);
  selectedChemical : option string;
  isRunning : bool;
  results : list Result;
  showSteps : bool;
  currentStep : Z;
  measurements : Measurements;
  toastMessage : option string;
  currentGuidedStep : Z;
  dropwiseAnimation : DropwiseAnimation;
  isTitrating : bool;
  isStirring : bool;
  titrationDropCount : Z;
  stirrerActive : bool;
  titrationColorProgress : number;
  cumulativeVolume : number;
  cumulativeColorIntensity : number;
  completedSteps : list Z;
  hasCalculatedResult : bool;
  showResultsPanel : bool
}.

(** Field updates: [with_f g s] is [s] with [f] replaced by [g (f s)]. *)
Definition with_equipmentPositions (g : list EquipmentPosition -> list EquipmentPosition) (s : State) : State :=
  mkState (g (equipmentPositions s)) (undoHistory s) (selectedChemical s)
    (isRunning s) (results s) (showSteps s) (currentStep s) (measurements s)
    (toastMessage s) (currentGuidedStep s) (dropwiseAnimation s) (isTitrating
    s) (isStirring s) (titrationDropCount s) (stirrerActive s)
    (titrationColorProgress s) (cumulativeVolume s) (cumulativeColorIntensity
    s) (completedSteps s) (hasCalculatedResult s) (showResultsPanel s).

Definition with_undoHistory (g : list (list EquipmentPosition) -> list (list EquipmentPosition)) (s : State) : State :=
  mkState (equipmentPositions s) (g (undoHistory s)) (selectedChemical s)
    (isRunning s) (results s) (showSteps s) (currentStep s) (measurements s)
    (toastMessage s) (currentGuidedStep s) (dropwiseAnimation s) (isTitrating
    s) (isStirring s) (titrationDropCount s) (stirrerActive s)
    (titrationColorProgress s) (cumulativeVolume s) (cumulativeColorIntensity
    s) (completedSteps s) (hasCalculatedResult s) (showResultsPanel s).

Definition with_selectedChemical (g : option string -> option string) (s : State) : State :=
  mkState (equipmentPositions s) (undoHistory s) (g (selectedChemical s))
    (isRunning s) (results s) (showSteps s) (currentStep s) (measurements s)
    (toastMessage s) (currentGuidedStep s) (dropwiseAnimation s) (isTitrating
    s) (isStirring s) (titrationDropCount s) (stirrerActive s)
    (titrationColorProgress s) (cumulativeVolume s) (cumulativeColorIntensity
    s) (completedSteps s) (hasCalculatedResult s) (showResultsPanel s).

Definition with_isRunning (g : bool -> bool) (s : State) : State :=
  mkState (equipmentPositions s) (undoHistory s) (selectedChemical s) (g
    (isRunning s)) (results s) (showSteps s) (currentStep s) (measurements s)
    (toastMessage s) (currentGuidedStep s) (dropwiseAnimation s) (isTitrating
    s) (isStirring s) (titrationDropCount s) (stirrerActive s)
    (titrationColorProgress s) (cumulativeVolume s) (cumulativeColorIntensity
    s) (completedSteps s) (hasCalculatedResult s) (showResultsPanel s).

Definition with_results (g : list Result -> list Result) (s : State) : State :=
  mkState (equipmentPositions s) (undoHistory s) (selectedChemical s)
    (isRunning s) (g (results s)) (showSteps s) (currentStep s) (measurements
    s) (toastMessage s) (currentGuidedStep s) (dropwiseAnimation s)
    (isTitrating s) (isStirring s) (titrationDropCount s) (stirrerActive s)
    (titrationColorProgress s) (cumulativeVolume s) (cumulativeColorIntensity
    s) (completedSteps s) (hasCalculatedResult s) (showResultsPanel s).

Definition with_currentStep (g : Z -> Z) (s : State) : State :=
  mkState (equipmentPositions s) (undoHistory s) (selectedChemical s)
    (isRunning s) (results s) (showSteps s) (g (currentStep s)) (measurements
    s) (toastMessage s) (currentGuidedStep s) (dropwiseAnimation s)
    (isTitrating s) (isStirring s) (titrationDropCount s) (stirrerActive s)
    (titrationColorProgress s) (cumulativeVolume s) (cumulativeColorIntensity
    s) (completedSteps s) (hasCalculatedResult s) (showResultsPanel s).

Definition with_measurements (g : Measurements -> Measurements) (s : State) : State :=
  mkState (equipmentPositions s) (undoHistory s) (selectedChemical s)
    (isRunning s) (results s) (showSteps s) (currentStep s) (g (measurements
    s)) (toastMessage s) (currentGuidedStep s) (dropwiseAnimation s)
    (isTitrating s) (isStirring s) (titrationDropCount s) (stirrerActive s)
    (titrationColorProgress s) (cumulativeVolume s) (cumulativeColorIntensity
    s) (completedSteps s) (hasCalculatedResult s) (showResultsPanel s).

Definition with_toastMessage (g : option string -> option string) (s : State) : State :=
  mkState (equipmentPositions s) (undoHistory s) (selectedChemical s)
    (isRunning s) (results s) (showSteps s) (currentStep s) (measurements s)
    (g (toastMessage s)) (currentGuidedStep s) (dropwiseAnimation s)
    (isTitrating s) (isStirring s) (titrationDropCount s) (stirrerActive s)
    (titrationColorProgress s) (cumulativeVolume s) (cumulativeColorIntensity
    s) (completedSteps s) (hasCalculatedResult s) (showResultsPanel s).

Definition with_currentGuidedStep (g : Z -> Z) (s : State) : State :=
  mkState (equipmentPositions s) (undoHistory s) (selectedChemical s)
    (isRunning s) (results s) (showSteps s) (currentStep s) (measurements s)
    (toastMessage s) (g (currentGuidedStep s)) (dropwiseAnimation s)
    (isTitrating s) (isStirring s) (titrationDropCount s) (stirrerActive s)
    (titrationColorProgress s) (cumulativeVolume s) (cumulativeColorIntensity
    s) (completedSteps s) (hasCalculatedResult s) (showResultsPanel s).

Definition with_dropwiseAnimation (g : DropwiseAnimation -> DropwiseAnimation) (s : State) : State :=
  mkState (equipmentPositions s) (undoHistory s) (selectedChemical s)
    (isRunning s) (results s) (showSteps s) (currentStep s) (measurements s)
    (toastMessage s) (currentGuidedStep s) (g (dropwiseAnimation s))
    (isTitrating s) (isStirring s) (titrationDropCount s) (stirrerActive s)
    (titrationColorProgress s) (cumulativeVolume s) (cumulativeColorIntensity
    s) (completedSteps s) (hasCalculatedResult s) (showResultsPanel s).

Definition with_isTitrating (g : bool -> bool) (s : State) : State :=
  mkState (equipmentPositions s) (undoHistory s) (selectedChemical s)
    (isRunning s) (results s) (showSteps s) (currentStep s) (measurements s)
    (toastMessage s) (currentGuidedStep s) (dropwiseAnimation s) (g
    (isTitrating s)) (isStirring s) (titrationDropCount s) (stirrerActive s)
    (titrationColorProgress s) (cumulativeVolume s) (cumulativeColorIntensity
    s) (completedSteps s) (hasCalculatedResult s) (showResultsPanel s).

Definition with_isStirring (g : bool -> bool) (s : State) : State :=
  mkState (equipmentPositions s) (undoHistory s) (selectedChemical s)
    (isRunning s) (results s) (showSteps s) (currentStep s) (measurements s)
    (toastMessage s) (currentGuidedStep s) (dropwiseAnimation s) (isTitrating
    s) (g (isStirring s)) (titrationDropCount s) (stirrerActive s)
    (titrationColorProgress s) (cumulativeVolume s) (cumulativeColorIntensity
    s) (completedSteps s) (hasCalculatedResult s) (showResultsPanel s).

Definition with_titrationDropCount (g : Z -> Z) (s : State) : State :=
  mkState (equipmentPositions s) (undoHistory s) (selectedChemical s)
    (isRunning s) (results s) (showSteps s) (currentStep s) (measurements s)
    (toastMessage s) (currentGuidedStep s) (dropwiseAnimation s) (isTitrating
    s) (isStirring s) (g (titrationDropCount s)) (stirrerActive s)
    (titrationColorProgress s) (cumulativeVolume s) (cumulativeColorIntensity
    s) (completedSteps s) (hasCalculatedResult s) (showResultsPanel s).

Definition with_stirrerActive (g : bool -> bool) (s : State) : State :=
  mkState (equipmentPositions s) (undoHistory s) (selectedChemical s)
    (isRunning s) (results s) (showSteps s) (currentStep s) (measurements s)
    (toastMessage s) (currentGuidedStep s) (dropwiseAnimation s) (isTitrating
    s) (isStirring s) (titrationDropCount s) (g (stirrerActive s))
    (titrationColorProgress s) (cumulativeVolume s) (cumulativeColorIntensity
    s) (completedSteps s) (hasCalculatedResult s) (showResultsPanel s).

Definition with_titrationColorProgress (g : number -> number) (s : State) : State :=
  mkState (equipmentPositions s) (undoHistory s) (selectedChemical s)
    (isRunning s) (results s) (showSteps s) (currentStep s) (measurements s)
    (toastMessage s) (currentGuidedStep s) (dropwiseAnimation s) (isTitrating
    s) (isStirring s) (titrationDropCount s) (stirrerActive s) (g
    (titrationColorProgress s)) (cumulativeVolume s) (cumulativeColorIntensity
    s) (completedSteps s) (hasCalculatedResult s) (showResultsPanel s).

Definition with_cumulativeVolume (g : number -> number) (s : State) : State :=
  mkState (equipmentPositions s) (undoHistory s) (selectedChemical s)
    (isRunning s) (results s) (showSteps s) (currentStep s) (measurements s)
    (toastMessage s) (currentGuidedStep s) (dropwiseAnimation s) (isTitrating
    s) (isStirring s) (titrationDropCount s) (stirrerActive s)
    (titrationColorProgress s) (g (cumulativeVolume s))
    (cumulativeColorIntensity s) (completedSteps s) (hasCalculatedResult s)
    (showResultsPanel s).

Definition with_cumulativeColorIntensity (g : number -> number) (s : State) : State :=
  mkState (equipmentPositions s) (undoHistory s) (selectedChemical s)
    (isRunning s) (results s) (showSteps s) (currentStep s) (measurements s)
    (toastMessage s) (currentGuidedStep s) (dropwiseAnimation s) (isTitrating
    s) (isStirring s) (titrationDropCount s) (stirrerActive s)
    (titrationColorProgress s) (cumulativeVolume s) (g
    (cumulativeColorIntensity s)) (completedSteps s) (hasCalculatedResult s)
    (showResultsPanel s).

Definition with_completedSteps (g : list Z -> list Z) (s : State) : State :=
  mkState (equipmentPositions s) (undoHistory s) (selectedChemical s)
    (isRunning s) (results s) (showSteps s) (currentStep s) (measurements s)
    (toastMessage s) (currentGuidedStep s) (dropwiseAnimation s) (isTitrating
    s) (isStirring s) (titrationDropCount s) (stirrerActive s)
    (titrationColorProgress s) (cumulativeVolume s) (cumulativeColorIntensity
    s) (g (completedSteps s)) (hasCalculatedResult s) (showResultsPanel s).

Definition with_hasCalculatedResult (g : bool -> bool) (s : State) : State :=
  mkState (equipmentPositions s) (undoHistory s) (selectedChemical s)
    (isRunning s) (results s) (showSteps s) (currentStep s) (measurements s)
    (toastMessage s) (currentGuidedStep s) (dropwiseAnimation s) (isTitrating
    s) (isStirring s) (titrationDropCount s) (stirrerActive s)
    (titrationColorProgress s) (cumulativeVolume s) (cumulativeColorIntensity
    s) (completedSteps s) (g (hasCalculatedResult s)) (showResultsPanel s).

Definition with_showResultsPanel (g : bool -> bool) (s : State) : State :=
  mkState (equipmentPositions s) (undoHistory s) (selectedChemical s)
    (isRunning s) (results s) (showSteps s) (currentStep s) (measurements s)
    (toastMessage s) (currentGuidedStep s) (dropwiseAnimation s) (isTitrating
    s) (isStirring s) (titrationDropCount s) (stirrerActive s)
    (titrationColorProgress s) (cumulativeVolume s) (cumulativeColorIntensity
    s) (completedSteps s) (hasCalculatedResult s) (g (showResultsPanel s)).

Definition initialMeasurements : Measurements :=
  mkMeasurements (int 0) (int 0) (int 7) (int 0) (int 0) (int 25).

Definition noDropwiseAnimation : DropwiseAnimation := mkDropwise false "" [].

(** The state after the first render. *)
Definition initialState (props : Props) : State :=
  mkState [] [] None false [] true (stepNumber props) initialMeasurements None 1
          noDropwiseAnimation false false 0 false (int 0) (int 5) (int 0) [] false false.

(* ------------------------------------------------------------------ *)
(** ** Sets of step numbers *)

Definition Set_has (s : list Z) (x : Z) : bool := existsb (Z.eqb x) s.

Definition Set_add (s : list Z) (x : Z) : list Z :=
  if Set_has s x then s else s ++ [x].

(** [new Set(array)]: the elements of the array, first occurrences only. *)
Definition Set_of_array (xs : list Z) : list Z := fold_left Set_add xs [].

Definition Set_size (s : list Z) : Z := Z.of_nat (List.length s).

(** [s.includes(sub)] on strings. *)
Definition String_includes (s sub : string) : bool :=
  match String.index 0 sub s with
  | Some _ => true
  | None => false
  end.

(* ------------------------------------------------------------------ *)
(** ** Scheduled callbacks and commands *)

(** The callbacks the component hands to [setTimeout], [setInterval] and
    [requestAnimationFrame].  A callback defined inside a handler carries
    the render [r] that handler closes over. *)
Inductive task : Type :=
| ClearToast
| MarkStepDeferred (stepNumber : Z) (message : string)
| AnimateColor (r : State) (startTime : Z)
| CycleClose (r : State) (currentVolume currentColorIntensity : number)
| DropTick (r : State) (burette : EquipmentPosition)
| RemoveDrop (dropId : string).

Inductive timer : Type :=
| Timeout (ms : Z)
| Interval (ms : Z)
| AnimationFrame.

(** Calls of the optional callbacks of the parent. *)
Inductive output : Type :=
| ProgressUpdate (progressPercentage : number) (completed : Z)
| StepProgressUpdate (completed : Z)
| TimerStart
| TimerStop
| TimerReset
| ProgressReset.

Inductive effect : Type :=
| Schedule (t : timer) (k : task)
| Emit (o : output).

(** A command transforms the live state and lists the effects it
    requests, in order. *)
Definition command : Type := State -> State * list effect.

Definition skip : command := fun s => (s, []).

Definition seq (c1 c2 : command) : command :=
  fun s =>
    let '(s1, e1) := c1 s in
    let '(s2, e2) := c2 s1 in
    (s2, e1 ++ e2).

Declare Scope command_scope.
Delimit Scope command_scope with command.
Bind Scope command_scope with command.
Notation "c1 ;; c2" := (seq c1 c2) (at level 61, right associativity) : command_scope.
Local Open Scope command_scope.

Definition modify (g : State -> State) : command := fun s => (g s, []).
Definition request (e : effect) : command := fun s => (s, [e]).

Definition setTimeout (k : task) (ms : Z) : command := request (Schedule (Timeout ms) k).
Definition setInterval (k : task) (ms : Z) : command := request (Schedule (Interval ms) k).
Definition requestAnimationFrame (k : task) : command := request (Schedule AnimationFrame k).
Definition call (o : output) : command := request (Emit o).

(** The state setters.  A setter called with an updater function
    (written [prev => ...] in the source) takes the function; the others
    take the new value. *)
Definition setEquipmentPositions (g : list EquipmentPosition -> list EquipmentPosition) : command :=
  modify (with_equipmentPositions g).
Definition setUndoHistory (g : list (list EquipmentPosition) -> list (list EquipmentPosition)) : command :=
  modify (with_undoHistory g).
Definition setSelectedChemical (v : option string) : command :=
  modify (with_selectedChemical (fun _ => v)).
Definition setIsRunning (v : bool) : command :=
  modify (with_isRunning (fun _ => v)).
Definition setResults (g : list Result -> list Result) : command :=
  modify (with_results g).
Definition setCurrentStep (v : Z) : command :=
  modify (with_currentStep (fun _ => v)).
Definition setMeasurements (g : Measurements -> Measurements) : command :=
  modify (with_measurements g).
Definition setToastMessage (v : option string) : command :=
  modify (with_toastMessage (fun _ => v)).
Definition setCurrentGuidedStep (v : Z) : command :=
  modify (with_currentGuidedStep (fun _ => v)).
Definition setDropwiseAnimation (g : DropwiseAnimation -> DropwiseAnimation) : command :=
  modify (with_dropwiseAnimation g).
Definition setIsTitrating (v : bool) : command :=
  modify (with_isTitrating (fun _ => v)).
Definition setIsStirring (v : bool) : command :=
  modify (with_isStirring (fun _ => v)).
Definition setTitrationDropCount (g : Z -> Z) : command :=
  modify (with_titrationDropCount g).
Definition setStirerActive (v : bool) : command :=
  modify (with_stirrerActive (fun _ => v)).
Definition setTitrationColorProgress (v : number) : command :=
  modify (with_titrationColorProgress (fun _ => v)).
Definition setCumulativeVolume (v : number) : command :=
  modify (with_cumulativeVolume (fun _ => v)).
Definition setCumulativeColorIntensity (v : number) : command :=
  modify (with_cumulativeColorIntensity (fun _ => v)).
Definition setCompletedSteps (g : list Z -> list Z) : command :=
  modify (with_completedSteps g).
Definition setHasCalculatedResult (v : bool) : command :=
  modify (with_hasCalculatedResult (fun _ => v)).
Definition setShowResultsPanel (v : bool) : command :=
  modify (with_showResultsPanel (fun _ => v)).

(* ------------------------------------------------------------------ *)
(** ** The step tracker *)

Section Handlers.

Variable props : Props.

(** The body deferred by [markStepCompleted] with [setTimeout(..., 0)].
    It queues the updater of [setCompletedSteps], sets the notification
    and schedules its clearing; the updater, and with it the progress
    callbacks it calls, runs when React next renders, after the rest of
    the body. *)
Definition markStepDeferred (stepNumber : Z) (message : string) : command :=
  fun s =>
    let prev := completedSteps s in
    let newCompletedSteps := Set_of_array (prev ++ [stepNumber]) in
    let progressPercentage :=
      Math_round (mul (div (int (Set_size newCompletedSteps))
                           (int (allSteps_length props))) (int 100)) in
    (setToastMessage
       (Some ("✅ Step " ++ toString (int stepNumber) ++ " completed: " ++ message)%string) ;;
     setTimeout ClearToast 3000 ;;
     setCompletedSteps (fun _ => newCompletedSteps) ;;
     call (ProgressUpdate progressPercentage (Set_size newCompletedSteps)) ;;
     call (StepProgressUpdate (Set_size newCompletedSteps))) s.

(** [markStepCompleted] as created in render [r]: the test reads the
    [completedSteps] of that render. *)
Definition markStepCompleted (r : State) (stepNumber : Z) (message : string) : command :=
  if String_includes (experimentTitle props) "Acid-Base"
     && negb (Set_has (completedSteps r) stepNumber)
  then setTimeout (MarkStepDeferred stepNumber message) 0
  else skip.

(* ------------------------------------------------------------------ *)
(** ** The titration handlers *)

Definition is_equipment (name : string) (pos : EquipmentPosition) : bool :=
  String.eqb (eq_id pos) name.

Definition is_chemical (name : string) (c : ChemicalQuantity) : bool :=
  String.eqb (chem_id c) name.

Definition thermodynamics_HCl_NaOH : Thermodynamics :=
  mkThermodynamics (lit (-573 # 10)) (lit (-799 # 10)) (int 100000000000000).

Definition initialResult (now : Z) : Result :=
  mkResult ("titration_start_" ++ toString (int now))%string
    success
    "Titration Analysis Started"
    "Real-time analysis of acid-base titration in progress. Monitoring color changes and endpoint detection."
    now
    (mkCalculation
       (int 5) (int 30) "~0.1 M (calculating...)" (lit (1 # 10)) (lit (5 # 10000))
       "HCl + NaOH → NaCl + H₂O (in progress)"
       (int 20) (lit (65 # 10))
       "HCl(aq) + NaOH(aq) → NaCl(aq) + H₂O(l)"
       "Acid-Base Titration - Initial Analysis"
       ["Titration in progress"; "Monitoring pH changes"; "Awaiting endpoint"]
       ["1. Initial setup: HCl solution prepared with phenolphthalein";
        "2. NaOH addition started from burette";
        "3. Gradual neutralization occurring";
        "4. pH slowly increasing towards endpoint";
        "5. Monitoring for color change to pink"]
       thermodynamics_HCl_NaOH).

(** The result appended when a cycle closes; [r] is the render the
    animation closes over. *)
Definition titrationResult (r : State) (now : Z) (currentVolume : number) : Result :=
  let over := gt (cumulativeColorIntensity r) (int 1) in
  mkResult (toString (int now))
    (if over then warning else success)
    (if over then "Over-Titration Detected" else "Acid-Base Titration Cycle Complete")
    (if over
     then "Solution is over-titrated - Deeper pink color indicates excess base. Press 'Start Titration' to continue adding more NaOH."
     else "Titration cycle complete - Solution turned pink. Press 'Start Titration' again to continue adding NaOH.")
    now
    (mkCalculation
       (sub currentVolume (int 5)) currentVolume "0.1000 M HCl determined"
       (lit (1 # 10)) (lit (25 # 10000))
       "HCl + NaOH �� NaCl + H₂O (with phenolphthalein endpoint)"
       (int 100) (lit (83 # 10))
       "HCl(aq) + NaOH(aq) → NaCl(aq) + H₂O(l)"
       "Acid-Base Titration Complete"
       ["Sodium Chloride (NaCl)"; "Water (H₂O)"; "Pink endpoint reached"]
       ["1. Initial: HCl (colorless) + phenolphthalein (colorless in acid)";
        "2. NaOH addition: Gradual neutralization occurs";
        "3. Near endpoint: pH rises rapidly";
        "4. Endpoint: Phenolphthalein turns pink (pH > 8.2)";
        "5. Result: Equivalent moles of acid and base reacted"]
       thermodynamics_HCl_NaOH).

Definition naoh_in_flask (amount : number) : ChemicalQuantity :=
  mkChemical "naoh" "Sodium Hydroxide" "transparent" amount "0.1 M".

(** [prev.map(pos => pos.id === "conical_flask" ? f(pos) : pos)]. *)
Definition map_flask (g : EquipmentPosition -> EquipmentPosition)
    (prev : list EquipmentPosition) : list EquipmentPosition :=
  map (fun pos => if is_equipment "conical_flask" pos then g pos else pos) prev.

Definition with_chemicals (g : list ChemicalQuantity -> list ChemicalQuantity)
    (pos : EquipmentPosition) : EquipmentPosition :=
  mkEquipment (eq_id pos) (eq_x pos) (eq_y pos) (g (eq_chemicals pos)).

Definition with_amount (a : number -> number) (c : ChemicalQuantity) : ChemicalQuantity :=
  mkChemical (chem_id c) (chem_name c) (chem_color c) (a (chem_amount c))
             (chem_concentration c).

(** The callback of the timeout that closes a cycle, one second after
    [progress] reached 1. *)
Definition cycleClose (r : State) (currentVolume currentColorIntensity : number)
    (now : Z) : command :=
  if isTitrating r then
    setCumulativeVolume currentVolume ;;
    setCumulativeColorIntensity currentColorIntensity ;;
    setIsTitrating false ;;
    setDropwiseAnimation (fun _ => noDropwiseAnimation) ;;
    setResults (fun prev => prev ++ [titrationResult r now currentVolume]) ;;
    setToastMessage (Some "🎯 Endpoint reached! Results Panel opened automatically.") ;;
    setTimeout ClearToast 4000
  else skip.

Definition duration : Z := 8000.

Definition progress_at (startTime now : Z) : number :=
  Math_min (div (int (now - startTime)) (int duration)) (int 1).

Definition easeInOut (progress : number) : number :=
  if lt progress (lit (5 # 10))
  then mul (mul (int 2) progress) progress
  else sub (int 1) (div (Math_pow (add (mul (int (-2)) progress) (int 2)) 3) (int 2)).

(** One frame of the animation started by [handleStartTitration] in
    render [r] at [startTime]. *)
Definition animateColor (r : State) (startTime : Z) (now : Z) : command :=
  let progress := progress_at startTime now in
  let easedProgress := easeInOut progress in
  let currentColorIntensity := add (cumulativeColorIntensity r) easedProgress in
  let volumeIncrease := mul progress (int 20) in
  let currentVolume := add (cumulativeVolume r) volumeIncrease in
  let currentAmount := add (int 1) (mul progress (int 2)) in
  setTitrationColorProgress currentColorIntensity ;;
  setMeasurements (fun prev =>
    mkMeasurements currentVolume
                   (m_concentration prev)
                   (add (lit (65 # 10)) (mul progress (lit (28 # 10))))
                   (sub (lit (1 # 10)) (mul progress (lit (5 # 100))))
                   (mul (div currentVolume (int 1000)) (lit (1 # 10)))
                   (m_temperature prev)) ;;
  setEquipmentPositions
    (map_flask (with_chemicals
       (map (fun chemical =>
               if is_chemical "naoh" chemical
               then with_amount (fun _ => currentAmount) chemical
               else chemical)))) ;;
  (if ge easedProgress (lit (3 # 10)) && negb (Set_has (completedSteps r) 5)
   then markStepCompleted r 5 "Endpoint identified - solution turned pink"
   else skip) ;;
  (if ge progress (int 1)
   then setTimeout (CycleClose r currentVolume currentColorIntensity) 1000
   else skip) ;;
  (if lt progress (int 1)
   then requestAnimationFrame (AnimateColor r startTime)
   else skip).

(** One tick of the interval started by [startDropwiseAnimation] in
    render [r]; [rnd] is the text of [Math.random()].  Returning without
    re-arming the interval is [clearInterval]. *)
Definition dropTick (r : State) (burette : EquipmentPosition) (now : Z)
    (rnd : string) : command :=
  if negb (isTitrating r) then skip
  else
    let dropId := ("drop_" ++ toString (int now) ++ "_" ++ rnd)%string in
    let newDrop :=
      mkDrop dropId (eq_x burette) (add (eq_y burette) (int 50)) "transparent" in
    setDropwiseAnimation (fun prev => mkDropwise true "naoh" (dw_drops prev ++ [newDrop])) ;;
    setTitrationDropCount (fun prev => prev + 1) ;;
    (if Z.rem (titrationDropCount r) 10 =? 0
     then setEquipmentPositions
            (map_flask (fun pos =>
               match find (is_chemical "naoh") (eq_chemicals pos) with
               | Some _ =>
                   with_chemicals
                     (map (fun c => if is_chemical "naoh" c
                                    then with_amount (fun a => add a (lit (1 # 10))) c
                                    else c)) pos
               | None =>
                   with_chemicals (fun cs => cs ++ [naoh_in_flask (lit (1 # 10))]) pos
               end))
     else skip) ;;
    setTimeout (RemoveDrop dropId) 1500 ;;
    setInterval (DropTick r burette) 800.

Definition removeDrop (dropId : string) : command :=
  setDropwiseAnimation (fun prev =>
    mkDropwise (dw_active prev) (dw_chemicalId prev)
               (filter (fun drop => negb (String.eqb (drop_id drop) dropId)) (dw_drops prev))).

Definition startDropwiseAnimation (r : State) (burette conicalFlask : EquipmentPosition)
  : command :=
  setInterval (DropTick r burette) 800.

(** [handleStartTitration] as created in render [r], called at [now]. *)
Definition handleStartTitration (r : State) (now : Z) : command :=
  let burette := find (is_equipment "burette") (equipmentPositions r) in
  let conicalFlask := find (is_equipment "conical_flask") (equipmentPositions r) in
  let stirrer := find (is_equipment "magnetic_stirrer") (equipmentPositions r) in
  match burette, conicalFlask with
  | Some burette, Some conicalFlask =>
      let hasNaOH := existsb (is_chemical "naoh") (eq_chemicals burette) in
      if negb hasNaOH then
        setToastMessage (Some "⚠��� Please add NaOH to the burette first!") ;;
        setTimeout ClearToast 3000
      else
        setIsTitrating true ;;
        setShowResultsPanel true ;;
        markStepCompleted r 4 "Initial titration started" ;;
        (match stirrer with
         | Some _ =>
             if negb (isStirring r) then
               setIsStirring true ;;
               setStirerActive true ;;
               setToastMessage (Some "🧪 Starting titration with automatic stirring - NaOH added to flask!")
             else setToastMessage (Some "🧪 Starting titration - NaOH added to conical flask!")
         | None => setToastMessage (Some "🧪 Starting titration - NaOH added to conical flask!")
         end) ;;
        setTimeout ClearToast 3000 ;;
        (let hasNaOHInFlask := existsb (is_chemical "naoh") (eq_chemicals conicalFlask) in
         if negb hasNaOHInFlask
         then setEquipmentPositions
                (map_flask (with_chemicals (fun cs => cs ++ [naoh_in_flask (int 1)])))
         else skip) ;;
        setResults (fun prev => prev ++ [initialResult now]) ;;
        setToastMessage (Some "📊 Analysis Panel opened - Monitoring titration progress") ;;
        setTimeout ClearToast 3000 ;;
        setTitrationColorProgress (int 0) ;;
        requestAnimationFrame (AnimateColor r now) ;;
        startDropwiseAnimation r burette conicalFlask
  | _, _ =>
      setToastMessage (Some "⚠️ Please place both burette and conical flask first!") ;;
      setTimeout ClearToast 3000
  end.

Definition handleStopTitration (r : State) : command :=
  setIsTitrating false ;;
  setDropwiseAnimation (fun _ => noDropwiseAnimation) ;;
  (if isStirring r then
     setIsStirring false ;;
     setStirerActive false ;;
     setToastMessage (Some "⏸️ Titration stopped - Stirring automatically stopped")
   else setToastMessage (Some "⏸️ Titration stopped")) ;;
  setTimeout ClearToast 2000.

(** The [onClick] of the Start/Stop Titration button of render [r]. *)
Definition titrationButton_onClick (r : State) (now : Z) : command :=
  if isTitrating r then handleStopTitration r else handleStartTitration r now.

Definition handleStartStirring (r : State) : command :=
  let stirrer := find (is_equipment "magnetic_stirrer") (equipmentPositions r) in
  let conicalFlask := find (is_equipment "conical_flask") (equipmentPositions r) in
  match stirrer, conicalFlask with
  | Some _, Some _ =>
      setIsStirring true ;;
      setStirerActive true ;;
      setToastMessage (Some "🌀 Magnetic stirrer activated!") ;;
      setTimeout ClearToast 2000
  | _, _ =>
      setToastMessage (Some "�����️ Please place both magnetic stirrer and conical flask!") ;;
      setTimeout ClearToast 3000
  end.

Definition handleStopStirring : command :=
  setIsStirring false ;;
  setStirerActive false ;;
  setToastMessage (Some "⏹️ Stirring stopped") ;;
  setTimeout ClearToast 2000.

Definition stirringButton_onClick (r : State) : command :=
  if isStirring r then handleStopStirring else handleStartStirring r.

(* ------------------------------------------------------------------ *)
(** ** The other handlers *)

Definition handleStartExperiment : command :=
  setIsRunning true ;; call TimerStart.

Definition onStop : command :=
  setIsRunning false ;; call TimerStop.

(** The [onReset] of the experiment controls. *)
Definition onReset : command :=
  setEquipmentPositions (fun _ => []) ;;
  setUndoHistory (fun _ => []) ;;
  setResults (fun _ => []) ;;
  setIsRunning false ;;
  setCurrentStep (stepNumber props) ;;
  setSelectedChemical None ;;
  setMeasurements (fun _ => initialMeasurements) ;;
  setToastMessage None ;;
  setCurrentGuidedStep 1 ;;
  setDropwiseAnimation (fun _ => noDropwiseAnimation) ;;
  setIsTitrating false ;;
  setIsStirring false ;;
  setStirerActive false ;;
  setTitrationDropCount (fun _ => 0) ;;
  setTitrationColorProgress (int 0) ;;
  setCumulativeVolume (int 5) ;;
  setCumulativeColorIntensity (int 0) ;;
  setCompletedSteps (fun _ => []) ;;
  setHasCalculatedResult false ;;
  setShowResultsPanel false ;;
  call TimerReset ;;
  call ProgressReset ;;
  setToastMessage (Some "🔄 Experiment reset successfully!") ;;
  setTimeout ClearToast 3000.

Definition handleUndo (r : State) : command :=
  match rev (undoHistory r) with
  | previousState :: _ =>
      setEquipmentPositions (fun _ => previousState) ;;
      setUndoHistory (fun prev => removelast prev) ;;
      setToastMessage (Some "↩️ Last action undone") ;;
      setTimeout ClearToast 2000
  | [] => skip
  end.

Definition handleClearResults : command := setResults (fun _ => []).

Definition handleStepClick (stepId : Z) : command := setCurrentStep stepId.

Definition handleTrialAdded (r : State) : command :=
  if String_includes (experimentTitle props) "Acid-Base"
  then markStepCompleted r 6 "Concentration calculated - first trial added"
  else skip.

(* ------------------------------------------------------------------ *)
(** ** Running callbacks and events *)

(** A scheduled callback fires at [now]. *)
Definition run_task (k : task) (now : Z) (rnd : string) : command :=
  match k with
  | ClearToast => setToastMessage None
  | MarkStepDeferred stepNumber message => markStepDeferred stepNumber message
  | AnimateColor r startTime => animateColor r startTime now
  | CycleClose r currentVolume currentColorIntensity =>
      cycleClose r currentVolume currentColorIntensity now
  | DropTick r burette => dropTick r burette now rnd
  | RemoveDrop dropId => removeDrop dropId
  end.

(** What can happen to the component.  [StepTrigger] stands for a call of
    [markStepCompleted] by the placement and drop handlers, which reach
    the step set in no other way. *)
Inductive event : Type :=
| TitrationButton
| StirringButton
| StartExperiment
| StopExperiment
| ResetExperiment
| Undo
| ClearResults
| StepClick (stepId : Z)
| TrialAdded
| StepTrigger (stepNumber : Z) (message : string)
| Fire (k : task) (rnd : string).

(** An event at [now]: a user event runs the handler of the current
    render, which closes over the live state. *)
Definition perform (e : event) (now : Z) : command :=
  fun s =>
    match e with
    | TitrationButton => titrationButton_onClick s now s
    | StirringButton => stirringButton_onClick s s
    | StartExperiment => handleStartExperiment s
    | StopExperiment => onStop s
    | ResetExperiment => onReset s
    | Undo => handleUndo s s
    | ClearResults => handleClearResults s
    | StepClick stepId => handleStepClick stepId s
    | TrialAdded => handleTrialAdded s s
    | StepTrigger stepNumber message => markStepCompleted s stepNumber message s
    | Fire k rnd => run_task k now rnd s
    end.

(** The live state after a history of timed events. *)
Definition run (history : list (Z * event)) (s : State) : State :=
  fold_left (fun s '(now, e) => fst (perform e now s)) history s.

End Handlers.

(* ------------------------------------------------------------------ *)
(** ** Definitions used by the statements *)

(** The value that [getSolutionHeight] compares with 85, for a finite total. *)
Definition scaled (x : Q) : Q := Qred (Qred (x / inject_Z 100) * inject_Z 85).

(** None of the entries of the reaction table applies. *)
Definition no_special_case (ids : list string) : Prop :=
  ~ (In "hcl" ids /\ In "naoh" ids)
  /\ ~ (In "phenol" ids /\ In "naoh" ids)
  /\ ~ (In "hcl" ids /\ In "phenol" ids).

(** An instance of the parameter [log10_pos] of [Math_log10], used to
    run the model: the integer part of the decimal logarithm. *)
Definition decimal_digits (z : Z) : Z :=
  Z.of_nat (String.length (toString (int z))).

Definition log10_floor (x : Q) : Q :=
  if Qle_bool 1 x then inject_Z (decimal_digits (Qfloor x) - 1)
  else inject_Z (- decimal_digits (Qceiling (/ x) - 1)).

Definition clamp (x : number) : number := Math_max (int 0) (Math_min (int 14) x).

(** [preserves proj c]: the command [c] leaves the observation [proj] of
    the live state unchanged. *)
Definition preserves {A : Type} (proj : State -> A) (c : command) : Prop :=
  forall s, proj (fst (c s)) = proj s.

(** What the handler does when it refuses to start. *)
Definition refusal (warning : string) (s : State) : State * list effect :=
  (with_toastMessage (fun _ => Some warning) s, [Schedule (Timeout 3000) ClearToast]).

(** The render a scheduled callback closes over, when it has one. *)
Definition closes_over (r : State) (k : task) : Prop :=
  match k with
  | AnimateColor r' _ | CycleClose r' _ _ | DropTick r' _ => r' = r
  | ClearToast | MarkStepDeferred _ _ | RemoveDrop _ => True
  end.

(** The callbacks a call of [handleStartTitration] in render [r] gives
    rise to: those it schedules, and those scheduled by them in turn. *)
Inductive spawned (props : Props) (r : State) : task -> Prop :=
| spawned_start (now : Z) (s : State) (t : timer) (k : task) :
    In (Schedule t k) (snd (handleStartTitration props r now s)) ->
    spawned props r k
| spawned_next (k0 : task) (now : Z) (rnd : string) (s : State) (t : timer) (k : task) :
    spawned props r k0 ->
    In (Schedule t k) (snd (run_task props k0 now rnd s)) ->
    spawned props r k.

(* ------------------------------------------------------------------ *)
(** ** Sample inputs used to run the model *)

Definition hcl_sample : ChemicalQuantity :=
  mkChemical "hcl" "Hydrochloric Acid" "#FFE135" (int 25) "0.1 M".

Definition half_full : list ChemicalQuantity :=
  [ mkChemical "hcl" "Hydrochloric Acid" "#FFE135" (int 25) "0.1 M";
    mkChemical "naoh" "Sodium Hydroxide" "#8B5A9B" (int 25) "0.1 M" ].

Definition brimful : list ChemicalQuantity :=
  half_full ++ [ mkChemical "water" "Distilled Water" "transparent" (int 100) "Pure" ].

Definition flask_at_endpoint : list ChemicalQuantity :=
  [ mkChemical "hcl" "Hydrochloric Acid" "#FFE135" (int 25) "0.1 M";
    mkChemical "phenol" "Phenolphthalein" "#FFB6C1" (int 10) "Indicator";
    mkChemical "naoh" "Sodium Hydroxide" "transparent" (int 1) "0.1 M" ].

Definition titration_props : Props := mkProps "Acid-Base Titration" 1 6.

Definition aspirin_props : Props := mkProps "Aspirin Synthesis" 1 6.

(** A workbench ready for titration: a burette filled with NaOH and a
    conical flask with the acid sample and the indicator. *)
Definition bench : list EquipmentPosition :=
  [ mkEquipment "burette" (int 450) (int 120)
      [ mkChemical "naoh" "Sodium Hydroxide" "#8B5A9B" (int 50) "0.1 M" ];
    mkEquipment "conical_flask" (int 450) (int 280)
      [ mkChemical "hcl" "Hydrochloric Acid" "#FFE135" (int 25) "0.1 M";
        mkChemical "phenol" "Phenolphthalein" "#FFB6C1" (int 10) "Indicator" ] ].

Definition ready : State :=
  with_equipmentPositions (fun _ => bench) (initialState titration_props).

(** The state one click on Start Titration later. *)
Definition titrating : State :=
  run titration_props [(1000, TitrationButton)] ready.

(** A render as one committed cycle would leave it, with a second cycle
    running. *)
Definition second_cycle : State :=
  with_isTitrating (fun _ => true)
    (with_cumulativeVolume (fun _ => int 25)
       (with_cumulativeColorIntensity (fun _ => int 1) ready)).

(* ------------------------------------------------------------------ *)
(** ** The chemical registry and the guided steps *)

(** An entry of [experimentChemicals]. *)
Record ChemicalInfo : Type := mkInfo {
  info_id : string;
  info_name : string;
  info_formula : string;
  info_color : string;
  info_concentration : string;
  info_volume : number
}.

Definition experimentChemicals (props : Props) : list ChemicalInfo :=
  if String_includes (experimentTitle props) "Aspirin" then
  [
    mkInfo "salicylic_acid" "Salicylic Acid" "C₇H₆O���"
           "#F8F8FF" "2.0 g" (int 25);
    mkInfo "acetic_anhydride" "Acetic Anhydride" "(CH₃CO)₂O"
           "#DDA0DD" "5 mL" (int 50);
    mkInfo "phosphoric_acid" "Phosphoric Acid" "H₃PO₄"
           "#FFA500" "Catalyst" (int 10);
    mkInfo "distilled_water" "Distilled Water" "H₂O"
           "transparent" "Pure" (int 100) ]
  else if String_includes (experimentTitle props) "Acid-Base" then
  [
    mkInfo "naoh" "Sodium Hydroxide" "NaOH"
           "#8B5A9B" "0.1 M" (int 50);
    mkInfo "hcl" "Hydrochloric Acid" "HCl"
           "#FFE135" "0.1 M" (int 25);
    mkInfo "phenol" "Phenolphthalein" "C₂₀H₁₄O₄"
           "#FFB6C1" "Indicator" (int 10) ]
  else if String_includes (experimentTitle props) "Equilibrium" then
  [
    mkInfo "cocl2" "Cobalt(II) Chloride" "CoCl₂"
           "#FFB6C1" "0.1 M" (int 30);
    mkInfo "hcl_conc" "Concentrated HCl" "HCl"
           "#87CEEB" "12 M" (int 20);
    mkInfo "water" "Distilled Water" "H��O"
           "transparent" "Pure" (int 100);
    mkInfo "ice" "Ice Bath" "H₂O(s)"
           "#E0F6FF" "0°C" (int 50) ]
  else [].

(** An entry of [aspirinGuidedSteps]; a key the source leaves out is
    [None]. *)
Record GuidedStep : Type := mkGuided {
  guided_id : Z;
  guided_title : string;
  guided_instruction : string;
  requiredEquipment : option string;
  requiredChemical : option string;
  targetEquipment : option string;
  guided_completed : bool
}.

Definition aspirinGuidedSteps : list GuidedStep :=
  [
    mkGuided 1 "Set up Erlenmeyer Flask"
      "Drag the 125mL Erlenmeyer Flask to the workbench"
      (Some "erlenmeyer_flask") None None false;
    mkGuided 2 "Add Salicylic Acid"
      "Drag 2.0g of Salicylic Acid into the Erlenmeyer Flask"
      None (Some "salicylic_acid") (Some "erlenmeyer_flask") false;
    mkGuided 3 "Add Acetic Anhydride"
      "Add 5mL of Acetic Anhydride to the flask using the graduated cylinder"
      None (Some "acetic_anhydride") (Some "erlenmeyer_flask") false;
    mkGuided 4 "Add Catalyst"
      "Add 2-3 drops of Phosphoric Acid as catalyst"
      None (Some "phosphoric_acid") (Some "erlenmeyer_flask") false;
    mkGuided 5 "Set up Water Bath"
      "Drag the Water Bath to the workbench and heat to 85°C"
      (Some "water_bath") None None false;
    mkGuided 6 "Heat Reaction"
      "Place the flask in the water bath and heat for 15 minutes"
      None None None false ].

(** [array[i]] for an integer index: [None] outside the array. *)
Definition at_index {A : Type} (xs : list A) (i : Z) : option A :=
  if i <? 0 then None else nth_error xs (Z.to_nat i).

(** [step?.key === value] for an optional step and an optional key. *)
Definition key_is (key : GuidedStep -> option string) (step : option GuidedStep)
    (value : string) : bool :=
  match step with
  | Some st => match key st with Some v => String.eqb v value | None => false end
  | None => false
  end.

(* ------------------------------------------------------------------ *)
(** ** More of the JavaScript library *)

Definition magnitude (x : Q) : Q :=
  match (x ?= 0)%Q with Lt => (- x)%Q | _ => x end.

Definition Math_abs (a : number) : number :=
  match a with
  | Fin x => Fin (Qred (magnitude x))
  | PInf | NInf => PInf
  | NaN => NaN
  end.

Definition digit_string (d : Z) : string :=
  String (ascii_of_nat (Z.to_nat (48 + d))) EmptyString.

(** [x.toFixed(1)] for a finite [x] below 1e21: the sign, then the
    nearest multiple of one tenth of the magnitude, ties upwards; the
    special values print as [toString] prints them.  JavaScript rounds
    the binary64 value, which differs from the decimal literal at a tie
    (it prints 1.45 as 1.4); the model is exact on the amounts the
    registry provides, which are integers. *)
Definition toFixed1 (a : number) : string :=
  match a with
  | Fin x =>
      let tenths := Qfloor (magnitude x * inject_Z 10 + (1 # 2)) in
      ((match (x ?= 0)%Q with Lt => "-" | _ => "" end)
       ++ toString (int (tenths / 10)) ++ "." ++ digit_string (tenths mod 10))%string
  | _ => toString a
  end.

(** [xs.slice(-n)]: the last [n] elements. *)
Definition slice_last {A : Type} (n : nat) (xs : list A) : list A :=
  skipn (List.length xs - n) xs.

(** A state setter whose updater function calls other setters: the
    updater returns the next value together with the commands it
    issued, which run on the state that holds the next value. *)
Definition setEquipmentPositions_with
    (updater : list EquipmentPosition -> list EquipmentPosition * command) : command :=
  fun s =>
    let '(next, inner) := updater (equipmentPositions s) in
    inner (with_equipmentPositions (fun _ => next) s).

(** [prev.map(f)] for a callback [f] that calls setters. *)
Fixpoint map_with_commands (f : EquipmentPosition -> EquipmentPosition * command)
    (prev : list EquipmentPosition) : list EquipmentPosition * command :=
  match prev with
  | [] => ([], skip)
  | pos :: rest =>
      let '(pos', c) := f pos in
      let '(rest', cs) := map_with_commands f rest in
      (pos' :: rest', c ;; cs)
  end.

(* ------------------------------------------------------------------ *)
(** ** Undo history, reactions and chemical drops *)

Section DropHandlers.

Variable log10_pos : Q -> Q.
Variable props : Props.

(** [saveStateToHistory] as created in render [r]. *)
Definition saveStateToHistory (r : State) : command :=
  setUndoHistory (fun prev => slice_last 10 (prev ++ [equipmentPositions r])).

(** [chemicals.find(c => c.id === name)?.amount || 0]. *)
Definition amount_of (name : string) (chemicals : list ChemicalQuantity) : number :=
  match find (is_chemical name) chemicals with
  | Some c => or_else (chem_amount c) (int 0)
  | None => int 0
  end.

(** The result [handleReaction] appends.  It sets neither
    [concentration] nor [moles]; the record has no optional field, and
    the two are filled with what reading an absent key gives in a string
    and in a number context. *)
Definition reactionResult (chemicals : list ChemicalQuantity) (totalVolume : number)
    (equipmentId : string) (now : Z) : Result :=
  let hasIndicator := existsb (is_chemical "phenol") chemicals in
  let hclAmount := amount_of "hcl" chemicals in
  let naohAmount := amount_of "naoh" chemicals in
  let limitingAmount := Math_min hclAmount naohAmount in
  let excessReagent :=
    if gt hclAmount naohAmount then "HCl"
    else if gt naohAmount hclAmount then "NaOH" else "none" in
  let in_flask := String.eqb equipmentId "conical_flask" in
  let reactionTitle :=
    if in_flask
    then (if hasIndicator then "Titration with Indicator in Conical Flask" else "Neutralization in Conical Flask")
    else "Acid-Indicator Interaction Detected" in
  let reactionDescription :=
    if in_flask
    then (if hasIndicator
          then (toFixed1 limitingAmount ++ "mL titration: HCl + NaOH → NaCl + H₂O (C₂��H₁₄O��� endpoint indicator)")%string
          else (toFixed1 limitingAmount ++ "mL reaction: HCl + NaOH → NaCl + H₂O")%string)
    else "HCl + C₂₀H₁����O��� → Colorless complex" in
  mkResult (toString (int now))
    reaction
    reactionTitle
    reactionDescription
    now
    (mkCalculation
       limitingAmount totalVolume "undefined"
       (div (mul limitingAmount (lit (1 # 10))) (div totalVolume (int 1000)))
       NaN
       (if hasIndicator then "HCl + NaOH → NaCl + H₂O (with C₂₀H₁₄O₄)" else "HCl + NaOH → NaCl + H₂O")
       (int 95) (int 7)
       (if hasIndicator
        then "HCl(aq) + NaOH(aq) → NaCl(aq) + H₂O(l) [C₂���H₁₄O₄ endpoint indicator]"
        else "HCl(aq) + NaOH(aq) → NaCl(aq) + H₂O(l)")
       (if hasIndicator then "Acid-Base Titration with Indicator" else "Acid-Base Neutralization")
       (if hasIndicator
        then ["Sodium Chloride (NaCl)"; "Water (H₂O)"; "Color change at endpoint"]
        else ["Sodium Chloride (NaCl)"; "Water (H₂O)"])
       ["1. HCl dissociates: HCl → H⁺ + Cl⁻";
        "2. NaOH dissociates: NaOH ��� Na⁺ + OH��";
        "3. Neutralization: H⁺ + OH⁻ → H₂O";
        "4. Salt formation: Na⁺ + Cl⁻ ��� NaCl"]
       thermodynamics_HCl_NaOH).

(** [handleReaction] as defined in render [r]. *)
Definition handleReaction (r : State) (chemicals : list ChemicalQuantity)
    (totalVolume : number) (equipmentId : string) (now : Z) : command :=
  let hasAcid := existsb (is_chemical "hcl") chemicals in
  let hasBase := existsb (is_chemical "naoh") chemicals in
  if hasAcid && hasBase then
    setResults (fun prev => prev ++ [reactionResult chemicals totalVolume equipmentId now]) ;;
    (if String_includes (experimentTitle props) "Acid-Base"
        && hasAcid && hasBase && negb (hasCalculatedResult r)
     then setHasCalculatedResult true ;;
          markStepCompleted props r 6 "Concentration calculated"
     else skip) ;;
    (if String.eqb equipmentId "conical_flask"
     then setToastMessage (Some "🧪 Acid-indicator reaction complete! HCl + C₂₀H₁₄O₄ → Colorless complex") ;;
          setTimeout ClearToast 4000
     else skip)
  else skip.

Definition dropped (chemical : ChemicalInfo) (chemicalId : string) (amount : number)
  : ChemicalQuantity :=
  mkChemical chemicalId (info_name chemical) (info_color chemical) amount
             (info_concentration chemical).

(** [prev.map(pos => pos.id === equipmentId ? {...pos, chemicals:
    [...pos.chemicals, entry]} : pos)]. *)
Definition add_chemical (equipmentId : string) (entry : ChemicalQuantity)
    (prev : list EquipmentPosition) : list EquipmentPosition :=
  map (fun pos => if String.eqb (eq_id pos) equipmentId
                  then with_chemicals (fun cs => cs ++ [entry]) pos
                  else pos) prev.

Definition guidedStepDone (r : State) : command :=
  modify (with_currentGuidedStep (fun prev => prev + 1)) ;;
  setToastMessage
    (Some ("✓ Step " ++ toString (int (currentGuidedStep r)) ++ " completed!")%string) ;;
  setTimeout ClearToast 3000.

(** The callback of [prev.map] in the general case of
    [handleChemicalDrop]: what it returns for [pos] and the setters it
    calls on the way. *)
Definition drop_into (r : State) (chemical : ChemicalInfo) (chemicalId equipmentId : string)
    (amount : number) (now : Z) (pos : EquipmentPosition) : EquipmentPosition * command :=
  if String.eqb (eq_id pos) equipmentId then
    let newChemicals := eq_chemicals pos ++ [dropped chemical chemicalId amount] in
    (with_chemicals (fun _ => newChemicals) pos,
     setToastMessage
       (Some ("Added " ++ toString amount ++ "mL of " ++ info_name chemical
              ++ " to " ++ equipmentId)%string) ;;
     setTimeout ClearToast 3000 ;;
     (if String_includes (experimentTitle props) "Acid-Base"
      then (if String.eqb chemicalId "hcl" && String.eqb equipmentId "conical_flask"
            then markStepCompleted props r 2 "HCl sample prepared in conical flask"
            else skip)
      else skip) ;;
     (if String_includes (experimentTitle props) "Aspirin"
      then (let currentStep := at_index aspirinGuidedSteps (currentGuidedStep r - 1) in
            if key_is requiredChemical currentStep chemicalId
               && key_is targetEquipment currentStep equipmentId
            then guidedStepDone r
            else skip)
      else skip) ;;
     (if (2 <=? Z.of_nat (List.length newChemicals)) then
        let totalVolume :=
          fold_left (fun sum c => add sum (chem_amount c)) newChemicals (int 0) in
        handleReaction r newChemicals totalVolume equipmentId now ;;
        (if String_includes (experimentTitle props) "Acid-Base"
            || String_includes (experimentTitle props) "Equilibrium"
         then
           match at_index newChemicals (Z.of_nat (List.length newChemicals) - 1) with
           | Some recentChemical =>
               let calculations :=
                 calculateChemicalProperties log10_pos recentChemical
                   (chem_amount recentChemical) totalVolume in
               setMeasurements (fun prev =>
                 mkMeasurements totalVolume
                                (molarity calculations)
                                (ph calculations)
                                (molarity calculations)
                                (moles calculations)
                                (m_temperature prev))
           | None => skip
           end
         else skip)
      else skip))
  else (pos, skip).

(** [handleChemicalDrop] as created in render [r]. *)
Definition handleChemicalDrop (r : State) (chemicalId equipmentId : string)
    (amount : number) (now : Z) : command :=
  match find (fun c => String.eqb (info_id c) chemicalId) (experimentChemicals props) with
  | None => skip
  | Some chemical =>
      saveStateToHistory r ;;
      if String.eqb chemicalId "phenol" && String.eqb equipmentId "conical_flask" then
        setToastMessage
          (Some ("✨ Added " ++ toString amount ++ "mL of Phenolphthalein indicator to conical flask")%string) ;;
        setTimeout ClearToast 3000 ;;
        markStepCompleted props r 3 "Phenolphthalein indicator added" ;;
        setEquipmentPositions (add_chemical equipmentId (dropped chemical chemicalId amount))
      else if String.eqb chemicalId "naoh" && String.eqb equipmentId "burette" then
        setToastMessage
          (Some ("🧪 Filled burette with " ++ toString amount ++ "mL of NaOH solution")%string) ;;
        setTimeout ClearToast 3000 ;;
        markStepCompleted props r 1 "NaOH added to burette - equipment ready" ;;
        setEquipmentPositions (add_chemical equipmentId (dropped chemical chemicalId amount))
      else if String.eqb chemicalId "phenol" && String.eqb equipmentId "burette" then
        setToastMessage
          (Some ("Added " ++ toString amount ++ "mL of " ++ info_name chemical
                 ++ " to burette")%string) ;;
        setTimeout ClearToast 3000 ;;
        setEquipmentPositions (add_chemical equipmentId (dropped chemical chemicalId amount))
      else
        setEquipmentPositions_with
          (map_with_commands (drop_into r chemical chemicalId equipmentId amount now)) ;;
        setSelectedChemical None
  end.

End DropHandlers.

(* ------------------------------------------------------------------ *)
(** ** Placing equipment on the workbench *)

Section Placement.

(** [Math.sqrt] has irrational values; its value is a parameter of the
    development, and nothing proved below depends on it. *)
Variable Math_sqrt : number -> number.
Variable props : Props.

Definition minX : number := int 60.
Definition maxX : number := int 800.
Definition minY : number := int 60.
Definition maxY : number := int 450.

Definition clampX (x : number) : number := Math_max minX (Math_min maxX x).
Definition clampY (y : number) : number := Math_max minY (Math_min maxY y).

Definition titrationEquipment : list string :=
  ["burette"; "conical_flask"; "magnetic_stirrer"].

(** [Math.sqrt(Math.pow(pos.x - x, 2) + Math.pow(pos.y - y, 2))]. *)
Definition distance_to (pos : EquipmentPosition) (x y : number) : number :=
  Math_sqrt (add (Math_pow (sub (eq_x pos) x) 2) (Math_pow (sub (eq_y pos) y) 2)).

(** The object literal [formationPositions], read at a key. *)
Definition formationPositions (formationX : number) (key : string)
  : option (number * number) :=
  if String.eqb key "burette" then Some (formationX, int 120)
  else if String.eqb key "conical_flask" then Some (formationX, int 280)
  else if String.eqb key "magnetic_stirrer" then Some (formationX, int 420)
  else None.

Definition with_position (x y : number) (pos : EquipmentPosition) : EquipmentPosition :=
  mkEquipment (eq_id pos) x y (eq_chemicals pos).

(** The other pieces of the formation, aligned on [formationX]. *)
Definition align_formation (id : string) (formationX : number)
    (prev : list EquipmentPosition) : list EquipmentPosition :=
  map (fun pos =>
         if includes titrationEquipment (eq_id pos) && negb (String.eqb (eq_id pos) id)
         then match formationPositions formationX (eq_id pos) with
              | Some (ax, ay) => with_position (clampX ax) (clampY ay) pos
              | None => pos
              end
         else pos) prev.

(** The snap to the titration formation: the position of the dropped
    piece and the list [prev] after the block, which reassigns it. *)
Definition snap_to_formation (id : string) (x y : number)
    (prev : list EquipmentPosition) : number * number * list EquipmentPosition :=
  let existing := find (is_equipment id) prev in
  let finalX := clampX x in
  let finalY := clampY y in
  if String_includes (experimentTitle props) "Acid-Base"
     && includes titrationEquipment id then
    let otherTitrationEquipment :=
      filter (fun pos => includes titrationEquipment (eq_id pos)
                         && negb (String.eqb (eq_id pos) id)) prev in
    let near :=
      find (fun equipment => lt (distance_to equipment finalX finalY) (int 180))
           otherTitrationEquipment in
    let shouldSnapToFormation := match near with Some _ => true | None => false end in
    let formationCenterX := match near with Some equipment => eq_x equipment | None => finalX end in
    let inCenterArea :=
      lt (Math_abs (sub x (int 450))) (int 150)
      && lt (Math_abs (sub y (int 250))) (int 200) in
    if shouldSnapToFormation
       || (match existing with None => true | Some _ => false end && inCenterArea) then
      let formationX := or_else formationCenterX (int 450) in
      match formationPositions formationX id with
      | Some (sx, sy) => (clampX sx, clampY sy, align_formation id formationX prev)
      | None => (finalX, finalY, prev)
      end
    else (finalX, finalY, prev)
  else (finalX, finalY, prev).

Definition isOverlapping (prev : list EquipmentPosition) (newX newY : number)
    (excludeId : string) : bool :=
  existsb (fun pos =>
    if String.eqb (eq_id pos) excludeId then false
    else if String_includes (experimentTitle props) "Acid-Base"
            && includes titrationEquipment (eq_id pos)
            && includes titrationEquipment excludeId
    then false
    else lt (distance_to pos newX newY) (int 120)) prev.

Definition testPositions (finalX finalY offset : number) : list (number * number) :=
  [ (add finalX offset, finalY);
    (sub finalX offset, finalY);
    (finalX, add finalY offset);
    (finalX, sub finalY offset);
    (add finalX offset, add finalY offset);
    (sub finalX offset, sub finalY offset) ].

(** The two nested loops that look for a free spot: for each offset the
    first test position that overlaps nothing is taken, and the search
    stops as soon as the position overlaps nothing. *)
Fixpoint free_spot (prev : list EquipmentPosition) (id : string)
    (offsets : list number) (finalX finalY : number) : number * number :=
  match offsets with
  | [] => (finalX, finalY)
  | offset :: rest =>
      let '(fx, fy) :=
        match find (fun '(tx, ty) => negb (isOverlapping prev (clampX tx) (clampY ty) id))
                   (testPositions finalX finalY offset) with
        | Some (tx, ty) => (clampX tx, clampY ty)
        | None => (finalX, finalY)
        end in
      if negb (isOverlapping prev fx fy id) then (fx, fy)
      else free_spot prev id rest fx fy
  end.

Definition offsets : list number := [int 30; int 60; int 90; int 120; int 150].

(** The updater [handleEquipmentDrop] passes to [setEquipmentPositions],
    as created in render [r]. *)
Definition place (r : State) (id : string) (x y : number)
    (prev0 : list EquipmentPosition) : list EquipmentPosition * command :=
  let existing := find (is_equipment id) prev0 in
  let '(snapX, snapY, prev) := snap_to_formation id x y prev0 in
  let '(finalX, finalY) :=
    if isOverlapping prev snapX snapY id
    then free_spot prev id offsets snapX snapY
    else (snapX, snapY) in
  match existing with
  | Some _ =>
      (map (fun pos => if String.eqb (eq_id pos) id
                       then with_position finalX finalY pos else pos) prev,
       skip)
  | None =>
      (prev ++ [mkEquipment id finalX finalY []],
       (if String_includes (experimentTitle props) "Aspirin"
        then (let currentStep := at_index aspirinGuidedSteps (currentGuidedStep r - 1) in
              if key_is requiredEquipment currentStep id
              then modify (with_currentGuidedStep (fun prev => prev + 1)) ;;
                   setToastMessage
                     (Some ("✓ Step " ++ toString (int (currentGuidedStep r))
                            ++ " completed!")%string) ;;
                   setTimeout ClearToast 3000
              else skip)
        else skip) ;;
       (if String_includes (experimentTitle props) "Acid-Base"
        then (if String.eqb id "burette"
              then markStepCompleted props r 1 "Burette equipment prepared"
              else skip)
        else skip))
  end.

Definition handleEquipmentDrop (r : State) (id : string) (x y : number) : command :=
  saveStateToHistory r ;;
  setEquipmentPositions_with (place r id x y).

End Placement.

(** An instance of the parameter [Math_sqrt], used to run the model:
    the integer part of the root of the integer part. *)
Definition sqrt_floor (a : number) : number :=
  match a with
  | Fin x => match (x ?= 0)%Q with Lt => NaN | _ => int (Z.sqrt (Qfloor x)) end
  | PInf => PInf
  | NInf | NaN => NaN
  end.

(* ------------------------------------------------------------------ *)
(** ** The Equipment component: drop targets *)

(** [isContainer] of the equipment [id]. *)
Definition isContainer (id : string) : bool :=
  includes ["beaker"; "flask"; "burette"; "erlenmeyer_flask"; "conical_flask";
            "test_tubes"; "beakers"] id.

(** [isValidDrop] in [handleChemicalDragOver], for the chemical dragged
    over the equipment [id]. *)
Definition isValidDrop (chemical_id id : string) : bool :=
  (String.eqb chemical_id "phenol" && String.eqb id "conical_flask")
  || (String.eqb chemical_id "naoh" && String.eqb id "burette")
  || (isContainer id && negb (includes ["phenol"; "naoh"] chemical_id))
  || (includes ["phenol"; "naoh"] chemical_id && isContainer id).

(** The amount [handleChemicalDrop] of the component forwards:
    [chemical.volume || 25]. *)
Definition forwarded_amount (volume : option number) : number :=
  match volume with
  | Some v => or_else v (int 25)
  | None => int 25
  end.

Module Equipment.

(** [handleChemicalDrop] of the component that shows the equipment [id].
    [chemicalData] is the parsed drag data, the id of the chemical and
    its [volume] if it has one, or [None] when the drag carries no
    chemical.  The display flags of the component ([isDragOver],
    [isDropping]) are not part of the model. *)
Definition handleChemicalDrop (onChemicalDrop : string -> string -> number -> command)
    (id : string) (chemicalData : option (string * option number)) : command :=
  match chemicalData with
  | Some (chemical_id, volume) => onChemicalDrop chemical_id id (forwarded_amount volume)
  | None => skip
  end.

(** The [onDrop] attribute of the component:
    [isContainer ? handleChemicalDrop : undefined]. *)
Definition onDrop (onChemicalDrop : string -> string -> number -> command)
    (id : string) (chemicalData : option (string * option number)) : command :=
  if isContainer id then handleChemicalDrop onChemicalDrop id chemicalData else skip.

End Equipment.

(* ------------------------------------------------------------------ *)
(** ** More definitions used by the statements *)

(** [represents a q]: the number [a] is finite, of value [q]. *)
Definition represents (a : number) (q : Q) : Prop :=
  exists x, a = Fin x /\ (x == q)%Q.

(** The curve [easeInOut] computes on a finite progress. *)
Definition ease_curve (q : Q) : Q :=
  if Qlt_le_dec q (1 # 2) then (2 * q * q)%Q
  else (1 - (-2 * q + 2) * (-2 * q + 2) * (-2 * q + 2) * (1 # 2))%Q.

(** A number between two bounds; never true of [NaN]. *)
Definition between (lo hi x : number) : Prop := le lo x = true /\ le x hi = true.

(** A piece of equipment inside the area [handleEquipmentDrop] keeps
    equipment in. *)
Definition on_bench (pos : EquipmentPosition) : Prop :=
  between minX maxX (eq_x pos) /\ between minY maxY (eq_y pos).

(** The total volume [handleChemicalDrop] and [getSolutionHeight]
    compute: the amounts added up from the left, starting at 0. *)
Definition total_amount (cs : list ChemicalQuantity) : number :=
  fold_left (fun sum c => add sum (chem_amount c)) cs (int 0).

(** A finite amount that is not negative. *)
Definition nonneg_amount (c : ChemicalQuantity) : Prop :=
  exists a, chem_amount c = Fin a /\ (0 <= a)%Q.

(** The three combinations [handleChemicalDrop] treats before the
    general case. *)
Definition special_case (chemicalId equipmentId : string) : bool :=
  (String.eqb chemicalId "phenol" && String.eqb equipmentId "conical_flask")
  || (String.eqb chemicalId "naoh" && String.eqb equipmentId "burette")
  || (String.eqb chemicalId "phenol" && String.eqb equipmentId "burette").

(** The equipment called [equipmentId] holds both the acid and the base
    once [entry] is added to it. *)
Definition reacting (equipmentId : string) (entry : ChemicalQuantity)
    (pos : EquipmentPosition) : bool :=
  String.eqb (eq_id pos) equipmentId
  && existsb (is_chemical "hcl") (eq_chemicals pos ++ [entry])
  && existsb (is_chemical "naoh") (eq_chemicals pos ++ [entry]).

(** The callbacks that only clear the toast or record a step. *)
Definition bookkeeping (e : effect) : Prop :=
  match e with
  | Schedule (Timeout _) ClearToast => True
  | Schedule (Timeout ms) (MarkStepDeferred _ _) => ms = 0
  | _ => False
  end.

(** A number that is neither [NaN] nor infinite. *)
Definition finite (a : number) : Prop := exists q, a = Fin q.

(* ------------------------------------------------------------------ *)
(** ** The workbench: where a dragged piece lands *)

(** [Math.max(80, Math.min(size - 80, coordinate))], the distance the
    workbench keeps from its edges. *)
Definition adjusted (size coordinate : number) : number :=
  Math_max (int 80) (Math_min (sub size (int 80)) coordinate).

(** [handleDrop] of the workbench.  [equipment] and [text_plain] are the
    two entries of the drag data ([getData] gives the empty string for a
    missing entry); [left], [top], [width] and [height] describe the
    bounding rectangle of the drop zone. *)
Definition handleDrop (onDrop : string -> number -> number -> command)
    (equipment text_plain : string)
    (clientX clientY left top width height : number) : command :=
  let id := if String.eqb equipment "" then text_plain else equipment in
  if String.eqb id "" then skip
  else
    let x := sub clientX left in
    let y := sub clientY top in
    onDrop id (adjusted width x) (adjusted height y).

(* ------------------------------------------------------------------ *)
(** ** The workbench as a whole *)

(** The procedure panel and the chemical list.  [showSteps] has the two
    buttons of the panel as its only writers. *)
Definition with_showSteps (g : bool -> bool) (s : State) : State :=
  mkState (equipmentPositions s) (undoHistory s) (selectedChemical s)
         (isRunning s) (results s) (g (showSteps s)) (currentStep s)
         (measurements s) (toastMessage s) (currentGuidedStep s)
         (dropwiseAnimation s) (isTitrating s) (isStirring s)
         (titrationDropCount s) (stirrerActive s) (titrationColorProgress s)
         (cumulativeVolume s) (cumulativeColorIntensity s) (completedSteps s)
         (hasCalculatedResult s) (showResultsPanel s).

Definition setShowSteps (v : bool) : command :=
  modify (with_showSteps (fun _ => v)).

(** [handleChemicalSelect] as created in render [r]. *)
Definition handleChemicalSelect (r : State) (id : string) : command :=
  setSelectedChemical
    (match selectedChemical r with
     | Some selected => if String.eqb selected id then None else Some id
     | None => Some id
     end).

(** The Reset button of the calculator bar: the measurements go back to
    their first values, the temperature stays. *)
Definition calculatorReset : command :=
  setMeasurements (fun prev =>
    mkMeasurements (int 0) (int 0) (int 7) (int 0) (int 0) (m_temperature prev)).

Section Workbench.

Variable Math_sqrt : number -> number.
Variable log10_pos : Q -> Q.
Variable props : Props.

(** Everything that can happen to the component: the events of the
    titration model, the drops of equipment and of chemicals, the two
    buttons that fold and unfold the procedure panel
    ([setShowSteps(false)], [setShowSteps(true)]), the selection of a
    chemical and the Reset button of the calculator bar.  The two
    Calculate buttons of that bar only write to the console and have no
    action here.  The two drop handlers are those of the current render:
    their dependency lists hold [aspirinGuidedSteps], an array built
    anew in every render, so that [useCallback] recreates them with each
    render. *)
Inductive action : Type :=
| Event (e : event)
| EquipmentDrop (id : string) (x y : number)
| ChemicalDrop (chemicalId equipmentId : string) (amount : number)
| StepsPanel (shown : bool)
| ChemicalSelect (id : string)
| CalculatorReset.

Definition act (a : action) (now : Z) : command :=
  fun s =>
    match a with
    | Event e => perform props e now s
    | EquipmentDrop id x y => handleEquipmentDrop Math_sqrt props s id x y s
    | ChemicalDrop chemicalId equipmentId amount =>
        handleChemicalDrop log10_pos props s chemicalId equipmentId amount now s
    | StepsPanel shown => setShowSteps shown s
    | ChemicalSelect id => handleChemicalSelect s id s
    | CalculatorReset => calculatorReset s
    end.

(** The live state after a history of timed actions. *)
Definition run_actions (history : list (Z * action)) (s : State) : State :=
  fold_left (fun s '(now, a) => fst (act a now s)) history s.

End Workbench.

(* ------------------------------------------------------------------ *)
(** ** Facts about numbers *)

Section NumberFacts.

Lemma lt_Fin (x y : Q) : lt (Fin x) (Fin y) = true <-> (x < y)%Q.
Proof.
  unfold lt. destruct (Qcompare_spec x y) as [E|L|G]; split; intro H;
    try reflexivity; try discriminate; try assumption.
  - rewrite E in H. exfalso. exact (Qlt_irrefl _ H).
  - exfalso. exact (Qlt_irrefl _ (Qlt_trans _ _ _ H G)).
Qed.

Lemma le_Fin (x y : Q) : le (Fin x) (Fin y) = true <-> (x <= y)%Q.
Proof.
  unfold le. destruct (Qcompare_spec x y) as [E|L|G]; split; intro H;
    try reflexivity; try discriminate.
  - rewrite E. apply Qle_refl.
  - apply Qlt_le_weak. assumption.
  - exfalso. exact (Qlt_irrefl _ (Qle_lt_trans _ _ _ H G)).
Qed.

Lemma lt_Fin_false (x y : Q) : lt (Fin x) (Fin y) = false <-> (y <= x)%Q.
Proof.
  split; intro H.
  - apply Qnot_lt_le. intro L. apply lt_Fin in L. congruence.
  - destruct (lt (Fin x) (Fin y)) eqn:E; [|reflexivity].
    apply lt_Fin in E. exfalso. exact (Qlt_irrefl _ (Qle_lt_trans _ _ _ H E)).
Qed.

Lemma add_comm (a b : number) : add a b = add b a.
Proof.
  destruct a, b; try reflexivity.
  unfold add. f_equal. apply Qred_complete. apply Qplus_comm.
Qed.

Lemma add_assoc (a b c : number) : add (add a b) c = add a (add b c).
Proof.
  destruct a, b, c; try reflexivity.
  unfold add. f_equal. apply Qred_complete. rewrite !Qred_correct. ring.
Qed.

End NumberFacts.

(* ------------------------------------------------------------------ *)
(** ** Solution height *)

Section SolutionHeight.

Let addAmount := fun (sum : number) (chemical : ChemicalQuantity) =>
  add sum (chem_amount chemical).

Lemma reduce_add_shift (l : list ChemicalQuantity) (a b : number) :
  fold_left addAmount l (add a b) = add a (fold_left addAmount l b).
Proof.
  revert b. induction l as [|c l IH]; intro b; [reflexivity|].
  cbn [fold_left]. unfold addAmount at 2 4.
  rewrite add_assoc. apply IH.
Qed.

Lemma reduce_is_totalVolumeMl (l : list ChemicalQuantity) :
  fold_left addAmount l (int 0) = totalVolumeMl l.
Proof.
  induction l as [|c l IH]; [reflexivity|].
  cbn [fold_left totalVolumeMl fold_right]. unfold addAmount at 2.
  rewrite add_comm, reduce_add_shift. f_equal. exact IH.
Qed.

Lemma scaled_correct (x : Q) : (scaled x == x * (85 # 100))%Q.
Proof.
  unfold scaled. rewrite !Qred_correct. unfold inject_Z. field.
Qed.

Lemma spec_height_Fin (x : Q) :
  spec_height_percent (Fin x) =
  if lt (Fin (scaled x)) (int 85) then Fin (scaled x) else int 85.
Proof. reflexivity. Qed.

Lemma spec_height_saturates (t : number) :
  le (int 100) t = true -> spec_height_percent t = int 85.
Proof.
  destruct t as [x| | |]; intro H; try discriminate; [|reflexivity].
  rewrite spec_height_Fin.
  apply le_Fin in H.
  assert (F : lt (Fin (scaled x)) (int 85) = false).
  { apply lt_Fin_false. rewrite scaled_correct. unfold inject_Z in *. lra. }
  now rewrite F.
Qed.

Lemma spec_height_monotone (t1 t2 : number) :
  le t1 t2 = true -> le (spec_height_percent t1) (spec_height_percent t2) = true.
Proof.
  destruct t1 as [x| | |], t2 as [y| | |]; intro H; try discriminate;
    try reflexivity.
  - apply le_Fin in H. rewrite !spec_height_Fin.
    destruct (lt (Fin (scaled x)) (int 85)) eqn:Ex;
      destruct (lt (Fin (scaled y)) (int 85)) eqn:Ey;
      try (apply lt_Fin in Ex); try (apply lt_Fin in Ey);
      try (apply lt_Fin_false in Ex); try (apply lt_Fin_false in Ey);
      apply le_Fin; rewrite ?scaled_correct in *; unfold inject_Z in *; lra.
  - rewrite spec_height_Fin.
    change (spec_height_percent PInf) with (int 85).
    destruct (lt (Fin (scaled x)) (int 85)) eqn:Ex.
    + apply lt_Fin in Ex. apply le_Fin. lra.
    + reflexivity.
  - change (spec_height_percent NInf) with NInf.
    destruct (spec_height_percent (Fin y)) eqn:E; try reflexivity.
    rewrite spec_height_Fin in E.
    destruct (lt (Fin (scaled y)) (int 85)); discriminate.
Qed.

(** C5. [getSolutionHeight] computes [min(85, totalVolumeMl / 100 * 85)]
    for every chemical list; it is non-decreasing in the total volume
    and is exactly 85 as soon as the total volume is at least 100. *)
Theorem getSolutionHeight_min_monotone_saturating :
  forall chemicals chemicals' : list ChemicalQuantity,
    getSolutionHeight chemicals = spec_height_percent (totalVolumeMl chemicals)
    /\ (le (totalVolumeMl chemicals) (totalVolumeMl chemicals') = true ->
        le (getSolutionHeight chemicals) (getSolutionHeight chemicals') = true)
    /\ (le (int 100) (totalVolumeMl chemicals) = true ->
        getSolutionHeight chemicals = int 85).
Proof.
  assert (E : forall l, getSolutionHeight l = spec_height_percent (totalVolumeMl l)).
  { intro l. unfold getSolutionHeight.
    change (fun sum chemical => add sum (chem_amount chemical)) with addAmount.
    now rewrite reduce_is_totalVolumeMl. }
  intros l l'. rewrite !E. split; [reflexivity|split].
  - apply spec_height_monotone.
  - apply spec_height_saturates.
Qed.

End SolutionHeight.

Lemma getSolutionHeight_min_monotone_saturating_witness :
  getSolutionHeight half_full = lit (85 # 2)
  /\ le (getSolutionHeight half_full) (getSolutionHeight brimful) = true
  /\ getSolutionHeight brimful = int 85.
Proof.
  destruct (getSolutionHeight_min_monotone_saturating half_full brimful) as (E & M & _).
  destruct (getSolutionHeight_min_monotone_saturating brimful half_full) as (_ & _ & S).
  split; [rewrite E; reflexivity|].
  split; [apply M; reflexivity|apply S; reflexivity].
Defined.

(* ------------------------------------------------------------------ *)
(** ** Mixed colour: the special cases *)

Section MixedColorPriority.

Lemma includes_In (xs : list string) (x : string) :
  includes xs x = true <-> In x xs.
Proof.
  unfold includes. rewrite existsb_exists. split.
  - intros [y [Hy E]]. apply String.eqb_eq in E. now subst.
  - intro H. exists x. split; [assumption|apply String.eqb_refl].
Qed.

Lemma In_sort_insert (x y : string) (xs : list string) :
  In x (sort_insert y xs) <-> x = y \/ In x xs.
Proof.
  induction xs as [|z xs IH]; cbn [sort_insert].
  - cbn. intuition.
  - destruct (String.leb y z); cbn [In]; [intuition|].
    rewrite IH. intuition.
Qed.

Lemma In_sort (x : string) (xs : list string) : In x (sort xs) <-> In x xs.
Proof.
  induction xs as [|y xs IH]; [reflexivity|].
  cbn [sort fold_right]. fold (sort xs).
  rewrite In_sort_insert, IH. cbn [In]. intuition.
Qed.

Lemma includes_sort (xs : list string) (x : string) :
  includes (sort xs) x = includes xs x.
Proof.
  apply eq_true_iff_eq. rewrite !includes_In. apply In_sort.
Qed.

Lemma zero_not_positive (p : number) :
  strict_eq p (int 0) = true -> gt p (int 0) = false.
Proof.
  destruct p as [x| | |]; try discriminate. cbn [strict_eq int].
  intro H. apply Qeq_bool_iff in H.
  apply lt_Fin_false. rewrite H. apply Qle_refl.
Qed.

(** The three reagents together give the priority colour whatever else
    the mixture holds, as long as no titration colour is in progress. *)
Lemma getMixedColor_three_reagents (chemicals : list ChemicalQuantity) (p : number) :
  In "hcl" (map chem_id chemicals) ->
  In "naoh" (map chem_id chemicals) ->
  In "phenol" (map chem_id chemicals) ->
  strict_eq p (int 0) = true ->
  getMixedColor chemicals p = "#FFB6C1".
Proof.
  intros Hh Hn Hp Hz.
  destruct chemicals as [|c1 [|c2 rest]].
  - contradiction.
  - cbn in Hh, Hn. destruct Hh as [Hh|[]], Hn as [Hn|[]]. congruence.
  - unfold getMixedColor. rewrite !includes_sort.
    apply includes_In in Hh, Hn, Hp. rewrite Hh, Hn, Hp.
    cbn [andb]. now rewrite (zero_not_positive p Hz).
Qed.

(** C4. [getMixedColor] is "transparent" on the empty list, the
    chemical's own colour on a one-element list, and exactly "#FFB6C1"
    on every mixture whose ids are exactly hcl, naoh and phenol while
    [titrationColorProgress] is 0: the reaction table is consulted
    before any averaging of the colours. *)
Theorem getMixedColor_priority :
  (forall p, getMixedColor [] p = "transparent")
  /\ (forall c p, getMixedColor [c] p = chem_color c)
  /\ (forall chemicals p,
        (forall i, In i (map chem_id chemicals) <->
                   i = "hcl" \/ i = "naoh" \/ i = "phenol") ->
        strict_eq p (int 0) = true ->
        getMixedColor chemicals p = "#FFB6C1").
Proof.
  split; [reflexivity|split; [reflexivity|]].
  intros chemicals p Hids Hz.
  apply getMixedColor_three_reagents; try assumption; apply Hids; auto.
Qed.

End MixedColorPriority.

Lemma getMixedColor_priority_witness :
  getMixedColor flask_at_endpoint (int 0) = "#FFB6C1".
Proof.
  apply (proj2 (proj2 getMixedColor_priority)); [|reflexivity].
  intro i. cbn. intuition.
Defined.

(* ------------------------------------------------------------------ *)
(** ** Mixed colour: the weighted-average fallback *)

Section Fallback.

Lemma no_special_case_includes (ids : list string) :
  no_special_case ids ->
  includes (sort ids) "hcl" && includes (sort ids) "naoh" = false
  /\ includes (sort ids) "phenol" && includes (sort ids) "naoh" = false
  /\ includes (sort ids) "hcl" && includes (sort ids) "phenol"
     && negb (includes (sort ids) "naoh") = false.
Proof.
  intros (H1 & H2 & H3). rewrite !includes_sort.
  destruct (includes ids "hcl") eqn:Eh; destruct (includes ids "naoh") eqn:En;
    destruct (includes ids "phenol") eqn:Ep; cbn; repeat split; try reflexivity;
    rewrite ?includes_In in *; exfalso; tauto.
Qed.

(** Once the red and the blue sums are [NaN] they stay [NaN]. *)
Lemma mix_fold_NaN (l : list ChemicalQuantity) (g0 t0 : number) :
  exists g t, fold_left mix_step l (NaN, g0, NaN, t0) = (NaN, g, NaN, t).
Proof.
  revert g0 t0. induction l as [|c l IH]; intros g0 t0; [now exists g0, t0|].
  cbn [fold_left]. unfold mix_step at 2. cbv zeta. cbn [add]. apply IH.
Qed.

(** A colour that is not hexadecimal at its first and third pair of
    characters, as "transparent" is, turns both sums into [NaN]. *)
Lemma mix_fold_transparent (l : list ChemicalQuantity) (r0 g0 b0 t0 : number) :
  (exists c, In c l /\ chem_color c = "transparent") ->
  exists g t, fold_left mix_step l (r0, g0, b0, t0) = (NaN, g, NaN, t).
Proof.
  revert r0 g0 b0 t0. induction l as [|c l IH]; intros r0 g0 b0 t0 (c0 & Hin & Hc);
    [destruct Hin|].
  cbn [fold_left]. destruct Hin as [->|Hin].
  - unfold mix_step at 2. rewrite Hc. cbv zeta.
    change (parseInt16 (substr (remove_first "#" "transparent") 0 2)) with NaN.
    change (parseInt16 (substr (remove_first "#" "transparent") 4 2)) with NaN.
    cbn [mul].
    replace (add r0 NaN) with NaN by (now destruct r0).
    replace (add b0 NaN) with NaN by (now destruct b0).
    apply mix_fold_NaN.
  - unfold mix_step at 2. cbv zeta. apply IH. now exists c0.
Qed.

Lemma getMixedColor_transparent (l : list ChemicalQuantity) (p : number) :
  (2 <= List.length l)%nat ->
  no_special_case (map chem_id l) ->
  (exists c, In c l /\ chem_color c = "transparent") ->
  getMixedColor l p = "transparent"
  \/ exists g, getMixedColor l p = rgb_template NaN g NaN.
Proof.
  intros Hlen Hns Ht.
  destruct l as [|c1 [|c2 rest]]; [cbn in Hlen; lia|cbn in Hlen; lia|].
  unfold getMixedColor.
  destruct (no_special_case_includes _ Hns) as (E1 & E2 & E3).
  rewrite E1, E2, E3.
  destruct (mix_fold_transparent _ (int 0) (int 0) (int 0) (int 0) Ht) as (g & t & ->).
  destruct (strict_eq t (int 0)); [now left|right].
  exists (Math_round (div g t)).
  replace (div NaN t) with NaN by (now destruct t). reflexivity.
Qed.

End Fallback.

(** C9, evaluated on the code.  The example of the claim holds: two
    chemicals coloured #000000 and #FFFFFF, 10 mL each, that match no
    entry of the reaction table mix to "rgb(128, 128, 128)".  But the
    fallback is not an average of the colours on every mixture: it
    reads every colour as three pairs of hexadecimal digits, and a
    chemical coloured "transparent", as the registry's distilled water
    is, makes the red and the blue channel [NaN] whatever the other
    chemicals and the amounts are.  In the aspirin experiment, with the
    Erlenmeyer flask on the workbench, salicylic acid (25) and then
    distilled water (100) dropped into it, the flask is painted
    "rgb(NaN, 58, NaN)". *)
Theorem getMixedColor_transparent_is_not_averaged :
  (forall c1 c2 p,
      chem_color c1 = "#000000" -> chem_amount c1 = int 10 ->
      chem_color c2 = "#FFFFFF" -> chem_amount c2 = int 10 ->
      no_special_case [chem_id c1; chem_id c2] ->
      getMixedColor [c1; c2] p = "rgb(128, 128, 128)")
  /\ (forall l p,
        (2 <= List.length l)%nat ->
        no_special_case (map chem_id l) ->
        (exists c, In c l /\ chem_color c = "transparent") ->
        getMixedColor l p = "transparent"
        \/ exists g, getMixedColor l p = rgb_template NaN g NaN)
  /\ (forall (Math_sqrt : number -> number) (log10_pos : Q -> Q),
        let first_render := initialState aspirin_props in
        let placed :=
          fst (handleEquipmentDrop Math_sqrt aspirin_props first_render
                 "erlenmeyer_flask" (int 300) (int 200) first_render) in
        let with_acid :=
          fst (handleChemicalDrop log10_pos aspirin_props placed
                 "salicylic_acid" "erlenmeyer_flask" (int 25) 1000 placed) in
        let with_water :=
          fst (handleChemicalDrop log10_pos aspirin_props with_acid
                 "distilled_water" "erlenmeyer_flask" (int 100) 2000 with_acid) in
        map (fun pos => (eq_id pos, map chem_id (eq_chemicals pos),
                         getMixedColor (eq_chemicals pos)
                                       (titrationColorProgress with_water)))
            (equipmentPositions with_water)
        = [("erlenmeyer_flask", ["salicylic_acid"; "distilled_water"],
            "rgb(NaN, 58, NaN)")]).
Proof.
  split; [|split].
  - intros c1 c2 p Hc1 Ha1 Hc2 Ha2 Hns.
    destruct (no_special_case_includes _ Hns) as (E1 & E2 & E3).
    unfold getMixedColor. cbn [map]. rewrite E1, E2, E3.
    cbn [fold_left]. unfold mix_step. rewrite Hc1, Ha1, Hc2, Ha2.
    reflexivity.
  - exact getMixedColor_transparent.
  - intros Math_sqrt log10_pos. vm_compute. reflexivity.
Qed.

Section ChemicalPropertiesFacts.

Variable log10_pos : Q -> Q.

Lemma clamp_range (x : number) :
  x <> NaN -> le (int 0) (clamp x) = true /\ le (clamp x) (int 14) = true.
Proof.
  destruct x as [q| | |]; intro H; try (split; reflexivity); [|congruence].
  unfold clamp.
  change (Math_min (int 14) (Fin q))
    with (if lt (Fin q) (int 14) then Fin q else int 14).
  destruct (lt (Fin q) (int 14)) eqn:E14; [|split; reflexivity].
  change (Math_max (int 0) (Fin q))
    with (if lt (int 0) (Fin q) then Fin q else int 0).
  destruct (lt (int 0) (Fin q)) eqn:E0; [|split; reflexivity].
  apply lt_Fin in E14, E0. unfold inject_Z in *. split; apply le_Fin; unfold inject_Z; lra.
Qed.

Lemma div_nonneg (a : Q) (t : number) :
  (0 <= a)%Q -> lt (int 0) t = true ->
  exists v, div (Fin a) t = Fin v /\ (0 <= v)%Q.
Proof.
  intros Ha Ht. destruct t as [y| | |]; try discriminate.
  - apply lt_Fin in Ht. unfold inject_Z in Ht. unfold div.
    destruct (Qcompare_spec y 0) as [E|L|G]; try lra;
      (exists (Qred (a / y)); split; [reflexivity|]);
      rewrite Qred_correct; apply Qle_shift_div_l; lra.
  - exists 0%Q. split; [reflexivity|lra].
Qed.

Lemma log10_nonneg_not_NaN (z : Q) :
  (0 <= z)%Q -> Math_log10 log10_pos (Fin z) <> NaN.
Proof.
  intro Hz. unfold Math_log10.
  destruct (Qcompare_spec z 0) as [E|L|G]; try discriminate. lra.
Qed.

Lemma neg_not_NaN (x : number) : x <> NaN -> neg x <> NaN.
Proof. destruct x; cbn; congruence. Qed.

Lemma sub_14_not_NaN (x : number) : x <> NaN -> sub (int 14) x <> NaN.
Proof. destruct x; cbn; congruence. Qed.

(** The argument of the logarithm for an acid or a base. *)
Lemma effective_molarity_nonneg (a : Q) (t : number) :
  (0 <= a)%Q -> lt (int 0) t = true ->
  exists z, mul (or_else (lit (1 # 10)) (int 0)) (div (Fin a) t) = Fin z /\ (0 <= z)%Q.
Proof.
  intros Ha Ht. destruct (div_nonneg a t Ha Ht) as (v & Ev & Hv).
  rewrite Ev. exists (Qred ((1 # 10) * v)). split; [reflexivity|].
  rewrite Qred_correct. apply Qmult_le_0_compat; lra.
Qed.

Lemma ph_range_nonneg_amount (chemical : ChemicalQuantity) (a : Q) (t : number) :
  (0 <= a)%Q -> lt (int 0) t = true ->
  le (int 0) (ph (calculateChemicalProperties log10_pos chemical (Fin a) t)) = true
  /\ le (ph (calculateChemicalProperties log10_pos chemical (Fin a) t)) (int 14) = true.
Proof.
  intros Ha Ht. unfold calculateChemicalProperties. cbn [ph].
  apply clamp_range. unfold concentrations.
  destruct (effective_molarity_nonneg a t Ha Ht) as (z & Ez & Hz).
  destruct (String.eqb (chem_id chemical) "hcl") eqn:Eh.
  - rewrite Ez. apply neg_not_NaN, log10_nonneg_not_NaN, Hz.
  - destruct (String.eqb (chem_id chemical) "naoh") eqn:En; [|discriminate].
    rewrite Ez. apply sub_14_not_NaN, neg_not_NaN, log10_nonneg_not_NaN, Hz.
Qed.

Lemma zero_volume_ratio (a : Q) (t : number) :
  (0 < a)%Q -> strict_eq t (int 0) = true -> div (Fin a) t = PInf.
Proof.
  intros Ha Ht. destruct t as [y| | |]; try discriminate.
  cbn [strict_eq int] in Ht. apply Qeq_bool_iff in Ht.
  unfold div. destruct (Qcompare_spec y 0) as [E|L|G]; try (unfold inject_Z in *; lra).
  destruct (Qcompare_spec a 0) as [E'|L'|G']; try lra. reflexivity.
Qed.

Lemma zero_volume_properties (chemical : ChemicalQuantity) (a : Q) (t : number) :
  (0 < a)%Q -> strict_eq t (int 0) = true ->
  let r := calculateChemicalProperties log10_pos chemical (Fin a) t in
  (chem_id chemical = "hcl" -> molarity r = PInf /\ ph r = int 0)
  /\ (chem_id chemical = "naoh" -> molarity r = PInf /\ ph r = int 14)
  /\ (chem_id chemical <> "hcl" -> chem_id chemical <> "naoh" ->
      molarity r = NaN /\ ph r = int 7).
Proof.
  intros Ha Ht r. subst r. unfold calculateChemicalProperties.
  rewrite (zero_volume_ratio a t Ha Ht). cbn [molarity ph].
  unfold concentrations. split; [|split].
  - intro E. rewrite E. split; reflexivity.
  - intro E. rewrite E. split; reflexivity.
  - intros Eh En. apply String.eqb_neq in Eh, En. rewrite Eh, En.
    split; [|reflexivity].
    destruct (String.eqb (chem_id chemical) "phenol"); reflexivity.
Qed.

End ChemicalPropertiesFacts.

(** C10 (as amended). For every chemical, every finite amount that is not
    negative and every strictly positive total volume, the pH returned by
    [calculateChemicalProperties] lies in the closed interval from 0 to
    14. *)
Theorem calculateChemicalProperties_ph_range :
  forall (log10_pos : Q -> Q) (chemical : ChemicalQuantity) (a : Q) (totalVolume : number),
    (0 <= a)%Q -> lt (int 0) totalVolume = true ->
    le (int 0) (ph (calculateChemicalProperties log10_pos chemical (Fin a) totalVolume)) = true
    /\ le (ph (calculateChemicalProperties log10_pos chemical (Fin a) totalVolume)) (int 14) = true.
Proof.
  intros. now apply ph_range_nonneg_amount.
Qed.

Lemma calculateChemicalProperties_ph_range_witness :
  le (int 0) (ph (calculateChemicalProperties log10_floor hcl_sample (Fin 25) (int 100))) = true
  /\ le (ph (calculateChemicalProperties log10_floor hcl_sample (Fin 25) (int 100))) (int 14) = true.
Proof.
  apply (calculateChemicalProperties_ph_range log10_floor hcl_sample 25 (int 100));
    [discriminate | reflexivity].
Defined.

(** C10 as first stated fails: a negative amount of hydrochloric acid in
    a positive total volume puts a negative number under the logarithm,
    and the clamp lets the resulting [NaN] through. *)
Lemma calculateChemicalProperties_ph_negative_amount :
  lt (int 0) (int 100) = true
  /\ ph (calculateChemicalProperties log10_floor hcl_sample (int (-25)) (int 100)) = NaN
  /\ le (int 0) (ph (calculateChemicalProperties log10_floor hcl_sample (int (-25)) (int 100)))
     = false.
Proof. repeat split. Qed.

(** C2 (as amended). [calculateChemicalProperties] has no guard on a zero
    total volume: for a positive finite amount the molarity it returns is
    [+Infinity] for hcl and naoh and [NaN] for every other chemical, and
    the pH is the clamped value 0 for hcl, 14 for naoh and 7 for every
    other chemical. *)
Theorem calculateChemicalProperties_zero_volume :
  forall (log10_pos : Q -> Q) (chemical : ChemicalQuantity) (a : Q) (totalVolume : number),
    (0 < a)%Q -> strict_eq totalVolume (int 0) = true ->
    let r := calculateChemicalProperties log10_pos chemical (Fin a) totalVolume in
    (chem_id chemical = "hcl" -> molarity r = PInf /\ ph r = int 0)
    /\ (chem_id chemical = "naoh" -> molarity r = PInf /\ ph r = int 14)
    /\ (chem_id chemical <> "hcl" -> chem_id chemical <> "naoh" ->
        molarity r = NaN /\ ph r = int 7).
Proof.
  intros. now apply zero_volume_properties.
Qed.

Lemma calculateChemicalProperties_zero_volume_witness :
  molarity (calculateChemicalProperties log10_floor hcl_sample (Fin 25) (int 0)) = PInf
  /\ ph (calculateChemicalProperties log10_floor hcl_sample (Fin 25) (int 0)) = int 0.
Proof.
  refine (proj1 (calculateChemicalProperties_zero_volume
                   log10_floor hcl_sample 25 (int 0) _ _) _); reflexivity.
Defined.

(** C2 as first stated fails: with a total volume of 0 the result for
    25 mL of hydrochloric acid is not the neutral default (pH 7,
    molarity 0) but pH 0 and an infinite molarity. *)
Lemma calculateChemicalProperties_zero_volume_unguarded :
  strict_eq (int 0) (int 0) = true
  /\ molarity (calculateChemicalProperties log10_floor hcl_sample (int 25) (int 0)) = PInf
  /\ ph (calculateChemicalProperties log10_floor hcl_sample (int 25) (int 0)) = int 0
  /\ strict_eq (ph (calculateChemicalProperties log10_floor hcl_sample (int 25) (int 0))) (int 7)
     = false.
Proof. repeat split. Qed.

(* ------------------------------------------------------------------ *)
(** ** Frame reasoning for commands *)

Section Frames.

Context {A : Type} (proj : State -> A).

Lemma preserves_skip : preserves proj skip.
Proof. intro s. reflexivity. Qed.

Lemma preserves_request (e : effect) : preserves proj (request e).
Proof. intro s. reflexivity. Qed.

Lemma preserves_seq (c1 c2 : command) :
  preserves proj c1 -> preserves proj c2 -> preserves proj (c1 ;; c2).
Proof.
  intros H1 H2 s. unfold seq.
  specialize (H1 s). destruct (c1 s) as [s1 e1].
  specialize (H2 s1). destruct (c2 s1) as [s2 e2].
  cbn in *. congruence.
Qed.

Lemma preserves_modify (g : State -> State) :
  (forall s, proj (g s) = proj s) -> preserves proj (modify g).
Proof. intros H s. apply H. Qed.

End Frames.

Section StepTrackerFacts.

Variable props : Props.

Lemma markStepCompleted_state (r : State) (n : Z) (msg : string) (s : State) :
  fst (markStepCompleted props r n msg s) = s.
Proof.
  unfold markStepCompleted.
  destruct (String_includes (experimentTitle props) "Acid-Base"
            && negb (Set_has (completedSteps r) n)); reflexivity.
Qed.

Lemma preserves_markStepCompleted {A : Type} (proj : State -> A)
    (r : State) (n : Z) (msg : string) :
  preserves proj (markStepCompleted props r n msg).
Proof. intro s. now rewrite markStepCompleted_state. Qed.

End StepTrackerFacts.

(** Decomposes a goal [preserves proj c] along the structure of [c]; the
    setters of the other fields are discharged by computation. *)
Ltac frame_step :=
  match goal with
  | |- preserves _ (seq _ _) => apply preserves_seq
  | |- preserves _ skip => apply preserves_skip
  | |- preserves _ (request _) => apply preserves_request
  | |- preserves _ (setTimeout _ _) => apply preserves_request
  | |- preserves _ (setInterval _ _) => apply preserves_request
  | |- preserves _ (requestAnimationFrame _) => apply preserves_request
  | |- preserves _ (call _) => apply preserves_request
  | |- preserves _ (modify _) => apply preserves_modify; intro; reflexivity
  | |- preserves _ (markStepCompleted _ _ _ _) => apply preserves_markStepCompleted
  | |- preserves _ (if ?b then _ else _) => destruct b
  | |- preserves _ (match ?x with _ => _ end) => destruct x
  | |- preserves _ _ => solve [intro; reflexivity]
  end.

Ltac frame := cbv zeta; repeat frame_step.

(* ------------------------------------------------------------------ *)
(** ** Reset *)

(** C8. Whatever happened before (any history of events, hence any
    number of titration cycles), the reset handler leaves
    [cumulativeVolume] at 5, [cumulativeColorIntensity] at 0 and the set
    of completed steps empty. *)
Theorem onReset_restores_cumulative_state :
  forall (props : Props) (history : list (Z * event)) (s0 : State) (now : Z),
    let s := run props history s0 in
    let s' := fst (perform props ResetExperiment now s) in
    cumulativeVolume s' = int 5
    /\ cumulativeColorIntensity s' = int 0
    /\ completedSteps s' = []
    /\ isTitrating s' = false.
Proof.
  intros props history s0 now s s'. subst s'.
  generalize s. clear. intro s.
  repeat split.
Qed.

(* ------------------------------------------------------------------ *)
(** ** Starting and stopping the titration *)

Section TitrationControl.

Variable props : Props.

Lemma find_equipment_none (name : string) (eqs : list EquipmentPosition) :
  (forall pos, In pos eqs -> eq_id pos <> name) ->
  find (is_equipment name) eqs = None.
Proof.
  intro H. destruct (find (is_equipment name) eqs) as [pos|] eqn:E; [|reflexivity].
  apply find_some in E. destruct E as [Hin Hid].
  apply String.eqb_eq in Hid. exfalso. exact (H pos Hin Hid).
Qed.

Lemma find_equipment_some (name : string) (eqs : list EquipmentPosition)
    (pos : EquipmentPosition) :
  find (is_equipment name) eqs = Some pos -> In pos eqs /\ eq_id pos = name.
Proof.
  intro E. apply find_some in E. destruct E as [Hin Hid].
  split; [assumption|]. now apply String.eqb_eq.
Qed.

Lemma has_chemical_false (name : string) (cs : list ChemicalQuantity) :
  (forall c, In c cs -> chem_id c <> name) -> existsb (is_chemical name) cs = false.
Proof.
  intro H. destruct (existsb (is_chemical name) cs) eqn:E; [|reflexivity].
  apply existsb_exists in E. destruct E as (c & Hin & Hid).
  apply String.eqb_eq in Hid. exfalso. exact (H c Hin Hid).
Qed.

Lemma handleStartTitration_refuses (r : State) (now : Z) (s : State) :
  (forall pos, In pos (equipmentPositions r) -> eq_id pos <> "burette")
  \/ (forall pos, In pos (equipmentPositions r) -> eq_id pos <> "conical_flask")
  \/ (forall pos c, In pos (equipmentPositions r) -> eq_id pos = "burette" ->
                    In c (eq_chemicals pos) -> chem_id c <> "naoh") ->
  exists warning, handleStartTitration props r now s = refusal warning s.
Proof.
  intros [Hb | [Hf | Hn]]; unfold handleStartTitration.
  - rewrite (find_equipment_none "burette" _ Hb). eexists. reflexivity.
  - rewrite (find_equipment_none "conical_flask" _ Hf).
    destruct (find (is_equipment "burette") (equipmentPositions r)); eexists; reflexivity.
  - destruct (find (is_equipment "burette") (equipmentPositions r)) as [b|] eqn:Eb;
      [|eexists; reflexivity].
    destruct (find (is_equipment "conical_flask") (equipmentPositions r)) as [f|];
      [|eexists; reflexivity].
    apply find_equipment_some in Eb. destruct Eb as [Hin Hid].
    rewrite (has_chemical_false "naoh" (eq_chemicals b)) by (intros c Hc; eapply Hn; eauto).
    eexists. reflexivity.
Qed.

Lemma handleStartTitration_starts_only_if (r : State) (now : Z) (s : State) :
  isTitrating s = false ->
  isTitrating (fst (handleStartTitration props r now s)) = true ->
  (exists b c, In b (equipmentPositions r) /\ eq_id b = "burette"
               /\ In c (eq_chemicals b) /\ chem_id c = "naoh")
  /\ (exists f, In f (equipmentPositions r) /\ eq_id f = "conical_flask").
Proof.
  intros Hidle. unfold handleStartTitration.
  destruct (find (is_equipment "burette") (equipmentPositions r)) as [b|] eqn:Eb;
    [|cbn; congruence].
  destruct (find (is_equipment "conical_flask") (equipmentPositions r)) as [f|] eqn:Ef;
    [|cbn; congruence].
  destruct (existsb (is_chemical "naoh") (eq_chemicals b)) eqn:En;
    [|cbn; congruence].
  intros _. apply find_equipment_some in Eb, Ef.
  apply existsb_exists in En. destruct En as (c & Hc & Hid).
  apply String.eqb_eq in Hid.
  split; [exists b, c|exists f]; intuition.
Qed.

Lemma handleStopTitration_effects (r : State) (s : State) :
  snd (handleStopTitration r s) = [Schedule (Timeout 2000) ClearToast].
Proof. unfold handleStopTitration. destruct (isStirring r); reflexivity. Qed.

Lemma handleStopTitration_idle (r : State) (s : State) :
  isTitrating (fst (handleStopTitration r s)) = false.
Proof. unfold handleStopTitration. destruct (isStirring r); reflexivity. Qed.

Lemma handleStopTitration_volume (r : State) :
  preserves cumulativeVolume (handleStopTitration r).
Proof. unfold handleStopTitration. frame. Qed.

Lemma handleStopTitration_intensity (r : State) :
  preserves cumulativeColorIntensity (handleStopTitration r).
Proof. unfold handleStopTitration. frame. Qed.

End TitrationControl.

(** C7. [handleStartTitration] takes the component from Idle to
    Titrating only if the workbench holds a burette with NaOH in it and a
    conical flask.  If the burette or the flask is missing, or no burette
    on the workbench holds NaOH, it shows a warning and changes nothing
    else: the state is the old one with the toast set, so the equipment,
    the cumulative values and the Idle flag are the same, and the only
    thing scheduled is the timer that clears the toast. *)
Theorem handleStartTitration_preconditions :
  forall (props : Props) (r : State) (now : Z) (s : State),
    let workbench := equipmentPositions r in
    let outcome := handleStartTitration props r now s in
    (isTitrating s = false -> isTitrating (fst outcome) = true ->
       (exists b c, In b workbench /\ eq_id b = "burette"
                    /\ In c (eq_chemicals b) /\ chem_id c = "naoh")
       /\ (exists f, In f workbench /\ eq_id f = "conical_flask"))
    /\ ((forall pos, In pos workbench -> eq_id pos <> "burette")
        \/ (forall pos, In pos workbench -> eq_id pos <> "conical_flask")
        \/ (forall pos c, In pos workbench -> eq_id pos = "burette" ->
                          In c (eq_chemicals pos) -> chem_id c <> "naoh") ->
        exists warning,
          toastMessage (fst outcome) = Some warning
          /\ fst outcome = with_toastMessage (fun _ => Some warning) s
          /\ snd outcome = [Schedule (Timeout 3000) ClearToast]
          /\ equipmentPositions (fst outcome) = equipmentPositions s
          /\ cumulativeVolume (fst outcome) = cumulativeVolume s
          /\ cumulativeColorIntensity (fst outcome) = cumulativeColorIntensity s
          /\ isTitrating (fst outcome) = isTitrating s).
Proof.
  intros props r now s workbench outcome. subst workbench outcome. split.
  - apply handleStartTitration_starts_only_if.
  - intro H. destruct (handleStartTitration_refuses props r now s H) as [warning E].
    exists warning. rewrite E. repeat split.
Qed.

(** On an empty workbench the handler only warns. *)
Lemma handleStartTitration_preconditions_witness :
  exists warning,
    handleStartTitration titration_props (initialState titration_props) 1000
                         (initialState titration_props)
    = refusal warning (initialState titration_props).
Proof.
  destruct (proj2 (handleStartTitration_preconditions titration_props
                     (initialState titration_props) 1000 (initialState titration_props)))
    as (warning & _ & E1 & E2 & _).
  - left. intros pos [].
  - exists warning. unfold refusal. rewrite <- E1, <- E2.
    apply surjective_pairing.
Defined.

(** C1 (as amended). The Idle/Titrating flag is tested by the Start/Stop
    button, not by [handleStartTitration]: in a render where
    [isTitrating] is true the click runs [handleStopTitration], which
    leaves [cumulativeVolume] and [cumulativeColorIntensity] unchanged,
    requests no animation frame (the only thing scheduled is the timer
    that clears the toast) and returns the component to Idle. *)
Theorem titrationButton_while_titrating :
  forall (props : Props) (r : State) (now : Z) (s : State),
    isTitrating r = true ->
    let outcome := titrationButton_onClick props r now s in
    outcome = handleStopTitration r s
    /\ cumulativeVolume (fst outcome) = cumulativeVolume s
    /\ cumulativeColorIntensity (fst outcome) = cumulativeColorIntensity s
    /\ snd outcome = [Schedule (Timeout 2000) ClearToast]
    /\ isTitrating (fst outcome) = false.
Proof.
  intros props r now s H outcome. subst outcome.
  unfold titrationButton_onClick. rewrite H. repeat split.
  - apply handleStopTitration_volume.
  - apply handleStopTitration_intensity.
  - apply handleStopTitration_effects.
  - apply handleStopTitration_idle.
Qed.

Lemma titrationButton_while_titrating_witness :
  isTitrating titrating = true
  /\ cumulativeVolume (fst (titrationButton_onClick titration_props titrating 2000 titrating))
     = cumulativeVolume titrating
  /\ snd (titrationButton_onClick titration_props titrating 2000 titrating)
     = [Schedule (Timeout 2000) ClearToast].
Proof.
  split; [reflexivity|].
  pose proof (titrationButton_while_titrating titration_props titrating 2000 titrating
                eq_refl) as (_ & Hv & _ & He & _).
  split; [exact Hv|exact He].
Defined.

(** C1 as first stated fails: [handleStartTitration] itself does not
    look at [isTitrating].  Called in the render [titrating] (apparatus
    in place, titration running) it requests a second animation loop,
    and when that loop closes its cycle the cumulative volume moves from
    5 to 25. *)
Lemma handleStartTitration_while_titrating :
  isTitrating titrating = true
  /\ cumulativeVolume titrating = int 5
  /\ In (Schedule AnimationFrame (AnimateColor titrating 2000))
        (snd (handleStartTitration titration_props titrating 2000 titrating))
  /\ In (Schedule (Timeout 1000) (CycleClose titrating (int 25) (int 1)))
        (snd (animateColor titration_props titrating 2000 10000
                (fst (handleStartTitration titration_props titrating 2000 titrating))))
  /\ cumulativeVolume
       (fst (cycleClose titrating (int 25) (int 1) 11000
               (fst (animateColor titration_props titrating 2000 10000
                       (fst (handleStartTitration titration_props titrating 2000 titrating))))))
     = int 25.
Proof.
  repeat split; vm_compute; tauto.
Qed.

(* ------------------------------------------------------------------ *)
(** ** The titration cycle *)

Lemma seq_fst (c1 c2 : command) (s : State) :
  fst ((c1 ;; c2) s) = fst (c2 (fst (c1 s))).
Proof. unfold seq. destruct (c1 s) as [s1 e1]. cbn. now destruct (c2 s1). Qed.

Lemma seq_snd (c1 c2 : command) (s : State) :
  snd ((c1 ;; c2) s) = snd (c1 s) ++ snd (c2 (fst (c1 s))).
Proof. unfold seq. destruct (c1 s) as [s1 e1]. cbn. now destruct (c2 s1). Qed.

Section TitrationCycle.

Variable props : Props.

Lemma markStepCompleted_effects (r : State) (n : Z) (msg : string) (s : State)
    (t : timer) (k : task) :
  In (Schedule t k) (snd (markStepCompleted props r n msg s)) ->
  k = MarkStepDeferred n msg.
Proof.
  unfold markStepCompleted.
  destruct (String_includes (experimentTitle props) "Acid-Base"
            && negb (Set_has (completedSteps r) n)); cbn; intro H.
  - destruct H as [E|[]]. now inversion E.
  - destruct H.
Qed.

Lemma handleStartTitration_closure (r : State) (now : Z) (s : State)
    (t : timer) (k : task) :
  In (Schedule t k) (snd (handleStartTitration props r now s)) -> closes_over r k.
Proof.
  unfold handleStartTitration.
  destruct (find (is_equipment "burette") (equipmentPositions r)) as [b|];
    [|cbn; intros [E|[]]; now inversion E].
  destruct (find (is_equipment "conical_flask") (equipmentPositions r)) as [f|];
    [|cbn; intros [E|[]]; now inversion E].
  destruct (negb (existsb (is_chemical "naoh") (eq_chemicals b)));
    [cbn; intros [E|[]]; now inversion E|].
  rewrite !seq_snd, !in_app_iff.
  intros H; decompose [or] H; clear H;
    try (apply markStepCompleted_effects in H0; subst k; exact I);
    try match goal with
        | H : In _ (snd (match ?x with _ => _ end _)) |- _ => destruct x
        end;
    try match goal with
        | H : In _ (snd ((if ?b then _ else _) _)) |- _ => destruct b
        end;
    cbn in *;
    repeat match goal with
           | H : _ \/ _ |- _ => destruct H
           | H : False |- _ => destruct H
           | H : Schedule _ _ = Schedule _ _ |- _ => inversion H; clear H; subst
           end;
    try exact I; try reflexivity.
Qed.

Lemma animateColor_closure (r : State) (startTime now : Z) (s : State)
    (t : timer) (k : task) :
  In (Schedule t k) (snd (animateColor props r startTime now s)) -> closes_over r k.
Proof.
  unfold animateColor. cbv zeta.
  rewrite !seq_snd, !in_app_iff.
  intros H; decompose [or] H; clear H;
    repeat match goal with
           | H : In _ (snd ((if ?b then _ else _) _)) |- _ => destruct b
           end;
    try match goal with
        | H : In _ (snd (markStepCompleted _ _ _ _ _)) |- _ =>
            apply markStepCompleted_effects in H; subst k; exact I
        end;
    cbn in *;
    repeat match goal with
           | H : _ \/ _ |- _ => destruct H
           | H : False |- _ => destruct H
           | H : Schedule _ _ = Schedule _ _ |- _ => inversion H; clear H; subst
           end;
    try exact I; try reflexivity.
Qed.

Lemma cycleClose_stale_flag (r : State) (cv ci : number) (now : Z) (s : State) :
  isTitrating r = false -> cycleClose r cv ci now s = (s, []).
Proof. intro H. unfold cycleClose. now rewrite H. Qed.

Lemma dropTick_stale_flag (r : State) (b : EquipmentPosition) (now : Z) (rnd : string)
    (s : State) :
  isTitrating r = false -> dropTick r b now rnd s = (s, []).
Proof. intro H. unfold dropTick. now rewrite H. Qed.

(** Every callback spawned by a titration started in render [r] still
    closes over [r], however late it runs. *)
Lemma spawned_closes_over (r : State) (k : task) :
  isTitrating r = false -> spawned props r k -> closes_over r k.
Proof.
  intros Hr H. induction H as [now s t k Hin | k0 now rnd s t k Hk0 IH Hin].
  - eapply handleStartTitration_closure; eassumption.
  - destruct k0 as [|n msg|r' st|r' cv ci|r' b|d]; cbn [run_task closes_over] in *.
    + cbn in Hin. destruct Hin.
    + unfold markStepDeferred in Hin. cbn in Hin.
      decompose [or] Hin; try discriminate; try contradiction.
      match goal with H : Schedule _ _ = Schedule _ _ |- _ => inversion H end.
      exact I.
    + subst r'. eapply animateColor_closure; eassumption.
    + subst r'. rewrite cycleClose_stale_flag in Hin by assumption. destruct Hin.
    + subst r'. rewrite dropTick_stale_flag in Hin by assumption. destruct Hin.
    + cbn in Hin. destruct Hin.
Qed.

Lemma animateColor_volume (r : State) (startTime now : Z) :
  preserves cumulativeVolume (animateColor props r startTime now).
Proof. unfold animateColor. frame. Qed.

Lemma animateColor_intensity (r : State) (startTime now : Z) :
  preserves cumulativeColorIntensity (animateColor props r startTime now).
Proof. unfold animateColor. frame. Qed.

Lemma animateColor_flag (r : State) (startTime now : Z) :
  preserves isTitrating (animateColor props r startTime now).
Proof. unfold animateColor. frame. Qed.

Lemma markStepDeferred_frame {A : Type} (proj : State -> A) (n : Z) (msg : string) :
  (forall g s, proj (with_completedSteps g s) = proj s) ->
  (forall g s, proj (with_toastMessage g s) = proj s) ->
  preserves proj (markStepDeferred props n msg).
Proof.
  intros H1 H2 s. unfold markStepDeferred. cbn. now rewrite H1, H2.
Qed.

End TitrationCycle.

Section TitrationCycleFacts.

Variable props : Props.

Lemma progress_at_end (startTime now : Z) :
  startTime + duration <= now -> progress_at startTime now = int 1.
Proof.
  intro H. unfold progress_at, duration in *.
  set (e := now - startTime).
  assert (He : (1 <= inject_Z e / inject_Z 8000)%Q).
  { apply Qle_shift_div_l; [reflexivity|].
    rewrite Qmult_1_l. rewrite <- Zle_Qle. subst e. lia. }
  change (div (int e) (int 8000)) with (Fin (Qred (inject_Z e / inject_Z 8000))).
  change (Math_min (Fin (Qred (inject_Z e / inject_Z 8000))) (int 1))
    with (if lt (int 1) (Fin (Qred (inject_Z e / inject_Z 8000)))
          then int 1 else Fin (Qred (inject_Z e / inject_Z 8000))).
  destruct (lt (int 1) (Fin (Qred (inject_Z e / inject_Z 8000)))) eqn:E; [reflexivity|].
  apply lt_Fin_false in E. rewrite Qred_correct in E.
  change (int 1) with (Fin (Qred 1)). f_equal. apply Qred_complete.
  apply Qle_antisym; assumption.
Qed.

(** While the cycle runs, the displayed volume is
    [cumulativeVolume + progress * 20]. *)
Lemma animateColor_in_cycle_volume (r : State) (startTime now : Z) (s : State) :
  m_volume (measurements (fst (animateColor props r startTime now s)))
  = add (cumulativeVolume r) (mul (progress_at startTime now) (int 20)).
Proof.
  unfold animateColor. cbv zeta.
  rewrite seq_fst, seq_fst.
  match goal with
  | |- m_volume (measurements (fst (?rest ?s1))) = _ =>
      assert (P : preserves measurements rest) by frame; rewrite P
  end.
  reflexivity.
Qed.

(** At the end of the cycle the frame schedules the close, with the
    volume advanced by 20 and the colour intensity by 1. *)
Lemma animateColor_schedules_close (r : State) (startTime now : Z) (s : State) :
  startTime + duration <= now ->
  In (Schedule (Timeout 1000)
        (CycleClose r (add (cumulativeVolume r) (int 20))
                      (add (cumulativeColorIntensity r) (int 1))))
     (snd (animateColor props r startTime now s)).
Proof.
  intro H. unfold animateColor. cbv zeta. rewrite (progress_at_end _ _ H).
  rewrite !seq_snd, !in_app_iff.
  do 4 right. left. cbn. left. reflexivity.
Qed.

(** When the close does run with [isTitrating] true in its render, it
    commits exactly the values the frame computed. *)
Lemma cycleClose_commits (r : State) (cv ci : number) (now : Z) (s : State) :
  isTitrating r = true ->
  cumulativeVolume (fst (cycleClose r cv ci now s)) = cv
  /\ cumulativeColorIntensity (fst (cycleClose r cv ci now s)) = ci
  /\ isTitrating (fst (cycleClose r cv ci now s)) = false.
Proof. intro H. unfold cycleClose. rewrite H. repeat split. Qed.

(** No callback of a titration started from the button (a render with
    [isTitrating] false) ever changes the cumulative values or returns
    the component to Idle. *)
Lemma button_started_cycle_commits_nothing (r : State) (k : task)
    (now : Z) (rnd : string) (s : State) :
  isTitrating r = false ->
  spawned props r k ->
  cumulativeVolume (fst (run_task props k now rnd s)) = cumulativeVolume s
  /\ cumulativeColorIntensity (fst (run_task props k now rnd s)) = cumulativeColorIntensity s
  /\ isTitrating (fst (run_task props k now rnd s)) = isTitrating s.
Proof.
  intros Hr Hk. pose proof (spawned_closes_over props r k Hr Hk) as Hc.
  destruct k as [|n msg|r' st|r' cv ci|r' b|d]; cbn [run_task closes_over] in *;
    try subst r'.
  - repeat split.
  - repeat split; apply markStepDeferred_frame; reflexivity.
  - split; [apply animateColor_volume|split];
      [apply animateColor_intensity|apply animateColor_flag].
  - rewrite cycleClose_stale_flag by assumption. repeat split.
  - rewrite dropTick_stale_flag by assumption. repeat split.
  - repeat split.
Qed.

End TitrationCycleFacts.

(** C3, evaluated on the code.  From the ready workbench, Start
    Titration is clicked at 1000 ms; the frame at 9000 ms has
    [progress = 1], shows 25 mL and schedules the close with volume 25
    and intensity 1; the close runs at 10000 ms.  Its guard reads the
    [isTitrating] of the render the handler was created in, which is
    false, so nothing is committed: [cumulativeVolume] is still 5 (not
    25), [cumulativeColorIntensity] still 0, the component is still
    Titrating and no cycle result has been appended. *)
Theorem first_titration_cycle_is_not_committed :
  let started := perform titration_props TitrationButton 1000 ready in
  let last_frame :=
    run_task titration_props (AnimateColor ready 1000) 9000 "" (fst started) in
  let closed :=
    run_task titration_props (CycleClose ready (int 25) (int 1)) 10000 ""
             (fst last_frame) in
  In (Schedule AnimationFrame (AnimateColor ready 1000)) (snd started)
  /\ m_volume (measurements (fst last_frame)) = int 25
  /\ In (Schedule (Timeout 1000) (CycleClose ready (int 25) (int 1))) (snd last_frame)
  /\ closed = (fst last_frame, [])
  /\ cumulativeVolume (fst closed) = int 5
  /\ cumulativeColorIntensity (fst closed) = int 0
  /\ isTitrating (fst closed) = true
  /\ map res_title (results (fst closed)) = ["Titration Analysis Started"].
Proof.
  cbv zeta. repeat split; vm_compute; tauto.
Qed.

(** Even where the close does commit, the over-titration flag reads the
    intensity of the render the cycle started in: closing the second
    cycle commits an intensity of 2 but files the result as a success. *)
Lemma second_cycle_close_is_filed_as_success :
  let last_frame :=
    run_task titration_props (AnimateColor second_cycle 1000) 9000 "" second_cycle in
  let closed :=
    run_task titration_props (CycleClose second_cycle (int 45) (int 2)) 10000 ""
             (fst last_frame) in
  In (Schedule (Timeout 1000) (CycleClose second_cycle (int 45) (int 2))) (snd last_frame)
  /\ cumulativeVolume (fst closed) = int 45
  /\ cumulativeColorIntensity (fst closed) = int 2
  /\ gt (cumulativeColorIntensity (fst closed)) (int 1) = true
  /\ map res_type (results (fst closed)) = [success]
  /\ map res_title (results (fst closed)) = ["Acid-Base Titration Cycle Complete"].
Proof.
  cbv zeta. repeat split; vm_compute; tauto.
Qed.

(* ------------------------------------------------------------------ *)
(** ** The completed-step set *)

Section CompletedSteps.

Lemma Set_has_In (s : list Z) (x : Z) : Set_has s x = true <-> In x s.
Proof.
  unfold Set_has. rewrite existsb_exists. split.
  - intros (y & Hy & E). apply Z.eqb_eq in E. now subst.
  - intro H. exists x. split; [assumption|apply Z.eqb_refl].
Qed.

Lemma Set_add_In (s : list Z) (x y : Z) : In y (Set_add s x) <-> In y s \/ y = x.
Proof.
  unfold Set_add. destruct (Set_has s x) eqn:E.
  - apply Set_has_In in E. split; [auto|]. intros [H|H]; [assumption|now subst].
  - rewrite in_app_iff. cbn. intuition.
Qed.

Lemma Set_add_NoDup (s : list Z) (x : Z) : NoDup s -> NoDup (Set_add s x).
Proof.
  intro H. unfold Set_add. destruct (Set_has s x) eqn:E; [assumption|].
  apply NoDup_app; [assumption|repeat constructor; intros []|].
  intros y Hy [Hx|[]]. subst y.
  apply Set_has_In in Hy. congruence.
Qed.

Lemma fold_Set_add (xs acc : list Z) :
  NoDup acc ->
  NoDup (fold_left Set_add xs acc)
  /\ forall y, In y (fold_left Set_add xs acc) <-> In y acc \/ In y xs.
Proof.
  revert acc. induction xs as [|x xs IH]; intros acc H; cbn [fold_left].
  - split; [assumption|]. intro y. cbn. tauto.
  - destruct (IH (Set_add acc x) (Set_add_NoDup acc x H)) as [N I].
    split; [assumption|]. intro y. rewrite I, Set_add_In. cbn. intuition.
Qed.

Lemma Set_of_array_NoDup (xs : list Z) : NoDup (Set_of_array xs).
Proof. apply fold_Set_add. constructor. Qed.

Lemma Set_of_array_In (xs : list Z) (y : Z) : In y (Set_of_array xs) <-> In y xs.
Proof.
  unfold Set_of_array. destruct (fold_Set_add xs [] (NoDup_nil Z)) as [_ I].
  rewrite I. cbn. tauto.
Qed.

Variable props : Props.

Lemma markStepDeferred_steps (n : Z) (msg : string) (s : State) :
  completedSteps (fst (markStepDeferred props n msg s))
  = Set_of_array (completedSteps s ++ [n]).
Proof. reflexivity. Qed.

(** The handlers and callbacks that never write the step set. *)
Lemma perform_keeps_steps (e : event) (now : Z) :
  e <> ResetExperiment ->
  (forall n msg rnd, e <> Fire (MarkStepDeferred n msg) rnd) ->
  preserves completedSteps (perform props e now).
Proof.
  intros Hreset Hmark s.
  destruct e as [| | | | | | |stepId| |n msg|k rnd]; cbn [perform];
    try contradiction.
  - unfold titrationButton_onClick.
    destruct (isTitrating s);
      [unfold handleStopTitration | unfold handleStartTitration];
      match goal with |- completedSteps (fst (?c s)) = _ =>
        assert (P : preserves completedSteps c) by frame; apply P end.
  - unfold stirringButton_onClick.
    destruct (isStirring s);
      [unfold handleStopStirring | unfold handleStartStirring];
      match goal with |- completedSteps (fst (?c s)) = _ =>
        assert (P : preserves completedSteps c) by frame; apply P end.
  - reflexivity.
  - reflexivity.
  - unfold handleUndo.
    match goal with |- completedSteps (fst (?c s)) = _ =>
      assert (P : preserves completedSteps c) by frame; apply P end.
  - reflexivity.
  - reflexivity.
  - unfold handleTrialAdded.
    match goal with |- completedSteps (fst (?c s)) = _ =>
      assert (P : preserves completedSteps c) by frame; apply P end.
  - apply preserves_markStepCompleted.
  - destruct k as [|n msg|r st|r cv ci|r b|d]; cbn [run_task].
    + reflexivity.
    + exfalso. exact (Hmark n msg rnd eq_refl).
    + assert (P : preserves completedSteps (animateColor props r st now))
        by (unfold animateColor; frame).
      apply P.
    + assert (P : preserves completedSteps (cycleClose r cv ci now))
        by (unfold cycleClose; frame).
      apply P.
    + assert (P : preserves completedSteps (dropTick r b now rnd))
        by (unfold dropTick; frame).
      apply P.
    + reflexivity.
Qed.

(** No event but the reset takes a step out of the set. *)
Lemma perform_steps_monotone (e : event) (now : Z) (s : State) (m : Z) :
  e <> ResetExperiment ->
  In m (completedSteps s) ->
  In m (completedSteps (fst (perform props e now s))).
Proof.
  intros Hreset Hm.
  assert (D : (exists n msg rnd, e = Fire (MarkStepDeferred n msg) rnd)
              \/ (forall n msg rnd, e <> Fire (MarkStepDeferred n msg) rnd)).
  { destruct e as [| | | | | | |?| |? ?|k rnd]; try (right; discriminate).
    destruct k as [|n msg|? ?|? ? ?|? ?|?]; try (right; discriminate).
    left. eauto. }
  destruct D as [(n & msg & rnd & E)|D].
  - subst e. cbn [perform run_task]. rewrite markStepDeferred_steps.
    apply Set_of_array_In, in_app_iff. now left.
  - now rewrite (perform_keeps_steps e now Hreset D s).
Qed.

End CompletedSteps.

(** What the tracker does guarantee.  In an Acid-Base experiment a call
    of [markStepCompleted] schedules the insertion of its step exactly
    when the completed set of the render it was created in lacks the
    step.  The scheduled insertion leaves the set without repetition,
    with the step in it exactly once and every earlier step still there;
    a call from a render that shows the result does nothing.  No event
    other than the reset removes a step from the set. *)
Lemma markStepCompleted_guarantees :
  forall (props : Props) (r : State) (n : Z) (msg : string) (s : State)
         (now : Z) (rnd : string),
    (String_includes (experimentTitle props) "Acid-Base" = true ->
     Set_has (completedSteps r) n = false ->
     markStepCompleted props r n msg s
     = (s, [Schedule (Timeout 0) (MarkStepDeferred n msg)]))
    /\ (String_includes (experimentTitle props) "Acid-Base" = false
        \/ Set_has (completedSteps r) n = true ->
        markStepCompleted props r n msg s = (s, []))
    /\ (let s' := fst (run_task props (MarkStepDeferred n msg) now rnd s) in
        count_occ Z.eq_dec (completedSteps s') n = 1%nat
        /\ NoDup (completedSteps s')
        /\ (forall m, In m (completedSteps s) -> In m (completedSteps s'))
        /\ (forall m, In m (completedSteps s') -> In m (completedSteps s) \/ m = n)
        /\ markStepCompleted props s' n msg s' = (s', []))
    /\ (forall (e : event) (m : Z),
          e <> ResetExperiment ->
          In m (completedSteps s) ->
          In m (completedSteps (fst (perform props e now s)))).
Proof.
  intros props r n msg s now rnd. repeat split.
  - intros Ht Hn. unfold markStepCompleted. now rewrite Ht, Hn.
  - intros [Ht|Hn]; unfold markStepCompleted.
    + now rewrite Ht.
    + rewrite Hn. now rewrite andb_false_r.
  - cbn [run_task]. rewrite markStepDeferred_steps.
    apply NoDup_count_occ'; [apply Set_of_array_NoDup|].
    apply Set_of_array_In, in_app_iff. right. now left.
  - cbn [run_task]. rewrite markStepDeferred_steps. apply Set_of_array_NoDup.
  - intros m Hm. cbn [run_task]. rewrite markStepDeferred_steps.
    apply Set_of_array_In, in_app_iff. now left.
  - intros m Hm. cbn [run_task] in Hm. rewrite markStepDeferred_steps in Hm.
    apply Set_of_array_In, in_app_iff in Hm.
    destruct Hm as [Hm|[Hm|[]]]; [now left|now right].
  - cbn [run_task]. unfold markStepCompleted.
    rewrite markStepDeferred_steps.
    assert (H : Set_has (Set_of_array (completedSteps s ++ [n])) n = true).
    { apply Set_has_In, Set_of_array_In, in_app_iff. right. now left. }
    rewrite H. now rewrite andb_false_r.
  - intros e m. apply perform_steps_monotone.
Qed.

(** Two calls from one and the same render both pass the test, since
    the first has not reached the state yet: each schedules the
    insertion and its notification. *)
Lemma markStepCompleted_same_render_twice :
  let call := markStepCompleted titration_props ready 5 "Endpoint identified" in
  snd ((call ;; call) ready)
  = [ Schedule (Timeout 0) (MarkStepDeferred 5 "Endpoint identified");
      Schedule (Timeout 0) (MarkStepDeferred 5 "Endpoint identified") ].
Proof. reflexivity. Qed.

(** The deferred body has no test of its own: it notifies whether or not
    the live set already holds the step. *)
Lemma markStepDeferred_always_notifies (props : Props) (n : Z) (msg : string) (s : State) :
  toastMessage (fst (markStepDeferred props n msg s))
  = Some ("✅ Step " ++ toString (int n) ++ " completed: " ++ msg)%string
  /\ exists percentage size,
       snd (markStepDeferred props n msg s)
       = [ Schedule (Timeout 3000) ClearToast;
           Emit (ProgressUpdate percentage size);
           Emit (StepProgressUpdate size) ].
Proof. split; [reflexivity|]. eexists. eexists. reflexivity. Qed.

(* ------------------------------------------------------------------ *)
(** ** Finite arithmetic *)

Section FiniteArithmetic.

Lemma represents_Fin (q : Q) : represents (Fin q) q.
Proof. exists q. split; [reflexivity|apply Qeq_refl]. Qed.

Lemma represents_int (z : Z) : represents (int z) (inject_Z z).
Proof. apply represents_Fin. Qed.

Lemma represents_lit (q : Q) : represents (lit q) q.
Proof. exists (Qred q). split; [reflexivity|apply Qred_correct]. Qed.

Lemma represents_eq (a : number) (p q : Q) :
  represents a p -> (p == q)%Q -> represents a q.
Proof. intros (x & E & H) Hpq. exists x. split; [assumption|]. now rewrite H. Qed.

Lemma represents_add (a b : number) (p q : Q) :
  represents a p -> represents b q -> represents (add a b) (p + q).
Proof.
  intros (x & -> & Hx) (y & -> & Hy). exists (Qred (x + y)).
  split; [reflexivity|]. now rewrite Qred_correct, Hx, Hy.
Qed.

Lemma represents_neg (a : number) (p : Q) :
  represents a p -> represents (neg a) (- p).
Proof.
  intros (x & -> & Hx). exists (Qred (- x)).
  split; [reflexivity|]. now rewrite Qred_correct, Hx.
Qed.

Lemma represents_sub (a b : number) (p q : Q) :
  represents a p -> represents b q -> represents (sub a b) (p - q).
Proof.
  intros Ha Hb. unfold sub. apply represents_add; [assumption|].
  now apply represents_neg.
Qed.

Lemma represents_mul (a b : number) (p q : Q) :
  represents a p -> represents b q -> represents (mul a b) (p * q).
Proof.
  intros (x & -> & Hx) (y & -> & Hy). exists (Qred (x * y)).
  split; [reflexivity|]. now rewrite Qred_correct, Hx, Hy.
Qed.

Lemma represents_div (a b : number) (p q : Q) :
  represents a p -> represents b q -> ~ (q == 0)%Q -> represents (div a b) (p / q).
Proof.
  intros (x & -> & Hx) (y & -> & Hy) Hq. exists (Qred (x / y)). split.
  - unfold div. destruct (Qcompare_spec y 0) as [E|_|_]; try reflexivity.
    exfalso. apply Hq. now rewrite <- Hy.
  - now rewrite Qred_correct, Hx, Hy.
Qed.

Lemma represents_le (a b : number) (p q : Q) :
  represents a p -> represents b q -> (le a b = true <-> (p <= q)%Q).
Proof.
  intros (x & -> & Hx) (y & -> & Hy). rewrite le_Fin. now rewrite Hx, Hy.
Qed.

Lemma represents_lt (a b : number) (p q : Q) :
  represents a p -> represents b q -> (lt a b = true <-> (p < q)%Q).
Proof.
  intros (x & -> & Hx) (y & -> & Hy). rewrite lt_Fin. now rewrite Hx, Hy.
Qed.

Lemma represents_between (lo hi a : number) (l h q : Q) :
  represents lo l -> represents hi h -> represents a q ->
  (l <= q <= h)%Q -> between lo hi a.
Proof.
  intros Hl Hh Ha [H1 H2]. split.
  - now apply (represents_le lo a l q).
  - now apply (represents_le a hi q h).
Qed.

Lemma represents_not_NaN (a : number) (q : Q) : represents a q -> a <> NaN.
Proof. intros (x & -> & _). discriminate. Qed.

End FiniteArithmetic.

(* ------------------------------------------------------------------ *)
(** ** The easing curve and the frames of a cycle *)

Section Easing.

Lemma easeInOut_curve (p : number) (q : Q) :
  represents p q -> represents (easeInOut p) (ease_curve q).
Proof.
  intro Hp. unfold easeInOut, ease_curve.
  destruct (lt p (lit (5 # 10))) eqn:E.
  - apply (represents_lt p _ q (5 # 10) Hp (represents_lit _)) in E.
    destruct (Qlt_le_dec q (1 # 2)) as [L|G]; [|lra].
    apply represents_mul; [|assumption].
    apply represents_mul; [apply represents_int|assumption].
  - assert (G : (1 # 2 <= q)%Q).
    { apply Qnot_lt_le. intro L.
      assert (T : lt p (lit (5 # 10)) = true)
        by (apply (represents_lt p _ q (5 # 10) Hp (represents_lit _)); lra).
      congruence. }
    destruct (Qlt_le_dec q (1 # 2)) as [L|_]; [lra|].
    assert (Hb : represents (add (mul (int (-2)) p) (int 2)) (-2 * q + 2)).
    { apply represents_add; [|apply represents_int].
      apply represents_mul; [apply represents_int|assumption]. }
    apply (represents_eq _ (inject_Z 1 - ((-2 * q + 2) * ((-2 * q + 2) * ((-2 * q + 2) * inject_Z 1))) / inject_Z 2)).
    + apply represents_sub; [apply represents_int|].
      apply represents_div; [|apply represents_int|discriminate].
      cbn [Math_pow].
      repeat (apply represents_mul; [exact Hb|]). apply represents_int.
    + unfold inject_Z. field.
Qed.

Lemma product_le (a b c d : Q) :
  (0 <= a <= c)%Q -> (0 <= b <= d)%Q -> (0 <= a * b <= c * d)%Q.
Proof.
  intros Ha Hb. split.
  - apply Qmult_le_0_compat; lra.
  - apply Qmult_le_compat_nonneg; split; lra.
Qed.

Lemma cube_le (a b : Q) : (0 <= b <= a)%Q -> (0 <= b * b * b <= a * a * a)%Q.
Proof.
  intro H. apply product_le; [|assumption]. now apply product_le.
Qed.

Lemma ease_curve_bounds (q : Q) : (0 <= q <= 1)%Q -> (0 <= ease_curve q <= 1)%Q.
Proof.
  intros [H0 H1]. unfold ease_curve.
  destruct (Qlt_le_dec q (1 # 2)) as [L|G].
  - pose proof (product_le q q (1 # 2) (1 # 2)) as P.
    assert (E : ((1 # 2) * (1 # 2) == 1 # 4)%Q) by reflexivity.
    rewrite E in P. split; lra.
  - pose proof (cube_le 1 (-2 * q + 2)) as P.
    assert (E : (1 * 1 * 1 == 1)%Q) by reflexivity.
    rewrite E in P. split; lra.
Qed.

Lemma ease_curve_monotone (p q : Q) :
  (0 <= p)%Q -> (p <= q)%Q -> (q <= 1)%Q -> (ease_curve p <= ease_curve q)%Q.
Proof.
  intros H0 Hpq H1. unfold ease_curve.
  destruct (Qlt_le_dec p (1 # 2)) as [Lp|Gp];
    destruct (Qlt_le_dec q (1 # 2)) as [Lq|Gq]; try lra.
  - pose proof (product_le p p q q). lra.
  - pose proof (product_le p p (1 # 2) (1 # 2)) as P.
    assert (E : ((1 # 2) * (1 # 2) == 1 # 4)%Q) by reflexivity.
    rewrite E in P.
    pose proof (cube_le 1 (-2 * q + 2)) as C.
    assert (E1 : (1 * 1 * 1 == 1)%Q) by reflexivity.
    rewrite E1 in C. lra.
  - pose proof (cube_le (-2 * p + 2) (-2 * q + 2)). lra.
Qed.

End Easing.

Section Frames_of_a_cycle.

Variable props : Props.

Lemma between_Fin (lo hi : Q) (a : number) :
  between (Fin lo) (Fin hi) a -> exists q, a = Fin q /\ (lo <= q <= hi)%Q.
Proof.
  intros [H1 H2]. destruct a as [q| | |]; try discriminate.
  exists q. split; [reflexivity|]. apply le_Fin in H1, H2. now split.
Qed.

Lemma progress_at_running (startTime now : Z) :
  now < startTime + duration ->
  represents (progress_at startTime now) (inject_Z (now - startTime) / inject_Z duration).
Proof.
  intro H. unfold progress_at, duration in *.
  set (e := now - startTime).
  assert (He : (inject_Z e / inject_Z 8000 < 1)%Q).
  { apply Qlt_shift_div_r; [reflexivity|].
    rewrite Qmult_1_l. rewrite <- Zlt_Qlt. subst e. lia. }
  change (div (int e) (int 8000)) with (Fin (Qred (inject_Z e / inject_Z 8000))).
  change (Math_min (Fin (Qred (inject_Z e / inject_Z 8000))) (int 1))
    with (if lt (int 1) (Fin (Qred (inject_Z e / inject_Z 8000)))
          then int 1 else Fin (Qred (inject_Z e / inject_Z 8000))).
  assert (F : lt (int 1) (Fin (Qred (inject_Z e / inject_Z 8000))) = false).
  { apply lt_Fin_false. rewrite Qred_correct. apply Qlt_le_weak. exact He. }
  rewrite F. exists (Qred (inject_Z e / inject_Z 8000)).
  split; [reflexivity|apply Qred_correct].
Qed.

(** The progress of a frame that does not run before the start is a
    finite number between 0 and 1. *)
Lemma progress_at_unit (startTime now : Z) :
  startTime <= now ->
  exists q, represents (progress_at startTime now) q /\ (0 <= q <= 1)%Q.
Proof.
  intro H. destruct (Z_lt_le_dec now (startTime + duration)) as [L|G].
  - exists (inject_Z (now - startTime) / inject_Z duration)%Q.
    split; [now apply progress_at_running|].
    unfold duration in *. split.
    + apply Qle_shift_div_l; [reflexivity|].
      rewrite Qmult_0_l. change 0%Q with (inject_Z 0). rewrite <- Zle_Qle. lia.
    + apply Qle_shift_div_r; [reflexivity|].
      rewrite Qmult_1_l. rewrite <- Zle_Qle. lia.
  - exists 1%Q. rewrite (progress_at_end _ _ G).
    split; [apply represents_int|lra].
Qed.

Lemma animateColor_measurements (r : State) (startTime now : Z) (s : State) :
  let progress := progress_at startTime now in
  let currentVolume := add (cumulativeVolume r) (mul progress (int 20)) in
  measurements (fst (animateColor props r startTime now s))
  = mkMeasurements currentVolume
                   (m_concentration (measurements s))
                   (add (lit (65 # 10)) (mul progress (lit (28 # 10))))
                   (sub (lit (1 # 10)) (mul progress (lit (5 # 100))))
                   (mul (div currentVolume (int 1000)) (lit (1 # 10)))
                   (m_temperature (measurements s)).
Proof.
  cbv zeta. unfold animateColor. cbv zeta.
  rewrite seq_fst, seq_fst.
  match goal with
  | |- measurements (fst (?rest ?s1)) = _ =>
      assert (P : preserves measurements rest) by frame; rewrite P
  end.
  reflexivity.
Qed.

Lemma animateColor_colour (r : State) (startTime now : Z) (s : State) :
  titrationColorProgress (fst (animateColor props r startTime now s))
  = add (cumulativeColorIntensity r) (easeInOut (progress_at startTime now)).
Proof.
  unfold animateColor. cbv zeta.
  rewrite seq_fst.
  match goal with
  | |- titrationColorProgress (fst (?rest ?s1)) = _ =>
      assert (P : preserves titrationColorProgress rest) by frame; rewrite P
  end.
  reflexivity.
Qed.

Lemma markStepCompleted_snd (r : State) (n : Z) (msg : string) (s : State) :
  snd (markStepCompleted props r n msg s)
  = if String_includes (experimentTitle props) "Acid-Base"
       && negb (Set_has (completedSteps r) n)
    then [Schedule (Timeout 0) (MarkStepDeferred n msg)] else [].
Proof.
  unfold markStepCompleted.
  destruct (String_includes (experimentTitle props) "Acid-Base"
            && negb (Set_has (completedSteps r) n)); reflexivity.
Qed.

(** Everything a frame schedules, in order. *)
Lemma animateColor_effects (r : State) (startTime now : Z) (s : State) :
  let progress := progress_at startTime now in
  snd (animateColor props r startTime now s)
  = (if ge (easeInOut progress) (lit (3 # 10)) && negb (Set_has (completedSteps r) 5)
        && (String_includes (experimentTitle props) "Acid-Base"
            && negb (Set_has (completedSteps r) 5))
     then [Schedule (Timeout 0)
             (MarkStepDeferred 5 "Endpoint identified - solution turned pink")]
     else [])
    ++ (if ge progress (int 1)
        then [Schedule (Timeout 1000)
                (CycleClose r (add (cumulativeVolume r) (mul progress (int 20)))
                   (add (cumulativeColorIntensity r) (easeInOut progress)))]
        else [])
    ++ (if lt progress (int 1)
        then [Schedule AnimationFrame (AnimateColor r startTime)] else []).
Proof.
  cbv zeta. unfold animateColor. cbv zeta.
  rewrite !seq_snd. cbn [setTitrationColorProgress setMeasurements setEquipmentPositions
                         modify snd app].
  f_equal; [|f_equal].
  - destruct (ge (easeInOut (progress_at startTime now)) (lit (3 # 10))
              && negb (Set_has (completedSteps r) 5)); cbn [andb].
    + apply markStepCompleted_snd.
    + reflexivity.
  - destruct (ge (progress_at startTime now) (int 1)); reflexivity.
  - destruct (lt (progress_at startTime now) (int 1)); reflexivity.
Qed.

Lemma progress_lt_1 (startTime now : Z) :
  lt (progress_at startTime now) (int 1) = true <-> now < startTime + duration.
Proof.
  destruct (Z_lt_le_dec now (startTime + duration)) as [L|G].
  - split; [intros _; assumption|intros _].
    pose proof (progress_at_running _ _ L) as R.
    apply (represents_lt _ _ _ _ R (represents_int 1)).
    unfold duration in *. apply Qlt_shift_div_r; [reflexivity|].
    rewrite Qmult_1_l. rewrite <- Zlt_Qlt. lia.
  - rewrite (progress_at_end _ _ G). split; [discriminate|lia].
Qed.

Lemma progress_ge_1 (startTime now : Z) :
  ge (progress_at startTime now) (int 1) = true <-> startTime + duration <= now.
Proof.
  destruct (Z_lt_le_dec now (startTime + duration)) as [L|G].
  - split; [|lia]. intro H. exfalso.
    pose proof (progress_at_running _ _ L) as R.
    unfold ge in H.
    apply (represents_le _ _ _ _ (represents_int 1) R) in H.
    unfold duration in *.
    assert (X : (inject_Z (now - startTime) / inject_Z 8000 < 1)%Q).
    { apply Qlt_shift_div_r; [reflexivity|].
      rewrite Qmult_1_l. rewrite <- Zlt_Qlt. lia. }
    exact (Qlt_irrefl _ (Qle_lt_trans _ _ _ H X)).
  - rewrite (progress_at_end _ _ G). split; [intros _; assumption|reflexivity].
Qed.

End Frames_of_a_cycle.

(** X1. On progress values between 0 and 1 the easing of the animation
    stays between 0 and 1 and never decreases: within a cycle the colour
    intensity cannot go backwards. *)
Theorem easeInOut_unit_interval :
  forall p1 p2 : number,
    between (int 0) (int 1) p1 -> between (int 0) (int 1) p2 -> le p1 p2 = true ->
    between (int 0) (int 1) (easeInOut p1)
    /\ le (easeInOut p1) (easeInOut p2) = true.
Proof.
  intros p1 p2 H1 H2 H12.
  destruct (between_Fin _ _ _ H1) as (q1 & -> & B1).
  destruct (between_Fin _ _ _ H2) as (q2 & -> & B2).
  apply le_Fin in H12. unfold inject_Z in B1, B2.
  pose proof (easeInOut_curve _ _ (represents_Fin q1)) as R1.
  pose proof (easeInOut_curve _ _ (represents_Fin q2)) as R2.
  split.
  - apply (represents_between _ _ _ 0 1 _ (represents_int 0) (represents_int 1) R1).
    now apply ease_curve_bounds.
  - apply (represents_le _ _ _ _ R1 R2).
    apply ease_curve_monotone; lra.
Qed.

Lemma easeInOut_unit_interval_witness :
  between (int 0) (int 1) (easeInOut (lit (1 # 4)))
  /\ le (easeInOut (lit (1 # 4))) (easeInOut (lit (3 # 4))) = true.
Proof.
  apply (easeInOut_unit_interval (lit (1 # 4)) (lit (3 # 4)));
    try (split; reflexivity); reflexivity.
Defined.

(** X2. A frame that runs at or after the start of its cycle displays a
    volume between the cumulative volume of its render and 20 mL more, a
    pH between 6.5 and 9.3, a molarity between 0.05 and 0.1 and a colour
    progress between the cumulative intensity of its render and 1
    more. *)
Theorem animateColor_display_bounds :
  forall (props : Props) (r : State) (startTime now : Z) (s : State) (v c : Q),
    startTime <= now ->
    cumulativeVolume r = Fin v ->
    cumulativeColorIntensity r = Fin c ->
    let s' := fst (animateColor props r startTime now s) in
    between (Fin v) (add (Fin v) (int 20)) (m_volume (measurements s'))
    /\ between (lit (65 # 10)) (lit (93 # 10)) (m_ph (measurements s'))
    /\ between (lit (5 # 100)) (lit (1 # 10)) (m_molarity (measurements s'))
    /\ between (Fin c) (add (Fin c) (int 1)) (titrationColorProgress s').
Proof.
  intros props r startTime now s v c Hnow Hv Hc s'. subst s'.
  rewrite animateColor_measurements, animateColor_colour. cbn [m_volume m_ph m_molarity].
  rewrite Hv, Hc.
  destruct (progress_at_unit startTime now Hnow) as (q & Rq & Hq).
  pose proof (easeInOut_curve _ _ Rq) as Re.
  pose proof (ease_curve_bounds q Hq) as He.
  repeat split.
  - apply (represents_le _ _ v (v + q * 20)); [apply represents_Fin| |lra].
    apply represents_add; [apply represents_Fin|].
    apply represents_mul; [assumption|apply represents_int].
  - apply (represents_le _ _ (v + q * 20) (v + 20)); [| |lra].
    + apply represents_add; [apply represents_Fin|].
      apply represents_mul; [assumption|apply represents_int].
    + apply represents_add; [apply represents_Fin|apply represents_int].
  - apply (represents_le _ _ (65 # 10) ((65 # 10) + q * (28 # 10)));
      [apply represents_lit| |lra].
    apply represents_add; [apply represents_lit|].
    apply represents_mul; [assumption|apply represents_lit].
  - apply (represents_le _ _ ((65 # 10) + q * (28 # 10)) (93 # 10));
      [|apply represents_lit|lra].
    apply represents_add; [apply represents_lit|].
    apply represents_mul; [assumption|apply represents_lit].
  - apply (represents_le _ _ (5 # 100) ((1 # 10) - q * (5 # 100)));
      [apply represents_lit| |lra].
    apply represents_sub; [apply represents_lit|].
    apply represents_mul; [assumption|apply represents_lit].
  - apply (represents_le _ _ ((1 # 10) - q * (5 # 100)) (1 # 10));
      [|apply represents_lit|lra].
    apply represents_sub; [apply represents_lit|].
    apply represents_mul; [assumption|apply represents_lit].
  - apply (represents_le _ _ c (c + ease_curve q)); [apply represents_Fin| |lra].
    apply represents_add; [apply represents_Fin|assumption].
  - apply (represents_le _ _ (c + ease_curve q) (c + 1)); [| |lra].
    + apply represents_add; [apply represents_Fin|assumption].
    + apply represents_add; [apply represents_Fin|apply represents_int].
Qed.

Lemma animateColor_display_bounds_witness :
  between (lit (65 # 10)) (lit (93 # 10))
          (m_ph (measurements (fst (animateColor titration_props ready 1000 4000 titrating)))).
Proof.
  exact (proj1 (proj2 (animateColor_display_bounds titration_props ready 1000 4000 titrating
                         5 0 ltac:(lia) eq_refl eq_refl))).
Defined.

Lemma endpoint_threshold (e : Z) :
  0 <= e ->
  ((3 # 10 <= ease_curve (inject_Z e / inject_Z 8000))%Q <-> 3099 <= e).
Proof.
  intro H0. unfold ease_curve.
  set (q := (inject_Z e / inject_Z 8000)%Q).
  assert (Eq : (q == inject_Z e * (1 # 8000))%Q) by (subst q; unfold inject_Z; field).
  assert (Hq0 : (0 <= inject_Z e)%Q)
    by (change 0%Q with (inject_Z 0); rewrite <- Zle_Qle; assumption).
  destruct (Qlt_le_dec q (1 # 2)) as [L|G].
  - assert (Esq : (2 * q * q == inject_Z (e * e) * (1 # 32000000))%Q).
    { rewrite Eq, inject_Z_mult. ring. }
    rewrite Esq.
    assert (Le : e < 4000).
    { rewrite Eq in L. apply Z.lt_nge. intro C.
      rewrite (Zle_Qle 4000 e) in C. unfold inject_Z at 1 in C. lra. }
    split; intro H.
    + assert (X : (inject_Z 9600000 <= inject_Z (e * e))%Q)
        by (unfold inject_Z at 1; lra).
      rewrite <- Zle_Qle in X. nia.
    + assert (X : 9600000 <= e * e) by nia.
      rewrite Zle_Qle in X. unfold inject_Z at 1 in X. lra.
  - assert (Ge : 4000 <= e).
    { rewrite Eq in G. apply Z.le_ngt. intro C.
      rewrite (Zlt_Qlt e 4000) in C. unfold inject_Z at 2 in C. lra. }
    split; intro H; [lia|].
    assert (Hb : (-2 * q + 2 <= 1)%Q) by lra.
    destruct (Qlt_le_dec 1 q) as [Q1|Q1].
    + (* beyond the end the cube is negative *)
      assert (N : (0 <= (2 * q - 2) * (2 * q - 2) * (2 * q - 2))%Q).
      { apply Qmult_le_0_compat; [apply Qmult_le_0_compat|]; lra. }
      assert (E : ((-2 * q + 2) * (-2 * q + 2) * (-2 * q + 2)
                   == - ((2 * q - 2) * (2 * q - 2) * (2 * q - 2)))%Q) by ring.
      rewrite E. lra.
    + pose proof (cube_le 1 (-2 * q + 2)) as P.
      assert (E1 : (1 * 1 * 1 == 1)%Q) by reflexivity.
      rewrite E1 in P. lra.
Qed.

Lemma endpoint_request_iff :
  forall (props : Props) (r : State) (startTime now : Z) (s : State),
    String_includes (experimentTitle props) "Acid-Base" = true ->
    Set_has (completedSteps r) 5 = false ->
    startTime <= now ->
    (In (Schedule (Timeout 0)
           (MarkStepDeferred 5 "Endpoint identified - solution turned pink"))
        (snd (animateColor props r startTime now s))
     <-> startTime + 3099 <= now).
Proof.
  intros props r startTime now s Ht H5 Hnow.
  rewrite animateColor_effects. cbv zeta. rewrite Ht, H5. cbn [negb andb].
  rewrite andb_true_r.
  assert (T : ge (easeInOut (progress_at startTime now)) (lit (3 # 10)) = true
              <-> startTime + 3099 <= now).
  { destruct (Z_lt_le_dec now (startTime + duration)) as [L|G].
    - pose proof (easeInOut_curve _ _ (progress_at_running _ _ L)) as R.
      unfold ge. rewrite (represents_le _ _ _ _ (represents_lit (3 # 10)) R).
      unfold duration. rewrite endpoint_threshold by lia. lia.
    - rewrite (progress_at_end _ _ G). unfold duration in G.
      split; [intros _; lia|reflexivity]. }
  rewrite !in_app_iff.
  destruct (ge (easeInOut (progress_at startTime now)) (lit (3 # 10))) eqn:E.
  - split; [intros _; now apply T|intros _; left; now left].
  - split; [|intro H; apply T in H; discriminate].
    intros [[]|[H|H]].
    + destruct (ge (progress_at startTime now) (int 1)); [|destruct H].
      destruct H as [H|[]]. discriminate.
    + destruct (lt (progress_at startTime now) (int 1)); [|destruct H].
      destruct H as [H|[]]. discriminate.
Qed.

(** X3. In the Acid-Base experiment, with step 5 absent from the
    render's completed set, a frame requests the endpoint step exactly
    when it runs 3099 ms or more after the start of its cycle (the eased
    progress reaches 0.3 between 3098 and 3099 ms). *)
Theorem endpoint_step_requested_from_3099_ms :
  forall (props : Props) (r : State) (startTime now : Z) (s : State),
    String_includes (experimentTitle props) "Acid-Base" = true ->
    Set_has (completedSteps r) 5 = false ->
    startTime <= now ->
    (In (Schedule (Timeout 0)
           (MarkStepDeferred 5 "Endpoint identified - solution turned pink"))
        (snd (animateColor props r startTime now s))
     <-> startTime + 3099 <= now).
Proof. exact endpoint_request_iff. Qed.

Lemma endpoint_step_requested_from_3099_ms_witness :
  In (Schedule (Timeout 0)
        (MarkStepDeferred 5 "Endpoint identified - solution turned pink"))
     (snd (animateColor titration_props ready 1000 4099 titrating)).
Proof.
  apply (endpoint_step_requested_from_3099_ms titration_props ready 1000 4099 titrating);
    [reflexivity|reflexivity|lia|lia].
Defined.

(** [new Set] of an array without repetition is the array; adding a
    step the set holds leaves it as it is. *)
Lemma fold_Set_add_fresh (xs acc : list Z) :
  NoDup (acc ++ xs) -> fold_left Set_add xs acc = acc ++ xs.
Proof.
  revert acc. induction xs as [|x xs IH]; intros acc H; cbn [fold_left].
  - now rewrite app_nil_r.
  - assert (Hx : Set_has acc x = false).
    { destruct (Set_has acc x) eqn:E; [|reflexivity].
      apply Set_has_In in E. apply NoDup_remove_2 in H.
      exfalso. apply H, in_or_app. now left. }
    unfold Set_add at 2. rewrite Hx.
    rewrite IH; rewrite <- app_assoc; [reflexivity|exact H].
Qed.

Lemma Set_of_array_present (xs : list Z) (n : Z) :
  Set_has xs n = true -> NoDup xs -> Set_of_array (xs ++ [n]) = xs.
Proof.
  intros Hn Hnd. unfold Set_of_array. rewrite fold_left_app.
  rewrite (fold_Set_add_fresh xs []) by exact Hnd.
  cbn. unfold Set_add. now rewrite Hn.
Qed.

(** C6, evaluated on the code.  The set never holds a step twice and
    never loses one, but the notification is not emitted once.  The
    animation and the [markStepCompleted] it calls read the completed
    set of the render of the click, which lacks step 5.  So every frame
    that runs 3099 ms or more after the start of its cycle requests
    step 5, whatever the live state, and the deferred body, which tests
    nothing, shows the toast and calls the progress callbacks each time.
    On the ready workbench: Start Titration is clicked at 1000 ms and
    step 4 is recorded; the frame at 4099 ms (eased progress 0.3)
    requests step 5 and the deferred body records and notifies it; the
    next frame, at 4116 ms, requests step 5 again although the live set
    now holds it, and the deferred body notifies a second time: same
    toast, same progress callbacks, the set unchanged. *)
Theorem endpoint_step_is_notified_on_every_frame :
  let message := "Endpoint identified - solution turned pink" in
  let started := perform titration_props TitrationButton 1000 ready in
  let step4 :=
    run_task titration_props (MarkStepDeferred 4 "Initial titration started") 1000 ""
             (fst started) in
  let frame1 :=
    run_task titration_props (AnimateColor ready 1000) 4099 "" (fst step4) in
  let notified1 :=
    run_task titration_props (MarkStepDeferred 5 message) 4099 "" (fst frame1) in
  let frame2 :=
    run_task titration_props (AnimateColor ready 1000) 4116 "" (fst notified1) in
  let notified2 :=
    run_task titration_props (MarkStepDeferred 5 message) 4116 "" (fst frame2) in
  (forall (props : Props) (r live : State) (startTime now : Z) (rnd : string),
     String_includes (experimentTitle props) "Acid-Base" = true ->
     Set_has (completedSteps r) 5 = false ->
     startTime + 3099 <= now ->
     let notified := run_task props (MarkStepDeferred 5 message) now rnd live in
     In (Schedule (Timeout 0) (MarkStepDeferred 5 message))
        (snd (run_task props (AnimateColor r startTime) now rnd live))
     /\ toastMessage (fst notified)
        = Some "✅ Step 5 completed: Endpoint identified - solution turned pink"
     /\ (exists percentage size,
           snd notified
           = [ Schedule (Timeout 3000) ClearToast;
               Emit (ProgressUpdate percentage size);
               Emit (StepProgressUpdate size) ])
     /\ (Set_has (completedSteps live) 5 = true ->
         NoDup (completedSteps live) ->
         completedSteps (fst notified) = completedSteps live))
  /\ In (Schedule (Timeout 0) (MarkStepDeferred 4 "Initial titration started")) (snd started)
  /\ In (Schedule AnimationFrame (AnimateColor ready 1000)) (snd started)
  /\ In (Schedule (Timeout 0) (MarkStepDeferred 5 message)) (snd frame1)
  /\ In (Schedule AnimationFrame (AnimateColor ready 1000)) (snd frame1)
  /\ completedSteps (fst notified1) = [4; 5]
  /\ Set_has (completedSteps (fst frame2)) 5 = true
  /\ In (Schedule (Timeout 0) (MarkStepDeferred 5 message)) (snd frame2)
  /\ completedSteps (fst notified2) = [4; 5]
  /\ toastMessage (fst notified2)
     = Some "✅ Step 5 completed: Endpoint identified - solution turned pink"
  /\ snd notified2
     = [ Schedule (Timeout 3000) ClearToast;
         Emit (ProgressUpdate (int 33) 2);
         Emit (StepProgressUpdate 2) ]
  /\ snd notified2 = snd notified1.
Proof.
  cbv zeta. split.
  - intros props r live startTime now rnd Ht H5 Hnow. cbn [run_task].
    split; [apply endpoint_request_iff; [assumption|assumption|lia|assumption]|].
    split; [reflexivity|].
    split; [eexists; eexists; reflexivity|].
    intros Hhas Hnd. rewrite markStepDeferred_steps.
    now apply Set_of_array_present.
  - repeat match goal with |- _ /\ _ => split end;
      vm_compute; first [reflexivity | tauto].
Qed.

(** X4. Whatever the live state (in particular whether or not the
    titration was stopped in the meantime), a frame that runs before the
    8000 ms of its cycle are over requests the next frame and no cycle
    close; a frame that runs later requests the cycle close and no
    further frame.  The loop therefore ends with the cycle and not
    before. *)
Theorem animateColor_schedules_one_continuation :
  forall (props : Props) (r : State) (startTime now : Z) (s : State),
    (now < startTime + duration ->
     In (Schedule AnimationFrame (AnimateColor r startTime))
        (snd (animateColor props r startTime now s))
     /\ forall t r' cv ci,
          ~ In (Schedule t (CycleClose r' cv ci))
               (snd (animateColor props r startTime now s)))
    /\ (startTime + duration <= now ->
        In (Schedule (Timeout 1000)
              (CycleClose r (add (cumulativeVolume r) (int 20))
                            (add (cumulativeColorIntensity r) (int 1))))
           (snd (animateColor props r startTime now s))
        /\ forall k,
             ~ In (Schedule AnimationFrame k)
                  (snd (animateColor props r startTime now s))).
Proof.
  intros props r startTime now s. split; intro H.
  - rewrite animateColor_effects. cbv zeta.
    assert (L : lt (progress_at startTime now) (int 1) = true) by now apply progress_lt_1.
    assert (G : ge (progress_at startTime now) (int 1) = false).
    { destruct (ge (progress_at startTime now) (int 1)) eqn:E; [|reflexivity].
      apply progress_ge_1 in E. lia. }
    rewrite L, G. split.
    + rewrite !in_app_iff. right. right. now left.
    + intros t r' cv ci. rewrite !in_app_iff. intros [X|[[]|[X|[]]]]; [|discriminate].
      destruct (_ && _ && _) in X; [destruct X as [X|[]]; discriminate|destruct X].
  - split; [now apply animateColor_schedules_close|].
    intro k. rewrite animateColor_effects. cbv zeta.
    assert (L : lt (progress_at startTime now) (int 1) = false).
    { destruct (lt (progress_at startTime now) (int 1)) eqn:E; [|reflexivity].
      apply progress_lt_1 in E. lia. }
    rewrite L, (progress_at_end _ _ H). rewrite !in_app_iff.
    intros [X|[X|[]]].
    + destruct (_ && _ && _) in X; [destruct X as [X|[]]; discriminate|destruct X].
    + cbn in X. destruct X as [X|[]]. discriminate.
Qed.

Lemma animateColor_schedules_one_continuation_witness :
  In (Schedule AnimationFrame (AnimateColor ready 1000))
     (snd (animateColor titration_props ready 1000 5000
             (fst (handleStopTitration titrating titrating)))).
Proof.
  apply (proj1 (animateColor_schedules_one_continuation titration_props ready 1000 5000
                  (fst (handleStopTitration titrating titrating)))).
  unfold duration. lia.
Defined.

(* ------------------------------------------------------------------ *)
(** ** Frames for updaters that call setters *)

Section UpdaterFrames.

Context {A : Type} (proj : State -> A).

Hypothesis proj_positions :
  forall g s, proj (with_equipmentPositions g s) = proj s.

Lemma preserves_setEquipmentPositions_with
    (updater : list EquipmentPosition -> list EquipmentPosition * command) :
  (forall prev, preserves proj (snd (updater prev))) ->
  preserves proj (setEquipmentPositions_with updater).
Proof.
  intros H s. unfold setEquipmentPositions_with.
  specialize (H (equipmentPositions s)).
  destruct (updater (equipmentPositions s)) as [next inner]. cbn [snd] in H.
  rewrite H. apply proj_positions.
Qed.

Lemma preserves_map_with_commands
    (f : EquipmentPosition -> EquipmentPosition * command) (prev : list EquipmentPosition) :
  (forall pos, preserves proj (snd (f pos))) ->
  preserves proj (snd (map_with_commands f prev)).
Proof.
  intro H. induction prev as [|pos rest IH]; cbn [map_with_commands].
  - apply preserves_skip.
  - specialize (H pos). destruct (f pos) as [pos' c].
    destruct (map_with_commands f rest) as [rest' cs]. cbn [snd] in *.
    now apply preserves_seq.
Qed.

End UpdaterFrames.

Ltac frame_more :=
  cbv zeta;
  repeat first
    [ frame_step
    | match goal with
      | |- preserves _ (let '(_, _) := ?x in _) => destruct x
      end ].

(* ------------------------------------------------------------------ *)
(** ** The undo history *)

Section UndoHistory.

Lemma slice_last_length {A : Type} (n : nat) (xs : list A) :
  (List.length (slice_last n xs) <= n)%nat.
Proof. unfold slice_last. rewrite length_skipn. lia. Qed.

Lemma slice_last_short {A : Type} (n : nat) (xs : list A) :
  (List.length xs <= n)%nat -> slice_last n xs = xs.
Proof.
  intro H. unfold slice_last.
  replace (List.length xs - n)%nat with 0%nat by lia. reflexivity.
Qed.

Lemma slice_last_snoc {A : Type} (n : nat) (xs : list A) (x : A) :
  slice_last (S n) (xs ++ [x]) = slice_last n xs ++ [x].
Proof.
  unfold slice_last. rewrite length_app. cbn [List.length].
  replace (List.length xs + 1 - S n)%nat with (List.length xs - n)%nat by lia.
  rewrite skipn_app.
  replace (List.length xs - n - List.length xs)%nat with 0%nat by lia.
  reflexivity.
Qed.

Variable props : Props.

Lemma saveStateToHistory_history (r s : State) :
  undoHistory (fst (saveStateToHistory r s))
  = slice_last 9 (undoHistory s) ++ [equipmentPositions r].
Proof.
  unfold saveStateToHistory. cbn. apply (slice_last_snoc 9).
Qed.

(** An undo from a render whose history ends with [saved]. *)
Lemma handleUndo_restores (r s : State) (older : list (list EquipmentPosition))
    (saved : list EquipmentPosition) :
  undoHistory r = older ++ [saved] ->
  undoHistory s = older ++ [saved] ->
  equipmentPositions (fst (handleUndo r s)) = saved
  /\ undoHistory (fst (handleUndo r s)) = older.
Proof.
  intros Hr Hs. unfold handleUndo. rewrite Hr, rev_app_distr. cbn [rev app].
  split; cbn; [reflexivity|].
  rewrite Hs. apply removelast_last.
Qed.

Lemma handleUndo_keeps {A : Type} (proj : State -> A) (r : State) :
  (forall g s, proj (with_equipmentPositions g s) = proj s) ->
  (forall g s, proj (with_undoHistory g s) = proj s) ->
  (forall g s, proj (with_toastMessage g s) = proj s) ->
  preserves proj (handleUndo r).
Proof.
  intros H1 H2 H3 s. unfold handleUndo.
  destruct (rev (undoHistory r)); [reflexivity|].
  cbn. now rewrite H3, H2, H1.
Qed.

End UndoHistory.

(* ------------------------------------------------------------------ *)
(** ** The step set along a run *)

Section StepSetInvariant.

Lemma fold_Set_add_NoDup (xs acc : list Z) :
  NoDup (acc ++ xs) -> fold_left Set_add xs acc = acc ++ xs.
Proof.
  revert acc. induction xs as [|x xs IH]; intros acc H; cbn [fold_left].
  - now rewrite app_nil_r.
  - assert (E : Set_add acc x = acc ++ [x]).
    { unfold Set_add. destruct (Set_has acc x) eqn:Hx; [|reflexivity].
      apply Set_has_In in Hx. exfalso.
      apply NoDup_remove_2 in H. apply H. apply in_or_app. now left. }
    rewrite E. rewrite IH; rewrite <- app_assoc; [reflexivity|exact H].
Qed.

Lemma Set_of_array_NoDup_id (xs : list Z) : NoDup xs -> Set_of_array xs = xs.
Proof. intro H. apply (fold_Set_add_NoDup xs []). exact H. Qed.

Lemma fold_left_snoc {A B : Type} (f : A -> B -> A) (xs : list B) (x : B) (a : A) :
  fold_left f (xs ++ [x]) a = f (fold_left f xs a) x.
Proof. now rewrite fold_left_app. Qed.

Lemma Set_of_array_snoc (xs : list Z) (n : Z) :
  Set_of_array (xs ++ [n]) = Set_add (Set_of_array xs) n.
Proof. apply fold_left_snoc. Qed.

Variable props : Props.

Lemma perform_steps_NoDup (e : event) (now : Z) (s : State) :
  NoDup (completedSteps s) -> NoDup (completedSteps (fst (perform props e now s))).
Proof.
  intro H.
  assert (D : e = ResetExperiment
              \/ (exists n msg rnd, e = Fire (MarkStepDeferred n msg) rnd)
              \/ (e <> ResetExperiment
                  /\ forall n msg rnd, e <> Fire (MarkStepDeferred n msg) rnd)).
  { destruct e as [| | | | | | |?| |? ?|k rnd];
      try (right; right; split; discriminate); [now left|].
    destruct k as [|n msg|? ?|? ? ?|? ?|?];
      try (right; right; split; discriminate).
    right. left. eauto. }
  destruct D as [->|[(n & msg & rnd & ->)|[D1 D2]]].
  - cbn. constructor.
  - cbn [perform run_task]. rewrite markStepDeferred_steps. apply Set_of_array_NoDup.
  - now rewrite (perform_keeps_steps props e now D1 D2 s).
Qed.

End StepSetInvariant.

(** X5. Running the deferred insertion of a step a second time changes
    nothing in the set: however many times [markStepCompleted] got
    through for one step, the set is the one a single insertion gives,
    and its size is at most one more than before. *)
Theorem markStepDeferred_idempotent :
  forall (props : Props) (n : Z) (msg : string) (s : State),
    let once := fst (markStepDeferred props n msg s) in
    let twice := fst (markStepDeferred props n msg once) in
    completedSteps twice = completedSteps once
    /\ (Set_size (completedSteps once) <= Set_size (completedSteps s) + 1)
    /\ (NoDup (completedSteps s) -> Set_has (completedSteps s) n = true ->
        completedSteps once = completedSteps s).
Proof.
  intros props n msg s once twice. subst once twice.
  rewrite !markStepDeferred_steps. repeat split.
  - rewrite (Set_of_array_snoc (Set_of_array (completedSteps s ++ [n]))).
    rewrite (Set_of_array_NoDup_id _ (Set_of_array_NoDup _)).
    unfold Set_add.
    assert (H : Set_has (Set_of_array (completedSteps s ++ [n])) n = true).
    { apply Set_has_In, Set_of_array_In, in_app_iff. right. now left. }
    now rewrite H.
  - rewrite Set_of_array_snoc. unfold Set_size, Set_add.
    assert (L : (List.length (Set_of_array (completedSteps s))
                 <= List.length (completedSteps s))%nat).
    { apply NoDup_incl_length; [apply Set_of_array_NoDup|].
      intros y Hy. exact (proj1 (Set_of_array_In _ y) Hy). }
    destruct (Set_has (Set_of_array (completedSteps s)) n);
      [|rewrite length_app; cbn [List.length]]; lia.
  - intros Hnd Hn. rewrite Set_of_array_snoc, (Set_of_array_NoDup_id _ Hnd).
    unfold Set_add. now rewrite Hn.
Qed.

(* ------------------------------------------------------------------ *)
(** ** Dropping a chemical *)

Section ChemicalDrop.

Variable log10_pos : Q -> Q.
Variable props : Props.

Lemma drop_into_position (r : State) (chemical : ChemicalInfo) (chemicalId equipmentId : string)
    (amount : number) (now : Z) (prev : list EquipmentPosition) :
  fst (map_with_commands (drop_into log10_pos props r chemical chemicalId equipmentId amount now)
                         prev)
  = add_chemical equipmentId (dropped chemical chemicalId amount) prev.
Proof.
  induction prev as [|pos rest IH]; [reflexivity|].
  cbn [map_with_commands add_chemical map].
  destruct (map_with_commands _ rest) as [rest' cs] eqn:E. cbn [fst] in IH.
  unfold drop_into at 1.
  destruct (String.eqb (eq_id pos) equipmentId); cbn [fst]; f_equal; exact IH.
Qed.

Lemma drop_into_frame {A : Type} (proj : State -> A) (r : State) (chemical : ChemicalInfo)
    (chemicalId equipmentId : string) (amount : number) (now : Z) (pos : EquipmentPosition) :
  (forall g s, proj (with_toastMessage g s) = proj s) ->
  (forall g s, proj (with_currentGuidedStep g s) = proj s) ->
  (forall g s, proj (with_results g s) = proj s) ->
  (forall g s, proj (with_hasCalculatedResult g s) = proj s) ->
  (forall g s, proj (with_measurements g s) = proj s) ->
  preserves proj
    (snd (drop_into log10_pos props r chemical chemicalId equipmentId amount now pos)).
Proof.
  intros H1 H2 H3 H4 H5. unfold drop_into.
  destruct (String.eqb (eq_id pos) equipmentId); cbn [snd]; [|apply preserves_skip].
  unfold handleReaction, guidedStepDone, setToastMessage, setResults, setMeasurements,
    setHasCalculatedResult.
  cbv zeta.
  repeat match goal with
    | |- preserves _ (seq _ _) => apply preserves_seq
    | |- preserves _ skip => apply preserves_skip
    | |- preserves _ (setTimeout _ _) => apply preserves_request
    | |- preserves _ (markStepCompleted _ _ _ _) => apply preserves_markStepCompleted
    | |- preserves _ (modify _) => apply preserves_modify; intro; auto
    | |- preserves _ (if ?b then _ else _) => destruct b
    | |- preserves _ (match ?x with _ => _ end) => destruct x
    | |- _ => progress cbv zeta
    end.
Qed.

Lemma handleChemicalDrop_frame {A : Type} (proj : State -> A) (r : State)
    (chemicalId equipmentId : string) (amount : number) (now : Z) :
  (forall g s, proj (with_toastMessage g s) = proj s) ->
  (forall g s, proj (with_currentGuidedStep g s) = proj s) ->
  (forall g s, proj (with_results g s) = proj s) ->
  (forall g s, proj (with_hasCalculatedResult g s) = proj s) ->
  (forall g s, proj (with_measurements g s) = proj s) ->
  (forall g s, proj (with_equipmentPositions g s) = proj s) ->
  (forall g s, proj (with_undoHistory g s) = proj s) ->
  (forall g s, proj (with_selectedChemical g s) = proj s) ->
  preserves proj (handleChemicalDrop log10_pos props r chemicalId equipmentId amount now).
Proof.
  intros H1 H2 H3 H4 H5 H6 H7 H8. unfold handleChemicalDrop.
  destruct (find _ (experimentChemicals props)) as [chemical|]; [|apply preserves_skip].
  unfold saveStateToHistory, setUndoHistory, setToastMessage, setEquipmentPositions,
    setSelectedChemical.
  repeat match goal with
    | |- preserves _ (seq _ _) => apply preserves_seq
    | |- preserves _ (setTimeout _ _) => apply preserves_request
    | |- preserves _ (markStepCompleted _ _ _ _) => apply preserves_markStepCompleted
    | |- preserves _ (modify _) => apply preserves_modify; intro; auto
    | |- preserves _ (if ?b then _ else _) => destruct b
    end.
  apply preserves_setEquipmentPositions_with; [exact H6|].
  intro prev. apply preserves_map_with_commands. intro pos.
  now apply drop_into_frame.
Qed.

Lemma setEquipmentPositions_with_positions
    (updater : list EquipmentPosition -> list EquipmentPosition * command) (s : State) :
  (forall prev, preserves equipmentPositions (snd (updater prev))) ->
  equipmentPositions (fst (setEquipmentPositions_with updater s))
  = fst (updater (equipmentPositions s)).
Proof.
  intro H. unfold setEquipmentPositions_with.
  specialize (H (equipmentPositions s)).
  destruct (updater (equipmentPositions s)) as [next inner]. cbn [fst snd] in *.
  now rewrite H.
Qed.

Lemma handleChemicalDrop_positions (r : State) (chemical : ChemicalInfo)
    (chemicalId equipmentId : string) (amount : number) (now : Z) (s : State) :
  find (fun c => String.eqb (info_id c) chemicalId) (experimentChemicals props)
    = Some chemical ->
  equipmentPositions
    (fst (handleChemicalDrop log10_pos props r chemicalId equipmentId amount now s))
  = add_chemical equipmentId (dropped chemical chemicalId amount) (equipmentPositions s).
Proof.
  intro Hf. unfold handleChemicalDrop. rewrite Hf.
  rewrite seq_fst.
  change (equipmentPositions s)
    with (equipmentPositions (fst (saveStateToHistory r s))).
  generalize (fst (saveStateToHistory r s)). intro s1.
  destruct (String.eqb chemicalId "phenol" && String.eqb equipmentId "conical_flask").
  { rewrite !seq_fst. rewrite markStepCompleted_state. reflexivity. }
  destruct (String.eqb chemicalId "naoh" && String.eqb equipmentId "burette").
  { rewrite !seq_fst. rewrite markStepCompleted_state. reflexivity. }
  destruct (String.eqb chemicalId "phenol" && String.eqb equipmentId "burette").
  { rewrite !seq_fst. reflexivity. }
  rewrite seq_fst.
  change (equipmentPositions (fst (setSelectedChemical None ?x)))
    with (equipmentPositions x).
  rewrite setEquipmentPositions_with_positions.
  - apply drop_into_position.
  - intro prev. apply preserves_map_with_commands. intro pos.
    apply drop_into_frame; reflexivity.
Qed.

Lemma add_chemical_ids (equipmentId : string) (entry : ChemicalQuantity)
    (prev : list EquipmentPosition) :
  map eq_id (add_chemical equipmentId entry prev) = map eq_id prev.
Proof.
  unfold add_chemical. rewrite map_map. apply map_ext.
  intro pos. now destruct (String.eqb (eq_id pos) equipmentId).
Qed.

Lemma add_chemical_absent (equipmentId : string) (entry : ChemicalQuantity)
    (prev : list EquipmentPosition) :
  (forall pos, In pos prev -> eq_id pos <> equipmentId) ->
  add_chemical equipmentId entry prev = prev.
Proof.
  intro H. unfold add_chemical. rewrite <- (map_id prev) at 2.
  apply map_ext_in. intros pos Hin.
  destruct (String.eqb_spec (eq_id pos) equipmentId) as [E|_]; [|reflexivity].
  exfalso. exact (H pos Hin E).
Qed.

End ChemicalDrop.

(** X6. A drop of a chemical that the registry of the experiment does
    not list is ignored altogether: no state cell changes, nothing is
    scheduled, and no undo entry is saved. *)
Theorem handleChemicalDrop_unknown_chemical :
  forall (log10_pos : Q -> Q) (props : Props) (r : State)
         (chemicalId equipmentId : string) (amount : number) (now : Z) (s : State),
    (forall c, In c (experimentChemicals props) -> info_id c <> chemicalId) ->
    handleChemicalDrop log10_pos props r chemicalId equipmentId amount now s = (s, []).
Proof.
  intros log10_pos props r chemicalId equipmentId amount now s H.
  unfold handleChemicalDrop.
  destruct (find _ (experimentChemicals props)) as [c|] eqn:E; [|reflexivity].
  apply find_some in E. destruct E as [Hin Hid].
  apply String.eqb_eq in Hid. exfalso. exact (H c Hin Hid).
Qed.

Lemma handleChemicalDrop_unknown_chemical_witness :
  handleChemicalDrop log10_floor titration_props ready "distilled_water" "conical_flask"
                     (int 100) 2000 ready
  = (ready, []).
Proof.
  apply handleChemicalDrop_unknown_chemical.
  intros c [<-|[<-|[<-|[]]]]; discriminate.
Defined.

(** X7. A drop of a listed chemical, whichever branch of the handler it
    takes, leaves the equipment list as it was except that the entry
    (the registry's name, colour and concentration with the dropped
    amount) is appended to the chemicals of the equipment with that id:
    the ids and their order are unchanged, and when no equipment has
    that id the list is unchanged. *)
Theorem handleChemicalDrop_appends_one_entry :
  forall (log10_pos : Q -> Q) (props : Props) (r : State) (chemical : ChemicalInfo)
         (chemicalId equipmentId : string) (amount : number) (now : Z) (s : State),
    find (fun c => String.eqb (info_id c) chemicalId) (experimentChemicals props)
      = Some chemical ->
    let s' := fst (handleChemicalDrop log10_pos props r chemicalId equipmentId amount now s) in
    let entry :=
      mkChemical chemicalId (info_name chemical) (info_color chemical) amount
                 (info_concentration chemical) in
    equipmentPositions s'
    = map (fun pos => if String.eqb (eq_id pos) equipmentId
                      then mkEquipment (eq_id pos) (eq_x pos) (eq_y pos)
                                       (eq_chemicals pos ++ [entry])
                      else pos) (equipmentPositions s)
    /\ map eq_id (equipmentPositions s') = map eq_id (equipmentPositions s)
    /\ ((forall pos, In pos (equipmentPositions s) -> eq_id pos <> equipmentId) ->
        equipmentPositions s' = equipmentPositions s).
Proof.
  intros log10_pos props r chemical chemicalId equipmentId amount now s Hf s' entry.
  subst s'. rewrite (handleChemicalDrop_positions log10_pos props r chemical) by exact Hf.
  split; [reflexivity|split].
  - apply add_chemical_ids.
  - apply add_chemical_absent.
Qed.

Lemma handleChemicalDrop_appends_one_entry_witness :
  map (fun pos => List.length (eq_chemicals pos))
      (equipmentPositions
         (fst (handleChemicalDrop log10_floor titration_props ready "naoh" "conical_flask"
                                  (int 50) 2000 ready)))
  = [1%nat; 3%nat].
Proof.
  rewrite (proj1 (handleChemicalDrop_appends_one_entry log10_floor titration_props ready
                    (mkInfo "naoh" "Sodium Hydroxide" "NaOH" "#8B5A9B" "0.1 M" (int 50))
                    "naoh" "conical_flask" (int 50) 2000 ready eq_refl)).
  reflexivity.
Defined.

(* ------------------------------------------------------------------ *)
(** ** What a drop leaves in place *)

Section Keeps.

Context {A : Type}.
Variable proj : State -> A.
Variable Q : A -> Prop.

(** [keeps c]: the command [c] maintains the property [Q] of the
    observation [proj]. *)
Let keeps (c : command) : Prop := forall s, Q (proj s) -> Q (proj (fst (c s))).

Lemma keeps_frame (c : command) : preserves proj c -> keeps c.
Proof. intros H s Hs. now rewrite H. Qed.

Lemma keeps_seq (c1 c2 : command) : keeps c1 -> keeps c2 -> keeps (c1 ;; c2).
Proof. intros H1 H2 s Hs. rewrite seq_fst. apply H2, H1, Hs. Qed.

Lemma keeps_map_with_commands
    (f : EquipmentPosition -> EquipmentPosition * command) (prev : list EquipmentPosition) :
  (forall pos, In pos prev -> keeps (snd (f pos))) ->
  keeps (snd (map_with_commands f prev)).
Proof.
  induction prev as [|pos rest IH]; intro H; cbn [map_with_commands].
  - intros s Hs. exact Hs.
  - assert (Hpos := H pos (or_introl eq_refl)).
    assert (Hrest := IH (fun p Hp => H p (or_intror Hp))).
    destruct (f pos) as [pos' c].
    destruct (map_with_commands f rest) as [rest' cs]. cbn [snd] in *.
    now apply keeps_seq.
Qed.

Lemma keeps_setEquipmentPositions_with
    (updater : list EquipmentPosition -> list EquipmentPosition * command) (s : State) :
  (forall g s0, proj (with_equipmentPositions g s0) = proj s0) ->
  keeps (snd (updater (equipmentPositions s))) ->
  Q (proj s) -> Q (proj (fst (setEquipmentPositions_with updater s))).
Proof.
  intros Hp H Hs. unfold setEquipmentPositions_with.
  destruct (updater (equipmentPositions s)) as [next inner]. cbn [snd] in H.
  apply H. now rewrite Hp.
Qed.

End Keeps.

Section LevelAndMeasurements.

Variable log10_pos : Q -> Q.
Variable props : Props.

Lemma total_amount_snoc (cs : list ChemicalQuantity) (entry : ChemicalQuantity) :
  total_amount (cs ++ [entry]) = add (total_amount cs) (chem_amount entry).
Proof. unfold total_amount. now rewrite fold_left_app. Qed.

Lemma total_amount_nonneg (cs : list ChemicalQuantity) :
  Forall nonneg_amount cs -> exists t, total_amount cs = Fin t /\ (0 <= t)%Q.
Proof.
  induction cs as [|c cs IH] using rev_ind; intro H.
  - exists (inject_Z 0). split; [reflexivity|]. unfold inject_Z. lra.
  - apply Forall_app in H. destruct H as [Hcs Hc].
    destruct (IH Hcs) as (t & Et & Ht).
    inversion Hc as [|? ? (a & Ea & Ha) _]; subst.
    rewrite total_amount_snoc, Et, Ea. unfold add.
    eexists. split; [reflexivity|]. rewrite Qred_correct. lra.
Qed.

Lemma getSolutionHeight_total (cs : list ChemicalQuantity) :
  getSolutionHeight cs = spec_height_percent (total_amount cs).
Proof. reflexivity. Qed.

Lemma le_add_nonneg (t : number) (a : Q) :
  t <> NaN -> (0 <= a)%Q -> le t (add t (Fin a)) = true.
Proof.
  intros Ht Ha. destruct t as [x| | |]; try reflexivity; [|congruence].
  unfold add. apply le_Fin. rewrite Qred_correct. lra.
Qed.

Lemma at_index_last {B : Type} (xs : list B) (x : B) :
  at_index (xs ++ [x]) (Z.of_nat (List.length (xs ++ [x])) - 1) = Some x.
Proof.
  unfold at_index. rewrite length_app. cbn [List.length].
  replace (Z.of_nat (List.length xs + 1) - 1) with (Z.of_nat (List.length xs)) by lia.
  destruct (Z.ltb_spec (Z.of_nat (List.length xs)) 0) as [L|_]; [lia|].
  rewrite Nat2Z.id, nth_error_app2 by lia.
  now rewrite Nat.sub_diag.
Qed.

Let in_range (m : Measurements) : Prop := between (int 0) (int 14) (m_ph m).

Lemma drop_into_ph (r : State) (chemical : ChemicalInfo) (chemicalId equipmentId : string)
    (a : Q) (now : Z) (pos : EquipmentPosition) (s : State) :
  (0 < a)%Q ->
  Forall nonneg_amount (eq_chemicals pos) ->
  in_range (measurements s) ->
  in_range (measurements
              (fst (snd (drop_into log10_pos props r chemical chemicalId equipmentId
                                   (Fin a) now pos) s))).
Proof.
  intros Ha Hpos. revert s.
  unfold drop_into.
  destruct (String.eqb (eq_id pos) equipmentId); cbn [snd]; [|intros s Hs; exact Hs].
  cbv zeta.
  repeat match goal with
    | |- forall s, in_range (measurements s) ->
                   in_range (measurements (fst ((_ ;; _) s))) =>
        apply (keeps_seq measurements in_range)
    end;
    try solve [apply keeps_frame; unfold guidedStepDone; frame].
  destruct (2 <=? _); [|intros s Hs; exact Hs].
  apply (keeps_seq measurements in_range).
  - apply keeps_frame. unfold handleReaction. frame.
  - destruct (String_includes (experimentTitle props) "Acid-Base"
              || String_includes (experimentTitle props) "Equilibrium");
      [|intros s Hs; exact Hs].
    rewrite at_index_last. intros s _.
    change (in_range (measurements (fst (setMeasurements ?g s))))
      with (in_range (g (measurements s))).
    unfold in_range, between. cbn [m_ph dropped chem_amount].
    apply ph_range_nonneg_amount; [lra|].
    change (fold_left _ (eq_chemicals pos ++ [?e]) (int 0))
      with (total_amount (eq_chemicals pos ++ [e])).
    rewrite total_amount_snoc. cbn [dropped chem_amount].
    destruct (total_amount_nonneg _ Hpos) as (t & Et & Ht). rewrite Et.
    unfold add. apply lt_Fin. rewrite Qred_correct. unfold inject_Z. lra.
Qed.

End LevelAndMeasurements.

(** X8. Pouring never lowers a level: after a drop of a listed chemical
    with a finite amount that is not negative, every piece of equipment
    whose total volume is a number keeps its id, and the height
    [getSolutionHeight] computes for it is at least what it was. *)
Theorem handleChemicalDrop_never_lowers_a_level :
  forall (log10_pos : Q -> Q) (props : Props) (r : State) (chemical : ChemicalInfo)
         (chemicalId equipmentId : string) (a : Q) (now : Z) (s : State),
    find (fun c => String.eqb (info_id c) chemicalId) (experimentChemicals props)
      = Some chemical ->
    (0 <= a)%Q ->
    Forall (fun pos => total_amount (eq_chemicals pos) <> NaN) (equipmentPositions s) ->
    Forall2 (fun pos pos' =>
               eq_id pos' = eq_id pos
               /\ le (getSolutionHeight (eq_chemicals pos))
                     (getSolutionHeight (eq_chemicals pos')) = true)
            (equipmentPositions s)
            (equipmentPositions
               (fst (handleChemicalDrop log10_pos props r chemicalId equipmentId
                                        (Fin a) now s))).
Proof.
  intros log10_pos props r chemical chemicalId equipmentId a now s Hf Ha Hs.
  rewrite (handleChemicalDrop_positions log10_pos props r chemical) by exact Hf.
  induction Hs as [|pos rest Hpos _ IH]; cbn [add_chemical map]; constructor.
  - rewrite !getSolutionHeight_total.
    destruct (String.eqb (eq_id pos) equipmentId); cbn [with_chemicals eq_id eq_chemicals].
    + split; [reflexivity|]. apply spec_height_monotone.
      rewrite total_amount_snoc. cbn [dropped chem_amount].
      now apply le_add_nonneg.
    + split; [reflexivity|]. apply spec_height_monotone.
      destruct (total_amount (eq_chemicals pos)) as [x| | |]; try reflexivity;
        [|congruence].
      apply le_Fin. lra.
  - exact IH.
Qed.

Lemma handleChemicalDrop_never_lowers_a_level_witness :
  Forall2 (fun pos pos' =>
             eq_id pos' = eq_id pos
             /\ le (getSolutionHeight (eq_chemicals pos))
                   (getSolutionHeight (eq_chemicals pos')) = true)
          (equipmentPositions ready)
          (equipmentPositions
             (fst (handleChemicalDrop log10_floor titration_props ready "hcl" "conical_flask"
                                      (Fin 25) 2000 ready))).
Proof.
  apply (handleChemicalDrop_never_lowers_a_level log10_floor titration_props ready
           (mkInfo "hcl" "Hydrochloric Acid" "HCl" "#FFE135" "0.1 M" (int 25))).
  - reflexivity.
  - lra.
  - repeat constructor; discriminate.
Defined.

Lemma chemical_drop_ph_in_range :
  forall (log10_pos : Q -> Q) (props : Props) (r : State)
         (chemicalId equipmentId : string) (a : Q) (now : Z) (s : State),
    (0 < a)%Q ->
    Forall (fun pos => Forall nonneg_amount (eq_chemicals pos)) (equipmentPositions s) ->
    between (int 0) (int 14) (m_ph (measurements s)) ->
    between (int 0) (int 14)
      (m_ph (measurements
               (fst (handleChemicalDrop log10_pos props r chemicalId equipmentId
                                        (Fin a) now s)))).
Proof.
  intros log10_pos props r chemicalId equipmentId a now s Ha Hpos Hs.
  set (in_range := fun m : Measurements => between (int 0) (int 14) (m_ph m)).
  change (in_range (measurements s)) in Hs.
  change (in_range (measurements
            (fst (handleChemicalDrop log10_pos props r chemicalId equipmentId
                                     (Fin a) now s)))).
  unfold handleChemicalDrop.
  destruct (find _ (experimentChemicals props)) as [chemical|]; [|exact Hs].
  rewrite seq_fst.
  change (equipmentPositions s)
    with (equipmentPositions (fst (saveStateToHistory r s))) in Hpos.
  change (measurements s) with (measurements (fst (saveStateToHistory r s))) in Hs.
  revert Hpos Hs. generalize (fst (saveStateToHistory r s)). clear s. intros s Hpos Hs.
  destruct (String.eqb chemicalId "phenol" && String.eqb equipmentId "conical_flask").
  { revert s Hs Hpos. intros s Hs _. revert s Hs. apply keeps_frame. frame. }
  destruct (String.eqb chemicalId "naoh" && String.eqb equipmentId "burette").
  { revert s Hs Hpos. intros s Hs _. revert s Hs. apply keeps_frame. frame. }
  destruct (String.eqb chemicalId "phenol" && String.eqb equipmentId "burette").
  { revert s Hs Hpos. intros s Hs _. revert s Hs. apply keeps_frame. frame. }
  rewrite seq_fst.
  change (measurements (fst (setSelectedChemical None ?x))) with (measurements x).
  apply (keeps_setEquipmentPositions_with measurements in_range);
    [reflexivity| |exact Hs].
  apply keeps_map_with_commands. intros pos Hin s0 Hs0.
  apply drop_into_ph; [exact Ha| |exact Hs0].
  rewrite Forall_forall in Hpos. now apply Hpos.
Qed.

(** X9. The pH on display stays a pH: if the measured pH is in [0, 14],
    every chemical on the workbench has a finite amount that is not
    negative, and the dropped amount is finite and positive, then after
    the drop (whichever branch it takes, and whether or not it updates
    the measurements) the measured pH is again in [0, 14]. *)
Theorem handleChemicalDrop_ph_stays_in_range :
  forall (log10_pos : Q -> Q) (props : Props) (r : State)
         (chemicalId equipmentId : string) (a : Q) (now : Z) (s : State),
    (0 < a)%Q ->
    Forall (fun pos => Forall nonneg_amount (eq_chemicals pos)) (equipmentPositions s) ->
    between (int 0) (int 14) (m_ph (measurements s)) ->
    between (int 0) (int 14)
      (m_ph (measurements
               (fst (handleChemicalDrop log10_pos props r chemicalId equipmentId
                                        (Fin a) now s)))).
Proof. exact chemical_drop_ph_in_range. Qed.

Lemma handleChemicalDrop_ph_stays_in_range_witness :
  between (int 0) (int 14)
    (m_ph (measurements
             (fst (handleChemicalDrop log10_floor titration_props ready "naoh" "conical_flask"
                                      (Fin 50) 2000 ready)))).
Proof.
  apply handleChemicalDrop_ph_stays_in_range.
  - lra.
  - repeat constructor; eexists; (split; [reflexivity|unfold inject_Z; lra]).
  - split; reflexivity.
Defined.

(* ------------------------------------------------------------------ *)
(** ** The results log under drops *)

Section ResultsLog.

(** [grows n c]: the command [c] appends [n] results and touches no
    earlier one. *)
Let grows (n : nat) (c : command) : Prop :=
  forall s, exists added,
    results (fst (c s)) = results s ++ added /\ List.length added = n.

Lemma grows_frame (c : command) : preserves results c -> grows 0 c.
Proof. intros H s. exists []. now rewrite H, app_nil_r. Qed.

Lemma grows_seq (n m : nat) (c1 c2 : command) :
  grows n c1 -> grows m c2 -> grows (n + m) (c1 ;; c2).
Proof.
  intros H1 H2 s. rewrite seq_fst.
  destruct (H1 s) as (a1 & E1 & L1).
  destruct (H2 (fst (c1 s))) as (a2 & E2 & L2).
  exists (a1 ++ a2). rewrite E2, E1, <- app_assoc, length_app. now split; [|lia].
Qed.

Lemma grows_after (n : nat) (c1 c2 : command) :
  preserves results c1 -> grows n c2 -> grows n (c1 ;; c2).
Proof. intros H1 H2. apply (grows_seq 0 n); [now apply grows_frame|exact H2]. Qed.

Lemma grows_before (n : nat) (c1 c2 : command) :
  grows n c1 -> preserves results c2 -> grows n (c1 ;; c2).
Proof.
  intros H1 H2. replace n with (n + 0)%nat by lia.
  apply grows_seq; [exact H1|now apply grows_frame].
Qed.

Lemma grows_map_with_commands (count : EquipmentPosition -> bool)
    (f : EquipmentPosition -> EquipmentPosition * command) (prev : list EquipmentPosition) :
  (forall pos, grows (if count pos then 1 else 0) (snd (f pos))) ->
  grows (List.length (filter count prev)) (snd (map_with_commands f prev)).
Proof.
  intro H. induction prev as [|pos rest IH]; cbn [map_with_commands filter].
  - apply grows_frame, preserves_skip.
  - specialize (H pos). destruct (f pos) as [pos' c].
    destruct (map_with_commands f rest) as [rest' cs]. cbn [snd] in *.
    destruct (count pos); cbn [List.length].
    + now apply (grows_seq 1).
    + now apply (grows_seq 0).
Qed.

Lemma acid_and_base_are_two (cs : list ChemicalQuantity) :
  existsb (is_chemical "hcl") cs && existsb (is_chemical "naoh") cs = true ->
  (2 <=? Z.of_nat (List.length cs)) = true.
Proof.
  destruct cs as [|c [|c' cs]]; [discriminate| |intros _; apply Z.leb_le; cbn; lia].
  cbn [existsb]. rewrite !orb_false_r. unfold is_chemical.
  destruct (String.eqb_spec (chem_id c) "hcl") as [E|_]; [|discriminate].
  rewrite E. discriminate.
Qed.

Variable log10_pos : Q -> Q.
Variable props : Props.

Lemma handleReaction_grows (r : State) (chemicals : list ChemicalQuantity)
    (totalVolume : number) (equipmentId : string) (now : Z) :
  grows (if existsb (is_chemical "hcl") chemicals && existsb (is_chemical "naoh") chemicals
         then 1 else 0)
        (handleReaction props r chemicals totalVolume equipmentId now).
Proof.
  unfold handleReaction. cbv zeta.
  destruct (existsb (is_chemical "hcl") chemicals && existsb (is_chemical "naoh") chemicals);
    [|apply grows_frame, preserves_skip].
  repeat match goal with
    | |- grows 1 (_ ;; _) => apply grows_before
    end; try solve [frame].
  intro s. eexists. split; [reflexivity|reflexivity].
Qed.

Lemma drop_into_grows (r : State) (chemical : ChemicalInfo) (chemicalId equipmentId : string)
    (amount : number) (now : Z) (pos : EquipmentPosition) :
  grows (if reacting equipmentId (dropped chemical chemicalId amount) pos then 1 else 0)
        (snd (drop_into log10_pos props r chemical chemicalId equipmentId amount now pos)).
Proof.
  unfold drop_into, reacting.
  destruct (String.eqb (eq_id pos) equipmentId); cbn [snd andb];
    [|apply grows_frame, preserves_skip].
  cbv zeta.
  repeat match goal with
    | |- grows _ (_ ;; _) =>
        apply grows_after; [solve [unfold guidedStepDone; frame]|]
    end.
  destruct (existsb (is_chemical "hcl") _ && existsb (is_chemical "naoh") _) eqn:E.
  - rewrite (acid_and_base_are_two _ E).
    apply grows_before; [|frame].
    generalize (handleReaction_grows r
      (eq_chemicals pos ++ [dropped chemical chemicalId amount])
      (fold_left (fun sum c => add sum (chem_amount c))
                 (eq_chemicals pos ++ [dropped chemical chemicalId amount]) (int 0))
      equipmentId now).
    now rewrite E.
  - destruct (2 <=? _); [|apply grows_frame, preserves_skip].
    apply grows_before; [|frame].
    generalize (handleReaction_grows r
      (eq_chemicals pos ++ [dropped chemical chemicalId amount])
      (fold_left (fun sum c => add sum (chem_amount c))
                 (eq_chemicals pos ++ [dropped chemical chemicalId amount]) (int 0))
      equipmentId now).
    now rewrite E.
Qed.

Lemma handleChemicalDrop_grows (r : State) (chemical : ChemicalInfo)
    (chemicalId equipmentId : string) (amount : number) (now : Z) (s : State) :
  find (fun c => String.eqb (info_id c) chemicalId) (experimentChemicals props)
    = Some chemical ->
  exists added,
    results (fst (handleChemicalDrop log10_pos props r chemicalId equipmentId amount now s))
    = results s ++ added
    /\ List.length added
       = if special_case chemicalId equipmentId then 0%nat
         else List.length (filter (reacting equipmentId (dropped chemical chemicalId amount))
                                  (equipmentPositions s)).
Proof.
  intro Hf. unfold handleChemicalDrop, special_case. rewrite Hf.
  rewrite seq_fst.
  change (equipmentPositions s)
    with (equipmentPositions (fst (saveStateToHistory r s))).
  change (results s) with (results (fst (saveStateToHistory r s))).
  generalize (fst (saveStateToHistory r s)). clear s. intro s.
  destruct (String.eqb chemicalId "phenol" && String.eqb equipmentId "conical_flask").
  { cbn [orb]. revert s. apply grows_frame. frame. }
  destruct (String.eqb chemicalId "naoh" && String.eqb equipmentId "burette").
  { cbn [orb]. revert s. apply grows_frame. frame. }
  destruct (String.eqb chemicalId "phenol" && String.eqb equipmentId "burette").
  { cbn [orb]. revert s. apply grows_frame. frame. }
  cbn [orb]. rewrite seq_fst.
  change (results (fst (setSelectedChemical None ?x))) with (results x).
  unfold setEquipmentPositions_with.
  pose proof (grows_map_with_commands
                (reacting equipmentId (dropped chemical chemicalId amount))
                (drop_into log10_pos props r chemical chemicalId equipmentId amount now)
                (equipmentPositions s)
                (fun pos => drop_into_grows r chemical chemicalId equipmentId amount now pos))
    as H.
  destruct (map_with_commands _ (equipmentPositions s)) as [next inner]. cbn [snd] in H.
  exact (H (with_equipmentPositions (fun _ => next) s)).
Qed.

End ResultsLog.

(** X10. The results log under a drop.  A drop of a listed chemical
    removes and alters no result; it appends none when it is one of the
    three combinations handled first (phenol or naoh into the burette,
    phenol into the conical flask), and otherwise one for every piece of
    equipment with the target id that holds both hcl and naoh once the
    chemical is added -- so a further drop into a vessel that already
    holds both files the neutralisation again. *)
Theorem handleChemicalDrop_results_log :
  forall (log10_pos : Q -> Q) (props : Props) (r : State) (chemical : ChemicalInfo)
         (chemicalId equipmentId : string) (amount : number) (now : Z) (s : State),
    find (fun c => String.eqb (info_id c) chemicalId) (experimentChemicals props)
      = Some chemical ->
    let entry :=
      mkChemical chemicalId (info_name chemical) (info_color chemical) amount
                 (info_concentration chemical) in
    exists added,
      results (fst (handleChemicalDrop log10_pos props r chemicalId equipmentId amount now s))
      = results s ++ added
      /\ List.length added
         = if special_case chemicalId equipmentId then 0%nat
           else List.length (filter (reacting equipmentId entry) (equipmentPositions s)).
Proof.
  intros log10_pos props r chemical chemicalId equipmentId amount now s Hf entry.
  exact (handleChemicalDrop_grows log10_pos props r chemical chemicalId equipmentId
           amount now s Hf).
Qed.

Lemma handleChemicalDrop_results_log_witness :
  List.length
    (results (fst (handleChemicalDrop log10_floor titration_props ready "naoh" "conical_flask"
                                      (int 50) 2000 ready))) = 1%nat
  /\ List.length
       (results (fst (handleChemicalDrop log10_floor titration_props ready "naoh" "burette"
                                         (int 50) 2000 ready))) = 0%nat.
Proof.
  split.
  - destruct (handleChemicalDrop_results_log log10_floor titration_props ready
                (mkInfo "naoh" "Sodium Hydroxide" "NaOH" "#8B5A9B" "0.1 M" (int 50))
                "naoh" "conical_flask" (int 50) 2000 ready eq_refl) as (added & E & L).
    rewrite E, length_app, L. reflexivity.
  - destruct (handleChemicalDrop_results_log log10_floor titration_props ready
                (mkInfo "naoh" "Sodium Hydroxide" "NaOH" "#8B5A9B" "0.1 M" (int 50))
                "naoh" "burette" (int 50) 2000 ready eq_refl) as (added & E & L).
    rewrite E, length_app, L. reflexivity.
Defined.

(* ------------------------------------------------------------------ *)
(** ** Placing equipment *)

Section Clamping.

Lemma Math_max_between (lo hi q : Q) :
  (lo <= hi)%Q -> (q <= hi)%Q -> between (Fin lo) (Fin hi) (Math_max (Fin lo) (Fin q)).
Proof.
  intros Hlh Hq.
  change (Math_max (Fin lo) (Fin q)) with (if lt (Fin lo) (Fin q) then Fin q else Fin lo).
  destruct (lt (Fin lo) (Fin q)) eqn:E; split; apply le_Fin;
    try (apply lt_Fin in E); lra.
Qed.

Lemma clamp_between (lo hi : Q) (v : number) :
  (lo <= hi)%Q -> v <> NaN ->
  between (Fin lo) (Fin hi) (Math_max (Fin lo) (Math_min (Fin hi) v)).
Proof.
  intros Hlh Hv. destruct v as [q| | |]; [| | |congruence].
  - change (Math_min (Fin hi) (Fin q))
      with (if lt (Fin q) (Fin hi) then Fin q else Fin hi).
    destruct (lt (Fin q) (Fin hi)) eqn:E.
    + apply lt_Fin in E. apply Math_max_between; lra.
    + apply Math_max_between; lra.
  - change (Math_min (Fin hi) PInf) with (Fin hi). apply Math_max_between; lra.
  - change (Math_max (Fin lo) (Math_min (Fin hi) NInf)) with (Fin lo).
    split; apply le_Fin; lra.
Qed.

Lemma clampX_between (x : number) : x <> NaN -> between minX maxX (clampX x).
Proof. apply clamp_between. unfold inject_Z. lra. Qed.

Lemma clampY_between (y : number) : y <> NaN -> between minY maxY (clampY y).
Proof. apply clamp_between. unfold inject_Z. lra. Qed.

Lemma between_not_NaN (lo hi v : number) : between lo hi v -> v <> NaN.
Proof. intros [H _] ->. destruct lo; discriminate. Qed.

Lemma or_else_not_NaN (a b : number) : b <> NaN -> or_else a b <> NaN.
Proof.
  intro Hb. unfold or_else. destruct a; cbn [truthy]; try discriminate; [|exact Hb].
  destruct (negb _); [discriminate|exact Hb].
Qed.

Lemma add_finite (a b : number) :
  (exists x, a = Fin x) -> (exists y, b = Fin y) -> exists z, add a b = Fin z.
Proof. intros [x ->] [y ->]. eexists. reflexivity. Qed.

Lemma sub_finite (a b : number) :
  (exists x, a = Fin x) -> (exists y, b = Fin y) -> exists z, sub a b = Fin z.
Proof. intros [x ->] [y ->]. eexists. reflexivity. Qed.

Lemma between_finite (lo hi : Q) (v : number) :
  between (Fin lo) (Fin hi) v -> exists q, v = Fin q.
Proof. intro H. destruct (between_Fin _ _ _ H) as (q & E & _). now exists q. Qed.

End Clamping.

Section PlacementFacts.

Variable Math_sqrt : number -> number.
Variable props : Props.

Lemma formationPositions_some (formationX : number) (key : string) (ax ay : number) :
  formationPositions formationX key = Some (ax, ay) ->
  ax = formationX /\ In ay [int 120; int 280; int 420].
Proof.
  unfold formationPositions.
  destruct (String.eqb key "burette"); [intros [= <- <-]; cbn; auto|].
  destruct (String.eqb key "conical_flask"); [intros [= <- <-]; cbn; auto|].
  destruct (String.eqb key "magnetic_stirrer"); [intros [= <- <-]; cbn; auto|].
  discriminate.
Qed.

Lemma formation_height_on_bench (ay : number) :
  In ay [int 120; int 280; int 420] -> between minY maxY (clampY ay).
Proof.
  intros [<-|[<-|[<-|[]]]]; apply clampY_between; discriminate.
Qed.

(** What the snap block can return: the clamped drop point with the
    list untouched, or a formation slot with the other pieces aligned. *)
Lemma snap_to_formation_cases (id : string) (x y : number) (prev0 : list EquipmentPosition) :
  snap_to_formation Math_sqrt props id x y prev0 = (clampX x, clampY y, prev0)
  \/ exists formationX ay,
       formationX <> NaN
       /\ In ay [int 120; int 280; int 420]
       /\ String_includes (experimentTitle props) "Acid-Base" = true
       /\ includes titrationEquipment id = true
       /\ snap_to_formation Math_sqrt props id x y prev0
          = (clampX formationX, clampY ay, align_formation id formationX prev0).
Proof.
  unfold snap_to_formation. cbv zeta.
  destruct (String_includes (experimentTitle props) "Acid-Base") eqn:Et;
    [|left; reflexivity].
  destruct (includes titrationEquipment id) eqn:Ei; [|left; reflexivity].
  cbn [andb].
  match goal with
  | |- context [if ?c then _ else (clampX x, clampY y, prev0)] => destruct c
  end; [|left; reflexivity].
  match goal with
  | |- context [formationPositions ?fx id] =>
      assert (Hfx : fx <> NaN) by (apply or_else_not_NaN; discriminate);
      generalize dependent fx
  end.
  intros fx Hfx.
  destruct (formationPositions fx id) as [[sx sy]|] eqn:Ef; [|left; reflexivity].
  apply formationPositions_some in Ef. destruct Ef as [-> Hay].
  right. exists fx, sy. repeat split; auto.
Qed.

Lemma align_formation_ids (id : string) (formationX : number)
    (prev : list EquipmentPosition) :
  map eq_id (align_formation id formationX prev) = map eq_id prev
  /\ map eq_chemicals (align_formation id formationX prev) = map eq_chemicals prev.
Proof.
  unfold align_formation. rewrite !map_map. split; apply map_ext; intro pos;
    destruct (includes titrationEquipment (eq_id pos) && negb (String.eqb (eq_id pos) id));
    try reflexivity;
    destruct (formationPositions formationX (eq_id pos)) as [[ax ay]|]; reflexivity.
Qed.

Lemma align_formation_on_bench (id : string) (formationX : number)
    (prev : list EquipmentPosition) :
  formationX <> NaN ->
  Forall on_bench prev -> Forall on_bench (align_formation id formationX prev).
Proof.
  intros Hfx H. unfold align_formation. apply Forall_map.
  apply (Forall_impl _ (P := on_bench)); [|exact H].
  intros pos Hpos.
  destruct (includes titrationEquipment (eq_id pos) && negb (String.eqb (eq_id pos) id));
    [|exact Hpos].
  destruct (formationPositions formationX (eq_id pos)) as [[ax ay]|] eqn:Ef; [|exact Hpos].
  apply formationPositions_some in Ef. destruct Ef as [-> Hay].
  split; cbn [with_position eq_x eq_y].
  - now apply clampX_between.
  - now apply formation_height_on_bench.
Qed.

Lemma align_formation_keeps (id : string) (formationX : number)
    (prev : list EquipmentPosition) (pos : EquipmentPosition) :
  includes titrationEquipment (eq_id pos) = false \/ eq_id pos = id ->
  In pos prev -> In pos (align_formation id formationX prev).
Proof.
  intros H Hin. unfold align_formation. apply in_map_iff. exists pos. split; [|exact Hin].
  destruct H as [H|H].
  - now rewrite H.
  - rewrite H, String.eqb_refl, andb_false_r. reflexivity.
Qed.

Lemma snap_to_formation_on_bench (id : string) (x y : number)
    (prev0 : list EquipmentPosition) :
  x <> NaN -> y <> NaN -> Forall on_bench prev0 ->
  between minX maxX (fst (fst (snap_to_formation Math_sqrt props id x y prev0)))
  /\ between minY maxY (snd (fst (snap_to_formation Math_sqrt props id x y prev0)))
  /\ Forall on_bench (snd (snap_to_formation Math_sqrt props id x y prev0)).
Proof.
  intros Hx Hy H.
  destruct (snap_to_formation_cases id x y prev0)
    as [E|(fx & ay & Hfx & Hay & _ & _ & E)]; rewrite E; cbn [fst snd].
  - repeat split; try (now apply clampX_between); try (now apply clampY_between);
      try exact H; now apply clampX_between || now apply clampY_between.
  - split; [now apply clampX_between|].
    split; [now apply formation_height_on_bench|].
    now apply align_formation_on_bench.
Qed.

Lemma testPositions_finite (finalX finalY offset tx ty : number) :
  (exists q, finalX = Fin q) -> (exists q, finalY = Fin q) -> (exists q, offset = Fin q) ->
  In (tx, ty) (testPositions finalX finalY offset) ->
  tx <> NaN /\ ty <> NaN.
Proof.
  intros Hx Hy Ho Hin.
  assert (Hax := add_finite _ _ Hx Ho). assert (Hsx := sub_finite _ _ Hx Ho).
  assert (Hay := add_finite _ _ Hy Ho). assert (Hsy := sub_finite _ _ Hy Ho).
  destruct Hx as [qx Ex], Hy as [qy Ey], Hax as [q1 E1], Hsx as [q2 E2],
    Hay as [q3 E3], Hsy as [q4 E4].
  unfold testPositions in Hin. rewrite E1, E2, E3, E4, Ex, Ey in Hin.
  cbn [In] in Hin.
  repeat (destruct Hin as [Hin|Hin]; [injection Hin as <- <-; split; discriminate|]).
  destruct Hin.
Qed.

Lemma free_spot_on_bench (prev : list EquipmentPosition) (id : string)
    (offs : list number) (finalX finalY : number) :
  Forall (fun o => exists q, o = Fin q) offs ->
  between minX maxX finalX -> between minY maxY finalY ->
  between minX maxX (fst (free_spot Math_sqrt props prev id offs finalX finalY))
  /\ between minY maxY (snd (free_spot Math_sqrt props prev id offs finalX finalY)).
Proof.
  intro Ho. revert finalX finalY.
  induction Ho as [|offset rest Hoff _ IH]; intros finalX finalY Hx Hy;
    cbn [free_spot]; [now split|].
  assert (Hstep :
    between minX maxX
      (fst (match find (fun '(tx, ty) =>
                          negb (isOverlapping Math_sqrt props prev (clampX tx) (clampY ty) id))
                       (testPositions finalX finalY offset) with
            | Some (tx, ty) => (clampX tx, clampY ty)
            | None => (finalX, finalY)
            end))
    /\ between minY maxY
      (snd (match find (fun '(tx, ty) =>
                          negb (isOverlapping Math_sqrt props prev (clampX tx) (clampY ty) id))
                       (testPositions finalX finalY offset) with
            | Some (tx, ty) => (clampX tx, clampY ty)
            | None => (finalX, finalY)
            end))).
  { destruct (find _ (testPositions finalX finalY offset)) as [[tx ty]|] eqn:Ef;
      [|now split].
    apply find_some in Ef. destruct Ef as [Hin _].
    destruct (testPositions_finite finalX finalY offset tx ty) as [Htx Hty]; auto.
    - exact (between_finite _ _ _ Hx).
    - exact (between_finite _ _ _ Hy).
    - split; [now apply clampX_between|now apply clampY_between]. }
  destruct (match find _ (testPositions finalX finalY offset) with
            | Some (tx, ty) => (clampX tx, clampY ty)
            | None => (finalX, finalY)
            end) as [fx fy].
  cbn [fst snd] in Hstep. destruct Hstep as [Hfx Hfy].
  destruct (negb (isOverlapping Math_sqrt props prev fx fy id)); [now split|].
  now apply IH.
Qed.

Lemma offsets_finite : Forall (fun o => exists q, o = Fin q) offsets.
Proof. repeat constructor; eexists; reflexivity. Qed.

(** The list the updater returns, by cases on the presence of [id]. *)
Lemma place_list (r : State) (id : string) (x y : number) (prev0 : list EquipmentPosition) :
  exists finalX finalY,
    let prev := snd (snap_to_formation Math_sqrt props id x y prev0) in
    (finalX, finalY)
    = (if isOverlapping Math_sqrt props prev
            (fst (fst (snap_to_formation Math_sqrt props id x y prev0)))
            (snd (fst (snap_to_formation Math_sqrt props id x y prev0))) id
       then free_spot Math_sqrt props prev id offsets
              (fst (fst (snap_to_formation Math_sqrt props id x y prev0)))
              (snd (fst (snap_to_formation Math_sqrt props id x y prev0)))
       else fst (snap_to_formation Math_sqrt props id x y prev0))
    /\ fst (place Math_sqrt props r id x y prev0)
       = match find (is_equipment id) prev0 with
         | Some _ => map (fun pos => if String.eqb (eq_id pos) id
                                     then with_position finalX finalY pos else pos) prev
         | None => prev ++ [mkEquipment id finalX finalY []]
         end.
Proof.
  unfold place. cbv zeta.
  destruct (snap_to_formation Math_sqrt props id x y prev0) as [[snapX snapY] prev]. cbn [fst snd].
  destruct (if isOverlapping Math_sqrt props prev snapX snapY id
            then free_spot Math_sqrt props prev id offsets snapX snapY
            else (snapX, snapY)) as [finalX finalY].
  exists finalX, finalY. split; [reflexivity|].
  destruct (find (is_equipment id) prev0); reflexivity.
Qed.

Lemma place_frame {A : Type} (proj : State -> A) (r : State) (id : string) (x y : number)
    (prev0 : list EquipmentPosition) :
  (forall g s, proj (with_toastMessage g s) = proj s) ->
  (forall g s, proj (with_currentGuidedStep g s) = proj s) ->
  preserves proj (snd (place Math_sqrt props r id x y prev0)).
Proof.
  intros H1 H2. unfold place. cbv zeta.
  destruct (snap_to_formation Math_sqrt props id x y prev0) as [[snapX snapY] prev].
  destruct (if isOverlapping Math_sqrt props prev snapX snapY id
            then free_spot Math_sqrt props prev id offsets snapX snapY
            else (snapX, snapY)) as [finalX finalY].
  destruct (find (is_equipment id) prev0); cbn [snd]; [apply preserves_skip|].
  unfold setToastMessage.
  repeat match goal with
    | |- preserves _ (seq _ _) => apply preserves_seq
    | |- preserves _ skip => apply preserves_skip
    | |- preserves _ (setTimeout _ _) => apply preserves_request
    | |- preserves _ (markStepCompleted _ _ _ _) => apply preserves_markStepCompleted
    | |- preserves _ (modify _) => apply preserves_modify; intro; auto
    | |- preserves _ (if ?b then _ else _) => destruct b
    | |- _ => progress cbv zeta
    end.
Qed.

Lemma handleEquipmentDrop_positions (r : State) (id : string) (x y : number) (s : State) :
  equipmentPositions (fst (handleEquipmentDrop Math_sqrt props r id x y s))
  = fst (place Math_sqrt props r id x y (equipmentPositions s)).
Proof.
  unfold handleEquipmentDrop. rewrite seq_fst.
  rewrite setEquipmentPositions_with_positions; [reflexivity|].
  intro prev. apply place_frame; reflexivity.
Qed.

Lemma handleEquipmentDrop_frame {A : Type} (proj : State -> A) (r : State) (id : string)
    (x y : number) :
  (forall g s, proj (with_toastMessage g s) = proj s) ->
  (forall g s, proj (with_currentGuidedStep g s) = proj s) ->
  (forall g s, proj (with_equipmentPositions g s) = proj s) ->
  (forall g s, proj (with_undoHistory g s) = proj s) ->
  preserves proj (handleEquipmentDrop Math_sqrt props r id x y).
Proof.
  intros H1 H2 H3 H4. unfold handleEquipmentDrop. apply preserves_seq.
  - unfold saveStateToHistory, setUndoHistory. apply preserves_modify. intro. apply H4.
  - apply preserves_setEquipmentPositions_with; [exact H3|].
    intro prev. now apply place_frame.
Qed.

Lemma find_is_equipment (id : string) (prev : list EquipmentPosition) :
  (exists pos, find (is_equipment id) prev = Some pos) <-> In id (map eq_id prev).
Proof.
  induction prev as [|p rest IH]; cbn [find map In].
  - split; [intros [pos E]; discriminate|intros []].
  - unfold is_equipment at 1. destruct (String.eqb_spec (eq_id p) id) as [E|N].
    + split; [intros _; now left|intros _; now exists p].
    + rewrite IH. split; [intro H; now right|intros [H|H]; [contradiction|exact H]].
Qed.

Lemma reposition_ids (id : string) (fx fy : number) (prev : list EquipmentPosition) :
  map eq_id (map (fun pos => if String.eqb (eq_id pos) id
                             then with_position fx fy pos else pos) prev) = map eq_id prev
  /\ map eq_chemicals (map (fun pos => if String.eqb (eq_id pos) id
                                       then with_position fx fy pos else pos) prev)
     = map eq_chemicals prev.
Proof.
  rewrite !map_map. split; apply map_ext; intro pos;
    destruct (String.eqb (eq_id pos) id); reflexivity.
Qed.

Lemma snap_to_formation_ids (id : string) (x y : number) (prev0 : list EquipmentPosition) :
  map eq_id (snd (snap_to_formation Math_sqrt props id x y prev0)) = map eq_id prev0
  /\ map eq_chemicals (snd (snap_to_formation Math_sqrt props id x y prev0)) = map eq_chemicals prev0.
Proof.
  destruct (snap_to_formation_cases id x y prev0) as [E|(fx & ay & _ & _ & _ & _ & E)];
    rewrite E; cbn [snd]; [now split|apply align_formation_ids].
Qed.

End PlacementFacts.

Lemma equipment_drop_ids :
  forall (Math_sqrt : number -> number) (props : Props) (r : State) (id : string)
         (x y : number) (s : State),
    let before := equipmentPositions s in
    let after := equipmentPositions (fst (handleEquipmentDrop Math_sqrt props r id x y s)) in
    (In id (map eq_id before) ->
     map eq_id after = map eq_id before
     /\ map eq_chemicals after = map eq_chemicals before)
    /\ (~ In id (map eq_id before) ->
        map eq_id after = map eq_id before ++ [id]
        /\ map eq_chemicals after = map eq_chemicals before ++ [[]])
    /\ (NoDup (map eq_id before) -> NoDup (map eq_id after)).
Proof.
  intros Math_sqrt props r id x y s before after.
  assert (Hcases :
    (In id (map eq_id before) ->
     map eq_id after = map eq_id before
     /\ map eq_chemicals after = map eq_chemicals before)
    /\ (~ In id (map eq_id before) ->
        map eq_id after = map eq_id before ++ [id]
        /\ map eq_chemicals after = map eq_chemicals before ++ [[]])).
  { subst after. rewrite handleEquipmentDrop_positions. fold before.
    destruct (place_list Math_sqrt props r id x y before) as (fx & fy & _ & ->).
    destruct (snap_to_formation_ids Math_sqrt props id x y before) as [Hids Hchem].
    split; intro Hin.
    - apply find_is_equipment in Hin. destruct Hin as [pos ->].
      destruct (reposition_ids id fx fy (snd (snap_to_formation Math_sqrt props id x y before)))
        as [-> ->].
      now split.
    - destruct (find (is_equipment id) before) as [pos|] eqn:Ef.
      + exfalso. apply Hin. apply find_is_equipment. now exists pos.
      + rewrite !map_app, Hids, Hchem. now split. }
  destruct Hcases as [Hold Hnew]. repeat split; try (now apply Hold); try (now apply Hnew).
  intro Hnd. destruct (in_dec string_dec id (map eq_id before)) as [Hin|Hout].
  - destruct (Hold Hin) as [-> _]. exact Hnd.
  - destruct (Hnew Hout) as [-> _].
    apply NoDup_app; [exact Hnd|repeat constructor; intros []|].
    intros a Ha [<-|[]]. contradiction.
Qed.

(** X11. One piece per id.  A drop of equipment [id] that is already on
    the workbench leaves the ids and the chemicals of every piece as
    they were (the piece is moved, never duplicated, and keeps its
    contents); a drop of a new [id] appends one empty piece with that
    id.  Hence ids that are pairwise distinct stay so. *)
Theorem handleEquipmentDrop_one_piece_per_id :
  forall (Math_sqrt : number -> number) (props : Props) (r : State) (id : string)
         (x y : number) (s : State),
    let before := equipmentPositions s in
    let after := equipmentPositions (fst (handleEquipmentDrop Math_sqrt props r id x y s)) in
    (In id (map eq_id before) ->
     map eq_id after = map eq_id before
     /\ map eq_chemicals after = map eq_chemicals before)
    /\ (~ In id (map eq_id before) ->
        map eq_id after = map eq_id before ++ [id]
        /\ map eq_chemicals after = map eq_chemicals before ++ [[]])
    /\ (NoDup (map eq_id before) -> NoDup (map eq_id after)).
Proof. exact equipment_drop_ids. Qed.

Lemma equipment_drop_on_bench :
  forall (Math_sqrt : number -> number) (props : Props) (r : State) (id : string)
         (x y : number) (s : State),
    x <> NaN -> y <> NaN ->
    Forall on_bench (equipmentPositions s) ->
    Forall on_bench
      (equipmentPositions (fst (handleEquipmentDrop Math_sqrt props r id x y s))).
Proof.
  intros Math_sqrt props r id x y s Hx Hy H.
  rewrite handleEquipmentDrop_positions.
  destruct (place_list Math_sqrt props r id x y (equipmentPositions s))
    as (fx & fy & Ef & ->).
  cbv zeta in Ef.
  destruct (snap_to_formation_on_bench Math_sqrt props id x y (equipmentPositions s) Hx Hy H)
    as (Hsx & Hsy & Hprev).
  assert (Hf : between minX maxX fx /\ between minY maxY fy).
  { destruct (isOverlapping _ _ _ _ _ _).
    - pose proof (free_spot_on_bench Math_sqrt props
                    (snd (snap_to_formation Math_sqrt props id x y (equipmentPositions s))) id
                    offsets _ _ offsets_finite Hsx Hsy) as Hfree.
      rewrite <- Ef in Hfree. exact Hfree.
    - destruct (fst (snap_to_formation Math_sqrt props id x y (equipmentPositions s))) as [sx sy].
      injection Ef as -> ->. now split. }
  destruct (find (is_equipment id) (equipmentPositions s)).
  - apply Forall_map. apply (Forall_impl _ (P := on_bench)); [|exact Hprev].
    intros pos Hpos. destruct (String.eqb (eq_id pos) id); [exact Hf|exact Hpos].
  - apply Forall_app. split; [exact Hprev|]. constructor; [exact Hf|constructor].
Qed.

(** X12. Equipment stays on the workbench.  If every piece lies in the
    area x in [60, 800], y in [60, 450] and the drop coordinates are
    numbers (not NaN), then after the drop -- snapped to the formation,
    moved away from an overlap, or neither -- every piece again lies in
    that area. *)
Theorem handleEquipmentDrop_stays_on_bench :
  forall (Math_sqrt : number -> number) (props : Props) (r : State) (id : string)
         (x y : number) (s : State),
    x <> NaN -> y <> NaN ->
    Forall on_bench (equipmentPositions s) ->
    Forall on_bench
      (equipmentPositions (fst (handleEquipmentDrop Math_sqrt props r id x y s))).
Proof. exact equipment_drop_on_bench. Qed.

Lemma handleEquipmentDrop_stays_on_bench_witness :
  Forall on_bench
    (equipmentPositions
       (fst (handleEquipmentDrop sqrt_floor titration_props ready "beaker"
                                 (int 2000) (int (-40)) ready))).
Proof.
  apply handleEquipmentDrop_stays_on_bench.
  - discriminate.
  - discriminate.
  - repeat constructor.
Defined.

(** X13. Only the formation is rearranged.  A piece other than the one
    dropped keeps its position and contents, unless the experiment is
    the Acid-Base one and both that piece and the dropped one belong to
    the burette / conical flask / magnetic stirrer formation. *)
Theorem handleEquipmentDrop_moves_nothing_else :
  forall (Math_sqrt : number -> number) (props : Props) (r : State) (id : string)
         (x y : number) (s : State) (pos : EquipmentPosition),
    In pos (equipmentPositions s) ->
    eq_id pos <> id ->
    String_includes (experimentTitle props) "Acid-Base"
    && includes titrationEquipment (eq_id pos)
    && includes titrationEquipment id = false ->
    In pos (equipmentPositions (fst (handleEquipmentDrop Math_sqrt props r id x y s))).
Proof.
  intros Math_sqrt props r id x y s pos Hin Hid Hformation.
  rewrite handleEquipmentDrop_positions.
  destruct (place_list Math_sqrt props r id x y (equipmentPositions s))
    as (fx & fy & _ & ->).
  assert (Hprev : In pos (snd (snap_to_formation Math_sqrt props id x y (equipmentPositions s)))).
  { destruct (snap_to_formation_cases Math_sqrt props id x y (equipmentPositions s))
      as [E|(formationX & ay & _ & _ & Et & Ei & E)]; rewrite E; cbn [snd]; [exact Hin|].
    apply align_formation_keeps; [|exact Hin]. left.
    rewrite Et, Ei, andb_true_r in Hformation. exact Hformation. }
  destruct (find (is_equipment id) (equipmentPositions s)).
  - apply in_map_iff. exists pos. split; [|exact Hprev].
    destruct (String.eqb_spec (eq_id pos) id) as [E|_]; [contradiction|reflexivity].
  - apply in_or_app. now left.
Qed.

Lemma handleEquipmentDrop_moves_nothing_else_witness :
  In (mkEquipment "conical_flask" (int 450) (int 280)
        [ mkChemical "hcl" "Hydrochloric Acid" "#FFE135" (int 25) "0.1 M";
          mkChemical "phenol" "Phenolphthalein" "#FFB6C1" (int 10) "Indicator" ])
     (equipmentPositions
        (fst (handleEquipmentDrop sqrt_floor titration_props ready "beaker"
                                  (int 450) (int 280) ready))).
Proof.
  apply handleEquipmentDrop_moves_nothing_else.
  - right. left. reflexivity.
  - discriminate.
  - reflexivity.
Defined.

(* ------------------------------------------------------------------ *)
(** ** What the drop handlers schedule *)

Section Quiet.

(** [quiet c]: everything [c] schedules is bookkeeping. *)
Let quiet (c : command) : Prop := forall s, Forall bookkeeping (snd (c s)).

Lemma quiet_skip : quiet skip.
Proof. intro s. constructor. Qed.

Lemma quiet_modify (g : State -> State) : quiet (modify g).
Proof. intro s. constructor. Qed.

Lemma quiet_clear (ms : Z) : quiet (setTimeout ClearToast ms).
Proof. intro s. repeat constructor. Qed.

Lemma quiet_seq (c1 c2 : command) : quiet c1 -> quiet c2 -> quiet (c1 ;; c2).
Proof. intros H1 H2 s. rewrite seq_snd. apply Forall_app. split; [apply H1|apply H2]. Qed.

Lemma quiet_markStepCompleted (props : Props) (r : State) (n : Z) (msg : string) :
  quiet (markStepCompleted props r n msg).
Proof.
  unfold markStepCompleted.
  destruct (String_includes (experimentTitle props) "Acid-Base"
            && negb (Set_has (completedSteps r) n)); intro s; repeat constructor.
Qed.

Lemma quiet_map_with_commands
    (f : EquipmentPosition -> EquipmentPosition * command) (prev : list EquipmentPosition) :
  (forall pos, quiet (snd (f pos))) -> quiet (snd (map_with_commands f prev)).
Proof.
  intro H. induction prev as [|pos rest IH]; cbn [map_with_commands].
  - apply quiet_skip.
  - specialize (H pos). destruct (f pos) as [pos' c].
    destruct (map_with_commands f rest) as [rest' cs]. cbn [snd] in *.
    now apply quiet_seq.
Qed.

Lemma quiet_setEquipmentPositions_with
    (updater : list EquipmentPosition -> list EquipmentPosition * command) :
  (forall prev, quiet (snd (updater prev))) -> quiet (setEquipmentPositions_with updater).
Proof.
  intros H s. unfold setEquipmentPositions_with.
  specialize (H (equipmentPositions s)).
  destruct (updater (equipmentPositions s)) as [next inner]. apply H.
Qed.

Ltac quiet_step :=
  match goal with
  | |- quiet (seq _ _) => apply quiet_seq
  | |- quiet skip => apply quiet_skip
  | |- quiet (modify _) => apply quiet_modify
  | |- quiet (setTimeout ClearToast _) => apply quiet_clear
  | |- quiet (markStepCompleted _ _ _ _) => apply quiet_markStepCompleted
  | |- quiet (if ?b then _ else _) => destruct b
  | |- quiet (match ?x with _ => _ end) => destruct x
  | |- _ => progress cbv zeta
  end.

Variable Math_sqrt : number -> number.
Variable log10_pos : Q -> Q.
Variable props : Props.

Lemma quiet_handleChemicalDrop (r : State) (chemicalId equipmentId : string)
    (amount : number) (now : Z) :
  quiet (handleChemicalDrop log10_pos props r chemicalId equipmentId amount now).
Proof.
  unfold handleChemicalDrop.
  destruct (find _ (experimentChemicals props)) as [chemical|]; [|apply quiet_skip].
  unfold saveStateToHistory, setUndoHistory, setToastMessage, setEquipmentPositions,
    setSelectedChemical.
  repeat match goal with
    | |- quiet (setEquipmentPositions_with _) => fail 1
    | |- _ => quiet_step
    end.
  apply quiet_setEquipmentPositions_with. intro prev.
  apply quiet_map_with_commands. intro pos.
  unfold drop_into.
  destruct (String.eqb (eq_id pos) equipmentId); cbn [snd]; [|apply quiet_skip].
  unfold handleReaction, guidedStepDone, setToastMessage, setResults, setMeasurements,
    setHasCalculatedResult.
  repeat quiet_step.
Qed.

Lemma quiet_handleEquipmentDrop (r : State) (id : string) (x y : number) :
  quiet (handleEquipmentDrop Math_sqrt props r id x y).
Proof.
  unfold handleEquipmentDrop. apply quiet_seq.
  - unfold saveStateToHistory, setUndoHistory. apply quiet_modify.
  - apply quiet_setEquipmentPositions_with. intro prev.
    unfold place. cbv zeta.
    destruct (snap_to_formation Math_sqrt props id x y prev) as [[snapX snapY] prev'].
    destruct (if isOverlapping Math_sqrt props prev' snapX snapY id
              then free_spot Math_sqrt props prev' id offsets snapX snapY
              else (snapX, snapY)) as [finalX finalY].
    destruct (find (is_equipment id) prev); cbn [snd]; [apply quiet_skip|].
    unfold setToastMessage.
    repeat quiet_step.
Qed.

End Quiet.

(** X14. The drop handlers leave the titration alone.  A chemical drop
    and an equipment drop never change [isTitrating], the colour
    progress, the cumulative volume and intensity, the stirring flag or
    the set of completed steps, and all they schedule is bookkeeping: the
    timers that clear the toast and the deferred insertion of a step
    (delay 0) -- no animation frame, no interval. *)
Theorem drops_leave_the_titration_alone :
  forall (Math_sqrt : number -> number) (log10_pos : Q -> Q) (props : Props) (r : State)
         (chemicalId equipmentId : string) (amount : number) (now : Z)
         (id : string) (x y : number) (s : State),
    let observed (t : State) :=
      (isTitrating t, titrationColorProgress t, cumulativeVolume t,
       cumulativeColorIntensity t, isStirring t, completedSteps t) in
    let poured := handleChemicalDrop log10_pos props r chemicalId equipmentId amount now s in
    let placed := handleEquipmentDrop Math_sqrt props r id x y s in
    observed (fst poured) = observed s
    /\ Forall bookkeeping (snd poured)
    /\ observed (fst placed) = observed s
    /\ Forall bookkeeping (snd placed).
Proof.
  intros Math_sqrt log10_pos props r chemicalId equipmentId amount now id x y s
         observed poured placed.
  split; [|split; [|split]].
  - apply (handleChemicalDrop_frame log10_pos props observed); reflexivity.
  - apply quiet_handleChemicalDrop.
  - apply (handleEquipmentDrop_frame Math_sqrt props observed); reflexivity.
  - apply quiet_handleEquipmentDrop.
Qed.

(* ------------------------------------------------------------------ *)
(** ** Undo after a drop *)

Section UndoAfterDrop.

Variable Math_sqrt : number -> number.
Variable log10_pos : Q -> Q.
Variable props : Props.

Lemma handleEquipmentDrop_history (r : State) (id : string) (x y : number) (s : State) :
  undoHistory (fst (handleEquipmentDrop Math_sqrt props r id x y s))
  = slice_last 9 (undoHistory s) ++ [equipmentPositions r].
Proof.
  unfold handleEquipmentDrop. rewrite seq_fst.
  rewrite <- saveStateToHistory_history.
  generalize (fst (saveStateToHistory r s)).
  apply (preserves_setEquipmentPositions_with undoHistory); [reflexivity|].
  intro prev. apply place_frame; reflexivity.
Qed.

Lemma handleChemicalDrop_history (r : State) (chemical : ChemicalInfo)
    (chemicalId equipmentId : string) (amount : number) (now : Z) (s : State) :
  find (fun c => String.eqb (info_id c) chemicalId) (experimentChemicals props)
    = Some chemical ->
  undoHistory (fst (handleChemicalDrop log10_pos props r chemicalId equipmentId amount now s))
  = slice_last 9 (undoHistory s) ++ [equipmentPositions r].
Proof.
  intro Hf. unfold handleChemicalDrop. rewrite Hf, seq_fst.
  rewrite <- saveStateToHistory_history.
  generalize (fst (saveStateToHistory r s)). intro s1.
  match goal with
  | |- undoHistory (fst (?c s1)) = _ => revert s1; change (preserves undoHistory c)
  end.
  unfold setToastMessage, setEquipmentPositions, setSelectedChemical.
  repeat match goal with
    | |- preserves _ (seq _ _) => apply preserves_seq
    | |- preserves _ (setTimeout _ _) => apply preserves_request
    | |- preserves _ (markStepCompleted _ _ _ _) => apply preserves_markStepCompleted
    | |- preserves _ (modify _) => apply preserves_modify; intro; reflexivity
    | |- preserves _ (if ?b then _ else _) => destruct b
    end.
  apply preserves_setEquipmentPositions_with; [reflexivity|].
  intro prev. apply preserves_map_with_commands. intro pos.
  apply drop_into_frame; reflexivity.
Qed.

Lemma undo_restores (s1 : State) (older : list (list EquipmentPosition))
    (saved : list EquipmentPosition) :
  undoHistory s1 = older ++ [saved] ->
  equipmentPositions (fst (handleUndo s1 s1)) = saved
  /\ undoHistory (fst (handleUndo s1 s1)) = older.
Proof. intro H. now apply handleUndo_restores. Qed.

End UndoAfterDrop.

(** X15. Undo takes back an equipment drop.  After a drop handled in the
    current render, an undo from the next render puts the equipment list
    back exactly as it was -- positions, formation alignment and all --
    and the undo history is the previous one cut to its last nine
    entries: unchanged when it held at most nine, without its oldest
    entry when it held ten. *)
Theorem undo_takes_back_an_equipment_drop :
  forall (Math_sqrt : number -> number) (props : Props) (id : string) (x y : number)
         (s : State),
    let placed := fst (handleEquipmentDrop Math_sqrt props s id x y s) in
    let undone := fst (handleUndo placed placed) in
    equipmentPositions undone = equipmentPositions s
    /\ undoHistory undone = slice_last 9 (undoHistory s)
    /\ ((List.length (undoHistory s) <= 9)%nat -> undoHistory undone = undoHistory s).
Proof.
  intros Math_sqrt props id x y s placed undone.
  destruct (undo_restores placed _ _ (handleEquipmentDrop_history Math_sqrt props s id x y s))
    as [Hp Hh].
  fold undone in Hp, Hh.
  split; [exact Hp|]. split; [exact Hh|].
  intro Hlen. rewrite Hh. now apply slice_last_short.
Qed.

(** X16. Undo takes back the chemical, not what it caused.  After a drop
    of a listed chemical handled in the current render, an undo from the
    next render puts the equipment list back as it was before the drop,
    while the results log, the measurements, the calculated-result flag
    and the guided step stay as the drop left them. *)
Theorem undo_keeps_what_a_chemical_drop_caused :
  forall (log10_pos : Q -> Q) (props : Props) (chemical : ChemicalInfo)
         (chemicalId equipmentId : string) (amount : number) (now : Z) (s : State),
    find (fun c => String.eqb (info_id c) chemicalId) (experimentChemicals props)
      = Some chemical ->
    let poured :=
      fst (handleChemicalDrop log10_pos props s chemicalId equipmentId amount now s) in
    let undone := fst (handleUndo poured poured) in
    equipmentPositions undone = equipmentPositions s
    /\ undoHistory undone = slice_last 9 (undoHistory s)
    /\ results undone = results poured
    /\ measurements undone = measurements poured
    /\ hasCalculatedResult undone = hasCalculatedResult poured
    /\ currentGuidedStep undone = currentGuidedStep poured.
Proof.
  intros log10_pos props chemical chemicalId equipmentId amount now s Hf poured undone.
  destruct (undo_restores poured _ _
              (handleChemicalDrop_history log10_pos props s chemical chemicalId equipmentId
                 amount now s Hf)) as [Hp Hh].
  fold undone in Hp, Hh.
  split; [exact Hp|]. split; [exact Hh|].
  repeat split; apply handleUndo_keeps; reflexivity.
Qed.

Lemma undo_keeps_what_a_chemical_drop_caused_witness :
  let poured :=
    fst (handleChemicalDrop log10_floor titration_props ready "naoh" "conical_flask"
                            (int 50) 2000 ready) in
  equipmentPositions (fst (handleUndo poured poured)) = bench
  /\ List.length (results (fst (handleUndo poured poured))) = 1%nat.
Proof.
  destruct (undo_keeps_what_a_chemical_drop_caused log10_floor titration_props
              (mkInfo "naoh" "Sodium Hydroxide" "NaOH" "#8B5A9B" "0.1 M" (int 50))
              "naoh" "conical_flask" (int 50) 2000 ready eq_refl)
    as (Hp & _ & Hr & _).
  cbv zeta. split; [exact Hp|]. rewrite Hr. reflexivity.
Defined.

(* ------------------------------------------------------------------ *)
(** ** Drop targets *)

(** X17. The highlight agrees with the drop.  The test [isValidDrop]
    that lights an equipment up while a chemical is dragged over it holds
    exactly for the containers -- the equipment that accepts the drop --
    whatever the chemical: its two explicit combinations are containers
    already. *)
Theorem isValidDrop_is_isContainer :
  forall chemical_id id : string, isValidDrop chemical_id id = isContainer id.
Proof.
  intros chemical_id id. unfold isValidDrop.
  destruct (isContainer id) eqn:Ec.
  - cbn [andb]. destruct (includes ["phenol"; "naoh"] chemical_id);
      cbn [negb andb orb]; now rewrite ?orb_true_r.
  - rewrite !andb_false_r, orb_false_r. cbn [andb orb]. rewrite orb_false_r.
    destruct (String.eqb_spec id "conical_flask") as [->|_]; [discriminate|].
    destruct (String.eqb_spec id "burette") as [->|_]; [discriminate|].
    now rewrite !andb_false_r.
Qed.

(* ------------------------------------------------------------------ *)
(** ** From the start of a titration to the flask on display *)

Section StartedTitration.

Variable props : Props.

Lemma unique_by_id (eqs : list EquipmentPosition) (p q : EquipmentPosition) :
  NoDup (map eq_id eqs) -> In p eqs -> In q eqs -> eq_id p = eq_id q -> p = q.
Proof.
  induction eqs as [|e rest IH]; intros Hnd Hp Hq Hid; [destruct Hp|].
  cbn [map] in Hnd. inversion Hnd as [|? ? Hout Hrest]; subst.
  destruct Hp as [->|Hp], Hq as [->|Hq].
  - reflexivity.
  - exfalso. apply Hout. rewrite Hid. now apply in_map.
  - exfalso. apply Hout. rewrite <- Hid. now apply in_map.
  - now apply IH.
Qed.

(** The state a successful start leaves, in the fields the flask on
    display reads, and the stirring flag. *)
Lemma handleStartTitration_started (r : State) (now : Z) (s : State)
    (b f : EquipmentPosition) :
  find (is_equipment "burette") (equipmentPositions r) = Some b ->
  find (is_equipment "conical_flask") (equipmentPositions r) = Some f ->
  existsb (is_chemical "naoh") (eq_chemicals b) = true ->
  let s' := fst (handleStartTitration props r now s) in
  titrationColorProgress s' = int 0
  /\ equipmentPositions s'
     = (if existsb (is_chemical "naoh") (eq_chemicals f) then equipmentPositions s
        else map_flask (with_chemicals (fun cs => cs ++ [naoh_in_flask (int 1)]))
                       (equipmentPositions s))
  /\ isStirring s'
     = match find (is_equipment "magnetic_stirrer") (equipmentPositions r) with
       | Some _ => if isStirring r then isStirring s else true
       | None => isStirring s
       end.
Proof.
  intros Eb Ef En. unfold handleStartTitration. rewrite Eb, Ef, En.
  cbv zeta. cbn [negb].
  rewrite !seq_fst. rewrite markStepCompleted_state.
  destruct (find (is_equipment "magnetic_stirrer") (equipmentPositions r));
    destruct (existsb (is_chemical "naoh") (eq_chemicals f));
    try destruct (isStirring r) eqn:Es; cbn [negb]; rewrite ?seq_fst;
    repeat split; reflexivity.
Qed.

Lemma map_flask_In (g : EquipmentPosition -> EquipmentPosition)
    (eqs : list EquipmentPosition) (flask : EquipmentPosition) :
  In flask (map_flask g eqs) -> eq_id flask = "conical_flask" ->
  (forall pos, eq_id (g pos) = eq_id pos) ->
  exists pos, In pos eqs /\ flask = g pos.
Proof.
  intros Hin Hid Hg. unfold map_flask in Hin. apply in_map_iff in Hin.
  destruct Hin as (pos & E & Hpos). exists pos. split; [exact Hpos|].
  unfold is_equipment in E.
  destruct (String.eqb_spec (eq_id pos) "conical_flask") as [_|N]; [now symmetry|].
  subst flask. contradiction.
Qed.

Lemma started_flask_holds_naoh (s : State) (now : Z) (flask : EquipmentPosition) :
  isTitrating s = false ->
  isTitrating (fst (handleStartTitration props s now s)) = true ->
  NoDup (map eq_id (equipmentPositions s)) ->
  In flask (equipmentPositions (fst (handleStartTitration props s now s))) ->
  eq_id flask = "conical_flask" ->
  titrationColorProgress (fst (handleStartTitration props s now s)) = int 0
  /\ In "naoh" (map chem_id (eq_chemicals flask)).
Proof.
  intros Hidle Hstart Hnd Hin Hid.
  destruct (find (is_equipment "burette") (equipmentPositions s)) as [b|] eqn:Eb;
    [|unfold handleStartTitration in Hstart; rewrite Eb in Hstart; cbn in Hstart;
      congruence].
  destruct (find (is_equipment "conical_flask") (equipmentPositions s)) as [f|] eqn:Ef;
    [|unfold handleStartTitration in Hstart; rewrite Eb, Ef in Hstart; cbn in Hstart;
      congruence].
  destruct (existsb (is_chemical "naoh") (eq_chemicals b)) eqn:En;
    [|unfold handleStartTitration in Hstart; rewrite Eb, Ef, En in Hstart;
      cbn in Hstart; congruence].
  destruct (handleStartTitration_started s now s b f Eb Ef En) as (Hp & Hpos & _).
  split; [exact Hp|].
  rewrite Hpos in Hin.
  destruct (existsb (is_chemical "naoh") (eq_chemicals f)) eqn:Enf.
  - apply find_equipment_some in Ef. destruct Ef as [Hf Hfid].
    assert (flask = f) by (apply (unique_by_id (equipmentPositions s)); congruence).
    subst flask. apply existsb_exists in Enf. destruct Enf as (c & Hc & Hcid).
    apply String.eqb_eq in Hcid. rewrite <- Hcid. now apply in_map.
  - apply map_flask_In in Hin; [|exact Hid|reflexivity].
    destruct Hin as (pos & _ & ->). cbn [with_chemicals eq_chemicals].
    rewrite map_app. apply in_or_app. right. now left.
Qed.

End StartedTitration.

(** X18. A started titration shows a light pink flask.  When a click on
    the titration button starts a titration and the equipment ids are
    pairwise distinct, every conical flask that holds hcl and phenol
    then also holds naoh, the colour progress is 0, and so
    [getMixedColor] paints it #FFB6C1. *)
Theorem started_titration_shows_light_pink :
  forall (props : Props) (s : State) (now : Z) (flask : EquipmentPosition),
    let s' := fst (perform props TitrationButton now s) in
    isTitrating s = false ->
    isTitrating s' = true ->
    NoDup (map eq_id (equipmentPositions s)) ->
    In flask (equipmentPositions s') ->
    eq_id flask = "conical_flask" ->
    In "hcl" (map chem_id (eq_chemicals flask)) ->
    In "phenol" (map chem_id (eq_chemicals flask)) ->
    getMixedColor (eq_chemicals flask) (titrationColorProgress s') = "#FFB6C1".
Proof.
  intros props s now flask s' Hidle Hstart Hnd Hin Hid Hh Hp.
  subst s'. unfold perform, titrationButton_onClick in *. rewrite Hidle in *.
  destruct (started_flask_holds_naoh props s now flask Hidle Hstart Hnd Hin Hid)
    as [Hzero Hn].
  rewrite Hzero. now apply getMixedColor_three_reagents.
Qed.

Lemma started_titration_shows_light_pink_witness :
  getMixedColor
    [ mkChemical "hcl" "Hydrochloric Acid" "#FFE135" (int 25) "0.1 M";
      mkChemical "phenol" "Phenolphthalein" "#FFB6C1" (int 10) "Indicator";
      mkChemical "naoh" "Sodium Hydroxide" "transparent" (int 1) "0.1 M" ]
    (titrationColorProgress (fst (perform titration_props TitrationButton 1000 ready)))
  = "#FFB6C1".
Proof.
  apply (started_titration_shows_light_pink titration_props ready 1000
           (mkEquipment "conical_flask" (int 450) (int 280)
              [ mkChemical "hcl" "Hydrochloric Acid" "#FFE135" (int 25) "0.1 M";
                mkChemical "phenol" "Phenolphthalein" "#FFB6C1" (int 10) "Indicator";
                mkChemical "naoh" "Sodium Hydroxide" "transparent" (int 1) "0.1 M" ])).
  - reflexivity.
  - reflexivity.
  - repeat constructor; cbn; intuition discriminate.
  - right. left. reflexivity.
  - reflexivity.
  - left. reflexivity.
  - right. left. reflexivity.
Defined.

(** X19. The titration button drives the stirrer.  A click that stops
    the titration leaves the stirring flag off; a click that starts one
    with a magnetic stirrer on the workbench leaves it on; a click that
    starts one without a stirrer leaves the flag as it was. *)
Theorem titration_button_drives_the_stirrer :
  forall (props : Props) (s : State) (now : Z),
    let s' := fst (perform props TitrationButton now s) in
    (isTitrating s = true -> isTitrating s' = false /\ isStirring s' = false)
    /\ (isTitrating s = false -> isTitrating s' = true ->
        isStirring s'
        = match find (is_equipment "magnetic_stirrer") (equipmentPositions s) with
          | Some _ => true
          | None => isStirring s
          end).
Proof.
  intros props s now s'. subst s'. unfold perform, titrationButton_onClick. split.
  - intro Hon. rewrite Hon. unfold handleStopTitration.
    destruct (isStirring s) eqn:Es; cbn; auto.
  - intros Hidle Hstart. rewrite Hidle in *.
    destruct (find (is_equipment "burette") (equipmentPositions s)) as [b|] eqn:Eb;
      [|unfold handleStartTitration in Hstart; rewrite Eb in Hstart; cbn in Hstart;
        congruence].
    destruct (find (is_equipment "conical_flask") (equipmentPositions s)) as [f|] eqn:Ef;
      [|unfold handleStartTitration in Hstart; rewrite Eb, Ef in Hstart; cbn in Hstart;
        congruence].
    destruct (existsb (is_chemical "naoh") (eq_chemicals b)) eqn:En;
      [|unfold handleStartTitration in Hstart; rewrite Eb, Ef, En in Hstart;
        cbn in Hstart; congruence].
    destruct (handleStartTitration_started props s now s b f Eb Ef En) as (_ & _ & Hs).
    rewrite Hs.
    destruct (find (is_equipment "magnetic_stirrer") (equipmentPositions s));
      [|reflexivity].
    now destruct (isStirring s).
Qed.

(* ------------------------------------------------------------------ *)
(** ** From the workbench to the equipment list *)

Section WorkbenchDrop.

Lemma adjusted_finite (size coordinate : number) :
  finite size -> finite coordinate -> finite (adjusted size coordinate).
Proof.
  intros [w ->] [x ->]. unfold adjusted.
  change (sub (Fin w) (int 80)) with (Fin (Qred (w + Qred (- inject_Z 80)))).
  set (hi := Qred (w + Qred (- inject_Z 80))).
  change (Math_min (Fin hi) (Fin x)) with (if lt (Fin x) (Fin hi) then Fin x else Fin hi).
  destruct (lt (Fin x) (Fin hi)).
  - change (Math_max (int 80) (Fin x))
      with (if lt (int 80) (Fin x) then Fin x else int 80).
    destruct (lt (int 80) (Fin x)); eexists; reflexivity.
  - change (Math_max (int 80) (Fin hi))
      with (if lt (int 80) (Fin hi) then Fin hi else int 80).
    destruct (lt (int 80) (Fin hi)); eexists; reflexivity.
Qed.

Lemma adjusted_at_least_80 (size coordinate : number) :
  finite size -> finite coordinate -> le (int 80) (adjusted size coordinate) = true.
Proof.
  intros [w ->] [x ->]. unfold adjusted.
  change (sub (Fin w) (int 80)) with (Fin (Qred (w + Qred (- inject_Z 80)))).
  set (hi := Qred (w + Qred (- inject_Z 80))).
  change (Math_min (Fin hi) (Fin x)) with (if lt (Fin x) (Fin hi) then Fin x else Fin hi).
  destruct (lt (Fin x) (Fin hi)).
  - change (Math_max (int 80) (Fin x))
      with (if lt (int 80) (Fin x) then Fin x else int 80).
    destruct (lt (int 80) (Fin x)) eqn:E; apply le_Fin;
      [apply lt_Fin in E; lra|lra].
  - change (Math_max (int 80) (Fin hi))
      with (if lt (int 80) (Fin hi) then Fin hi else int 80).
    destruct (lt (int 80) (Fin hi)) eqn:E; apply le_Fin;
      [apply lt_Fin in E; lra|lra].
Qed.

Lemma finite_sub (a b : number) : finite a -> finite b -> finite (sub a b).
Proof. intros [x ->] [y ->]. eexists. reflexivity. Qed.

Lemma finite_not_NaN (a : number) : finite a -> a <> NaN.
Proof. intros [x ->]. discriminate. Qed.

End WorkbenchDrop.

(** X20. A drop through the workbench stays on the workbench.  For
    mouse and rectangle coordinates that are finite numbers, the
    workbench passes adjusted coordinates that are finite and at least
    80, so that with [handleEquipmentDrop] as its [onDrop] every piece
    lies in the area x in [60, 800], y in [60, 450] afterwards if every
    piece did before; with no id in the drag data nothing changes. *)
Theorem workbench_drop_stays_on_bench :
  forall (Math_sqrt : number -> number) (props : Props) (r : State)
         (equipment text_plain : string)
         (clientX clientY left top width height : number) (s : State),
    finite clientX -> finite clientY -> finite left -> finite top ->
    finite width -> finite height ->
    Forall on_bench (equipmentPositions s) ->
    let outcome :=
      handleDrop (handleEquipmentDrop Math_sqrt props r) equipment text_plain
                 clientX clientY left top width height s in
    Forall on_bench (equipmentPositions (fst outcome))
    /\ le (int 80) (adjusted width (sub clientX left)) = true
    /\ le (int 80) (adjusted height (sub clientY top)) = true
    /\ (equipment = EmptyString -> text_plain = EmptyString -> outcome = (s, [])).
Proof.
  intros Math_sqrt props r equipment text_plain clientX clientY left top width height s
         Hcx Hcy Hl Ht Hw Hh Hs outcome.
  assert (Hx := finite_sub _ _ Hcx Hl). assert (Hy := finite_sub _ _ Hcy Ht).
  split; [|split; [|split]].
  - subst outcome. unfold handleDrop. cbv zeta.
    destruct (String.eqb (if String.eqb equipment "" then text_plain else equipment) "");
      [exact Hs|].
    apply equipment_drop_on_bench; [| |exact Hs];
      apply finite_not_NaN, adjusted_finite; assumption.
  - now apply adjusted_at_least_80.
  - now apply adjusted_at_least_80.
  - intros -> ->. reflexivity.
Qed.

Lemma workbench_drop_stays_on_bench_witness :
  Forall on_bench
    (equipmentPositions
       (fst (handleDrop (handleEquipmentDrop sqrt_floor titration_props ready)
                        "beaker" "" (int 1500) (int 30) (int 200) (int 100)
                        (int 1000) (int 600) ready))).
Proof.
  apply (workbench_drop_stays_on_bench sqrt_floor titration_props ready "beaker" ""
           (int 1500) (int 30) (int 200) (int 100) (int 1000) (int 600) ready);
    try (eexists; reflexivity).
  repeat constructor.
Defined.

(* ------------------------------------------------------------------ *)
(** ** The guided procedure of the aspirin experiment *)

Section GuidedProcedure.

(** [bumps n c]: the command [c] advances the guided step by at most
    [n], and never takes it back. *)
Let bumps (n : Z) (c : command) : Prop :=
  forall s, exists d,
    0 <= d <= n /\ currentGuidedStep (fst (c s)) = currentGuidedStep s + d.

Lemma bumps_frame (c : command) : preserves currentGuidedStep c -> bumps 0 c.
Proof. intros H s. exists 0. rewrite H. lia. Qed.

Lemma bumps_seq (n m : Z) (c1 c2 : command) :
  bumps n c1 -> bumps m c2 -> bumps (n + m) (c1 ;; c2).
Proof.
  intros H1 H2 s. rewrite seq_fst.
  destruct (H1 s) as (d1 & B1 & E1).
  destruct (H2 (fst (c1 s))) as (d2 & B2 & E2).
  exists (d1 + d2). rewrite E2, E1. lia.
Qed.

Lemma bumps_after (n : Z) (c1 c2 : command) :
  preserves currentGuidedStep c1 -> bumps n c2 -> bumps n (c1 ;; c2).
Proof. intros H1 H2. apply (bumps_seq 0 n); [now apply bumps_frame|exact H2]. Qed.

Lemma bumps_before (n : Z) (c1 c2 : command) :
  bumps n c1 -> preserves currentGuidedStep c2 -> bumps n (c1 ;; c2).
Proof.
  intros H1 H2. replace n with (n + 0) by lia.
  apply bumps_seq; [exact H1|now apply bumps_frame].
Qed.

Lemma bumps_guidedStepDone (r : State) : bumps 1 (guidedStepDone r).
Proof. intro s. exists 1. split; [lia|reflexivity]. Qed.

Lemma bumps_map_with_commands (count : EquipmentPosition -> bool)
    (f : EquipmentPosition -> EquipmentPosition * command) (prev : list EquipmentPosition) :
  (forall pos, bumps (if count pos then 1 else 0) (snd (f pos))) ->
  bumps (Z.of_nat (List.length (filter count prev))) (snd (map_with_commands f prev)).
Proof.
  intro H. induction prev as [|pos rest IH]; cbn [map_with_commands filter].
  - apply bumps_frame, preserves_skip.
  - specialize (H pos). destruct (f pos) as [pos' c].
    destruct (map_with_commands f rest) as [rest' cs]. cbn [snd] in *.
    destruct (count pos).
    + cbn [List.length]. rewrite Nat2Z.inj_succ.
      replace (Z.succ (Z.of_nat (List.length (filter count rest))))
        with (1 + Z.of_nat (List.length (filter count rest))) by lia.
      now apply bumps_seq.
    + now apply (bumps_seq 0).
Qed.

Lemma one_piece_with_id (equipmentId : string) (eqs : list EquipmentPosition) :
  NoDup (map eq_id eqs) ->
  (List.length (filter (fun pos => String.eqb (eq_id pos) equipmentId) eqs) <= 1)%nat.
Proof.
  induction eqs as [|e rest IH]; intro Hnd; cbn [filter]; [cbn; lia|].
  cbn [map] in Hnd. inversion Hnd as [|? ? Hout Hrest]; subst.
  destruct (String.eqb_spec (eq_id e) equipmentId) as [E|_]; [|now apply IH].
  cbn [List.length].
  destruct (filter (fun pos => String.eqb (eq_id pos) equipmentId) rest) as [|p ps] eqn:Ef;
    [cbn; lia|].
  exfalso. apply Hout.
  assert (Hp : In p (filter (fun pos => String.eqb (eq_id pos) equipmentId) rest))
    by (rewrite Ef; now left).
  apply filter_In in Hp. destruct Hp as [Hin Hid]. apply String.eqb_eq in Hid.
  rewrite E, <- Hid. now apply in_map.
Qed.

(** The last step of the procedure asks for no equipment and no
    chemical, and there is no step after it. *)
Lemma nothing_required_from_step_6 (g : Z) (value : string) :
  6 <= g ->
  key_is requiredEquipment (at_index aspirinGuidedSteps (g - 1)) value = false
  /\ key_is requiredChemical (at_index aspirinGuidedSteps (g - 1)) value = false.
Proof.
  intro Hg. unfold at_index.
  destruct (Z.ltb_spec (g - 1) 0) as [L|_]; [lia|].
  destruct (Z.to_nat (g - 1)) as [|[|[|[|[|[|n]]]]]] eqn:E; try lia.
  - split; reflexivity.
  - cbn. destruct n; split; reflexivity.
Qed.

Variable Math_sqrt : number -> number.
Variable log10_pos : Q -> Q.
Variable props : Props.

Lemma bumps_place (r : State) (id : string) (x y : number) (prev0 : list EquipmentPosition) :
  bumps (if key_is requiredEquipment
              (at_index aspirinGuidedSteps (currentGuidedStep r - 1)) id
         then 1 else 0)
        (snd (place Math_sqrt props r id x y prev0)).
Proof.
  unfold place. cbv zeta.
  destruct (snap_to_formation Math_sqrt props id x y prev0) as [[snapX snapY] prev].
  destruct (if isOverlapping Math_sqrt props prev snapX snapY id
            then free_spot Math_sqrt props prev id offsets snapX snapY
            else (snapX, snapY)) as [finalX finalY].
  destruct (find (is_equipment id) prev0); cbn [snd].
  - intro s. exists 0. split; [destruct (key_is _ _ _); lia|cbn; lia].
  - apply bumps_before; [|frame].
    destruct (String_includes (experimentTitle props) "Aspirin").
    + destruct (key_is requiredEquipment _ id).
      * intro s. exists 1. split; [lia|reflexivity].
      * apply bumps_frame, preserves_skip.
    + intro s. exists 0. split; [destruct (key_is _ _ _); lia|cbn; lia].
Qed.

Lemma bumps_drop_into (r : State) (chemical : ChemicalInfo) (chemicalId equipmentId : string)
    (amount : number) (now : Z) (pos : EquipmentPosition) :
  bumps (if String.eqb (eq_id pos) equipmentId
            && key_is requiredChemical
                 (at_index aspirinGuidedSteps (currentGuidedStep r - 1)) chemicalId
         then 1 else 0)
        (snd (drop_into log10_pos props r chemical chemicalId equipmentId amount now pos)).
Proof.
  unfold drop_into.
  destruct (String.eqb (eq_id pos) equipmentId); cbn [snd andb];
    [|apply bumps_frame, preserves_skip].
  cbv zeta.
  apply bumps_after; [frame|].
  apply bumps_after; [frame|].
  apply bumps_after; [frame|].
  apply bumps_before; [|unfold handleReaction; frame].
  destruct (String_includes (experimentTitle props) "Aspirin").
  - destruct (key_is requiredChemical _ chemicalId); cbn [andb].
    + destruct (key_is targetEquipment _ equipmentId).
      * apply bumps_guidedStepDone.
      * intro s. exists 0. split; [lia|cbn; lia].
    + apply bumps_frame, preserves_skip.
  - intro s. exists 0. split; [destruct (key_is _ _ _); lia|cbn; lia].
Qed.

Lemma guided_after_equipment_drop (s : State) (id : string) (x y : number) :
  1 <= currentGuidedStep s <= 6 ->
  exists d, 0 <= d <= 1
    /\ currentGuidedStep (fst (handleEquipmentDrop Math_sqrt props s id x y s))
       = currentGuidedStep s + d
    /\ currentGuidedStep s + d <= 6.
Proof.
  intro Hg. unfold handleEquipmentDrop. rewrite seq_fst.
  unfold setEquipmentPositions_with.
  pose proof (bumps_place s id x y (equipmentPositions (fst (saveStateToHistory s s)))) as H.
  destruct (place Math_sqrt props s id x y (equipmentPositions (fst (saveStateToHistory s s))))
    as [next inner]. cbn [snd] in H.
  destruct (H (with_equipmentPositions (fun _ => next) (fst (saveStateToHistory s s))))
    as (d & Hd & E).
  exists d. change (currentGuidedStep (with_equipmentPositions _ _))
    with (currentGuidedStep s) in E.
  destruct (key_is requiredEquipment _ id) eqn:Ek.
  - destruct (Z_le_gt_dec 6 (currentGuidedStep s)) as [L|G].
    + destruct (nothing_required_from_step_6 (currentGuidedStep s) id L) as [F _].
      congruence.
    + repeat split; try lia; exact E.
  - repeat split; try lia; exact E.
Qed.

Lemma guided_after_chemical_drop (s : State) (chemicalId equipmentId : string)
    (amount : number) (now : Z) :
  1 <= currentGuidedStep s <= 6 ->
  NoDup (map eq_id (equipmentPositions s)) ->
  exists d, 0 <= d <= 1
    /\ currentGuidedStep
         (fst (handleChemicalDrop log10_pos props s chemicalId equipmentId amount now s))
       = currentGuidedStep s + d
    /\ currentGuidedStep s + d <= 6.
Proof.
  intros Hg Hnd. unfold handleChemicalDrop.
  destruct (find _ (experimentChemicals props)) as [chemical|];
    [|exists 0; cbn; lia].
  rewrite seq_fst.
  assert (Hquiet : forall c : command, preserves currentGuidedStep c ->
            exists d, 0 <= d <= 1
              /\ currentGuidedStep (fst (c (fst (saveStateToHistory s s))))
                 = currentGuidedStep s + d
              /\ currentGuidedStep s + d <= 6).
  { intros c Hc. exists 0. rewrite Hc. cbn. lia. }
  destruct (String.eqb chemicalId "phenol" && String.eqb equipmentId "conical_flask");
    [apply Hquiet; frame|].
  destruct (String.eqb chemicalId "naoh" && String.eqb equipmentId "burette");
    [apply Hquiet; frame|].
  destruct (String.eqb chemicalId "phenol" && String.eqb equipmentId "burette");
    [apply Hquiet; frame|].
  clear Hquiet. rewrite seq_fst.
  change (currentGuidedStep (fst (setSelectedChemical None ?t))) with (currentGuidedStep t).
  unfold setEquipmentPositions_with.
  change (equipmentPositions (fst (saveStateToHistory s s))) with (equipmentPositions s).
  pose proof (bumps_map_with_commands
                (fun pos => String.eqb (eq_id pos) equipmentId
                            && key_is requiredChemical
                                 (at_index aspirinGuidedSteps (currentGuidedStep s - 1))
                                 chemicalId)
                (drop_into log10_pos props s chemical chemicalId equipmentId amount now)
                (equipmentPositions s)
                (fun pos => bumps_drop_into s chemical chemicalId equipmentId amount now pos))
    as H.
  destruct (map_with_commands _ (equipmentPositions s)) as [next inner]. cbn [snd] in H.
  destruct (H (with_equipmentPositions (fun _ => next) (fst (saveStateToHistory s s))))
    as (d & Hd & E).
  change (currentGuidedStep (with_equipmentPositions _ _))
    with (currentGuidedStep s) in E.
  exists d.
  destruct (key_is requiredChemical
              (at_index aspirinGuidedSteps (currentGuidedStep s - 1)) chemicalId) eqn:Ek.
  - assert (Hone := one_piece_with_id equipmentId (equipmentPositions s) Hnd).
    assert (Hsame :
      filter (fun pos => String.eqb (eq_id pos) equipmentId && true) (equipmentPositions s)
      = filter (fun pos => String.eqb (eq_id pos) equipmentId) (equipmentPositions s))
      by (apply filter_ext; intro pos; apply andb_true_r).
    rewrite Hsame in Hd.
    destruct (Z_le_gt_dec 6 (currentGuidedStep s)) as [L|G].
    + destruct (nothing_required_from_step_6 (currentGuidedStep s) chemicalId L) as [_ F].
      congruence.
    + repeat split; try lia; exact E.
  - assert (Hnone : forall eqs : list EquipmentPosition,
      filter (fun pos => String.eqb (eq_id pos) equipmentId && false) eqs = []).
    { induction eqs as [|p ps IH]; [reflexivity|].
      cbn [filter]. rewrite andb_false_r. exact IH. }
    rewrite Hnone in Hd. cbn in Hd.
    repeat split; try lia; exact E.
Qed.

End GuidedProcedure.

(** X21. The guided step stays within the procedure.  With the guided
    step between 1 and 6 and equipment ids pairwise distinct, a drop of
    equipment or of a chemical handled in the current render leaves the
    guided step where it was or one further, and never past 6: the last
    step requires nothing that can be dropped. *)
Theorem guided_step_stays_within_the_procedure :
  forall (Math_sqrt : number -> number) (log10_pos : Q -> Q) (props : Props) (s : State)
         (id : string) (x y : number)
         (chemicalId equipmentId : string) (amount : number) (now : Z),
    1 <= currentGuidedStep s <= 6 ->
    NoDup (map eq_id (equipmentPositions s)) ->
    let placed := fst (handleEquipmentDrop Math_sqrt props s id x y s) in
    let poured :=
      fst (handleChemicalDrop log10_pos props s chemicalId equipmentId amount now s) in
    (currentGuidedStep s <= currentGuidedStep placed <= currentGuidedStep s + 1
     /\ currentGuidedStep placed <= 6)
    /\ (currentGuidedStep s <= currentGuidedStep poured <= currentGuidedStep s + 1
        /\ currentGuidedStep poured <= 6).
Proof.
  intros Math_sqrt log10_pos props s id x y chemicalId equipmentId amount now Hg Hnd
         placed poured.
  destruct (guided_after_equipment_drop Math_sqrt props s id x y Hg) as (d1 & B1 & E1 & L1).
  destruct (guided_after_chemical_drop log10_pos props s chemicalId equipmentId amount now
              Hg Hnd) as (d2 & B2 & E2 & L2).
  fold placed in E1. fold poured in E2. rewrite E1, E2. lia.
Qed.

Lemma guided_step_stays_within_the_procedure_witness :
  currentGuidedStep
    (fst (handleEquipmentDrop sqrt_floor aspirin_props (initialState aspirin_props)
                              "erlenmeyer_flask" (int 300) (int 200)
                              (initialState aspirin_props))) <= 6
  /\ currentGuidedStep
       (fst (handleChemicalDrop log10_floor aspirin_props (initialState aspirin_props)
                                "salicylic_acid" "erlenmeyer_flask" (int 25) 2000
                                (initialState aspirin_props))) <= 6.
Proof.
  assert (Hg : 1 <= currentGuidedStep (initialState aspirin_props) <= 6)
    by (split; discriminate).
  assert (Hnd : NoDup (map eq_id (equipmentPositions (initialState aspirin_props))))
    by constructor.
  destruct (guided_step_stays_within_the_procedure sqrt_floor log10_floor aspirin_props
              (initialState aspirin_props) "erlenmeyer_flask" (int 300) (int 200)
              "salicylic_acid" "erlenmeyer_flask" (int 25) 2000 Hg Hnd)
    as [[_ H1] [_ H2]].
  split; [exact H1|exact H2].
Defined.

(* ------------------------------------------------------------------ *)
(** ** Drops from the burette *)

Section DropInterval.

Variable props : Props.

Lemma started_schedules_the_interval (s : State) (now : Z) :
  isTitrating s = false ->
  isTitrating (fst (handleStartTitration props s now s)) = true ->
  exists burette,
    find (is_equipment "burette") (equipmentPositions s) = Some burette
    /\ In (Schedule (Interval 800) (DropTick s burette))
          (snd (handleStartTitration props s now s)).
Proof.
  intros Hidle Hstart.
  destruct (find (is_equipment "burette") (equipmentPositions s)) as [b|] eqn:Eb;
    [|unfold handleStartTitration in Hstart; rewrite Eb in Hstart; cbn in Hstart;
      congruence].
  destruct (find (is_equipment "conical_flask") (equipmentPositions s)) as [f|] eqn:Ef;
    [|unfold handleStartTitration in Hstart; rewrite Eb, Ef in Hstart; cbn in Hstart;
      congruence].
  destruct (existsb (is_chemical "naoh") (eq_chemicals b)) eqn:En;
    [|unfold handleStartTitration in Hstart; rewrite Eb, Ef, En in Hstart;
      cbn in Hstart; congruence].
  exists b. split; [reflexivity|].
  unfold handleStartTitration. rewrite Eb, Ef, En. cbv zeta. cbn [negb].
  rewrite !seq_snd. repeat (apply in_or_app; right). now left.
Qed.

End DropInterval.

(** X22. No drop falls after a start from the button.  The button offers
    Start only in a render with [isTitrating] false; a start that is not
    refused then creates the drop interval (every 800 ms), and every
    tick of an interval so created, whenever it runs and whatever the
    live state, finds the [isTitrating] of that render false and returns
    at once: it adds no drop, adds no NaOH to the flask, schedules
    nothing and clears the interval. *)
Theorem button_started_interval_adds_no_drop :
  forall (props : Props) (s : State) (now : Z),
    isTitrating s = false ->
    let started := perform props TitrationButton now s in
    (isTitrating (fst started) = true ->
     exists burette,
       find (is_equipment "burette") (equipmentPositions s) = Some burette
       /\ In (Schedule (Interval 800) (DropTick s burette)) (snd started))
    /\ (forall (t : timer) (r : State) (burette : EquipmentPosition)
               (later : Z) (rnd : string) (live : State),
          In (Schedule t (DropTick r burette)) (snd started) ->
          run_task props (DropTick r burette) later rnd live = (live, [])).
Proof.
  intros props s now Hidle started. subst started.
  unfold perform, titrationButton_onClick. rewrite Hidle. split.
  - now apply started_schedules_the_interval.
  - intros t r burette later rnd live Hin.
    apply handleStartTitration_closure in Hin. cbn [closes_over] in Hin. subst r.
    cbn [run_task]. now apply dropTick_stale_flag.
Qed.

Lemma button_started_interval_adds_no_drop_witness :
  In (Schedule (Interval 800)
        (DropTick ready (mkEquipment "burette" (int 450) (int 120)
                           [ mkChemical "naoh" "Sodium Hydroxide" "#8B5A9B" (int 50)
                                        "0.1 M" ])))
     (snd (perform titration_props TitrationButton 1000 ready))
  /\ run_task titration_props
       (DropTick ready (mkEquipment "burette" (int 450) (int 120)
                          [ mkChemical "naoh" "Sodium Hydroxide" "#8B5A9B" (int 50)
                                       "0.1 M" ]))
       1800 "0.5" (fst (perform titration_props TitrationButton 1000 ready))
     = (fst (perform titration_props TitrationButton 1000 ready), []).
Proof.
  destruct (button_started_interval_adds_no_drop titration_props ready 1000 eq_refl)
    as [Hstart Htick].
  destruct (Hstart eq_refl) as (burette & Eb & Hin).
  injection Eb as <-.
  split; [exact Hin|]. exact (Htick _ _ _ 1800 "0.5" _ Hin).
Defined.

(* ------------------------------------------------------------------ *)
(** ** A drop through the Equipment component *)

Section ComponentDrop.

Lemma forwarded_amount_positive (volume : option number) :
  (forall x, volume = Some x -> exists q, x = Fin q /\ (0 <= q)%Q) ->
  exists a, forwarded_amount volume = Fin a /\ (0 < a)%Q.
Proof.
  intro H. destruct volume as [x|]; cbn [forwarded_amount].
  - destruct (H x eq_refl) as (q & -> & Hq). unfold or_else. cbn [truthy].
    destruct (Qeq_bool q 0) eqn:E; cbn [negb].
    + exists (inject_Z 25). split; [reflexivity|]. unfold inject_Z. lra.
    + exists q. split; [reflexivity|].
      apply Qeq_bool_neq in E. destruct (Qlt_le_dec 0 q) as [L|G]; [exact L|].
      exfalso. apply E. lra.
  - exists (inject_Z 25). split; [reflexivity|]. unfold inject_Z. lra.
Qed.

Lemma add_chemical_nonneg (equipmentId : string) (entry : ChemicalQuantity)
    (eqs : list EquipmentPosition) :
  nonneg_amount entry ->
  Forall (fun pos => Forall nonneg_amount (eq_chemicals pos)) eqs ->
  Forall (fun pos => Forall nonneg_amount (eq_chemicals pos))
         (add_chemical equipmentId entry eqs).
Proof.
  intros He H. unfold add_chemical. apply Forall_map.
  apply (Forall_impl _ (P := fun pos => Forall nonneg_amount (eq_chemicals pos)));
    [|exact H].
  intros pos Hpos. destruct (String.eqb (eq_id pos) equipmentId); [|exact Hpos].
  cbn [with_chemicals eq_chemicals]. apply Forall_app. split; [exact Hpos|].
  constructor; [exact He|constructor].
Qed.

Lemma add_chemical_elsewhere (equipmentId : string) (entry : ChemicalQuantity)
    (eqs : list EquipmentPosition) (pos : EquipmentPosition) :
  eq_id pos <> equipmentId -> In pos eqs -> In pos (add_chemical equipmentId entry eqs).
Proof.
  intros Hid Hin. unfold add_chemical. apply in_map_iff. exists pos.
  split; [|exact Hin].
  destruct (String.eqb_spec (eq_id pos) equipmentId) as [E|_]; [contradiction|reflexivity].
Qed.

End ComponentDrop.

(** X23. A drop through the Equipment component.  The component of the
    equipment [id] forwards the volume of the dragged chemical, or 25
    when the volume is missing, zero or NaN.  With [handleChemicalDrop]
    as its [onChemicalDrop], a volume that is not negative, and a
    workbench on which every amount is finite and not negative: the
    measured pH stays in [0, 14] if it was, every amount is again finite
    and not negative, and equipment that is not a container is left
    exactly as it was. *)
Theorem drop_through_the_component :
  forall (log10_pos : Q -> Q) (props : Props) (r : State) (id : string)
         (chemicalData : option (string * option number)) (now : Z) (s : State),
    (forall chemical_id x, chemicalData = Some (chemical_id, Some x) ->
                           exists q, x = Fin q /\ (0 <= q)%Q) ->
    Forall (fun pos => Forall nonneg_amount (eq_chemicals pos)) (equipmentPositions s) ->
    between (int 0) (int 14) (m_ph (measurements s)) ->
    let s' :=
      fst (Equipment.onDrop
             (fun chemicalId equipmentId amount =>
                handleChemicalDrop log10_pos props r chemicalId equipmentId amount now)
             id chemicalData s) in
    between (int 0) (int 14) (m_ph (measurements s'))
    /\ Forall (fun pos => Forall nonneg_amount (eq_chemicals pos)) (equipmentPositions s')
    /\ (forall pos, In pos (equipmentPositions s) -> isContainer (eq_id pos) = false ->
                    In pos (equipmentPositions s')).
Proof.
  intros log10_pos props r id chemicalData now s Hvol Hpos Hph s'. subst s'.
  unfold Equipment.onDrop, Equipment.handleChemicalDrop.
  destruct (isContainer id) eqn:Ec;
    [|split; [exact Hph|split; [exact Hpos|intros pos Hin _; exact Hin]]].
  destruct chemicalData as [[chemical_id volume]|];
    [|split; [exact Hph|split; [exact Hpos|intros pos Hin _; exact Hin]]].
  destruct (forwarded_amount_positive volume) as (a & Ea & Ha).
  { intros x ->. exact (Hvol chemical_id x eq_refl). }
  rewrite Ea. split; [now apply chemical_drop_ph_in_range|].
  destruct (find (fun c => String.eqb (info_id c) chemical_id) (experimentChemicals props))
    as [chemical|] eqn:Ef.
  - rewrite (handleChemicalDrop_positions log10_pos props r chemical) by exact Ef.
    split.
    + apply add_chemical_nonneg; [|exact Hpos].
      exists a. split; [reflexivity|lra].
    + intros pos Hin Hnc. apply add_chemical_elsewhere; [|exact Hin].
      intro E. rewrite E in Hnc. congruence.
  - unfold handleChemicalDrop. rewrite Ef.
    split; [exact Hpos|intros pos Hin _; exact Hin].
Qed.

Lemma drop_through_the_component_witness :
  between (int 0) (int 14)
    (m_ph (measurements
             (fst (Equipment.onDrop
                     (fun chemicalId equipmentId amount =>
                        handleChemicalDrop log10_floor titration_props ready
                                           chemicalId equipmentId amount 2000)
                     "conical_flask" (Some ("naoh", None)) ready)))).
Proof.
  apply (drop_through_the_component log10_floor titration_props ready "conical_flask"
           (Some ("naoh", None)) 2000 ready).
  - intros chemical_id x [=].
  - repeat constructor; eexists; (split; [reflexivity|unfold inject_Z; lra]).
  - split; reflexivity.
Defined.

(* ------------------------------------------------------------------ *)
(** ** Invariants of the workbench *)

Section WorkbenchInvariants.

Variable Math_sqrt : number -> number.
Variable log10_pos : Q -> Q.
Variable props : Props.

Lemma map_flask_ids (g : EquipmentPosition -> EquipmentPosition)
    (eqs : list EquipmentPosition) :
  (forall pos, eq_id (g pos) = eq_id pos) ->
  map eq_id (map_flask g eqs) = map eq_id eqs.
Proof.
  intro H. unfold map_flask. rewrite map_map. apply map_ext. intro pos.
  destruct (is_equipment "conical_flask" pos); [apply H|reflexivity].
Qed.

(** Proves [preserves proj c] where [proj] reads the ids of the
    equipment: the setters of the equipment list that remain after
    [frame] all go through [map_flask]. *)
Ltac frame_ids :=
  frame;
  try (intro; apply map_flask_ids; intro;
       try match goal with |- context [find ?f ?l] => destruct (find f l) end;
       reflexivity).

Lemma perform_ids (e : event) (now : Z) :
  e <> ResetExperiment -> e <> Undo ->
  preserves (fun s => map eq_id (equipmentPositions s)) (perform props e now).
Proof.
  intros Hreset Hundo s.
  destruct e as [| | | | | | |stepId| |n msg|k rnd]; cbn [perform];
    try contradiction; try reflexivity.
  - unfold titrationButton_onClick.
    destruct (isTitrating s);
      [unfold handleStopTitration | unfold handleStartTitration, startDropwiseAnimation];
      match goal with |- map eq_id (equipmentPositions (fst (?c s))) = _ =>
        assert (P : preserves (fun s => map eq_id (equipmentPositions s)) c)
          by frame_ids;
        apply P end.
  - unfold stirringButton_onClick.
    destruct (isStirring s);
      [unfold handleStopStirring | unfold handleStartStirring];
      match goal with |- map eq_id (equipmentPositions (fst (?c s))) = _ =>
        assert (P : preserves (fun s => map eq_id (equipmentPositions s)) c)
          by frame_ids;
        apply P end.
  - unfold handleTrialAdded.
    match goal with |- map eq_id (equipmentPositions (fst (?c s))) = _ =>
      assert (P : preserves (fun s => map eq_id (equipmentPositions s)) c)
        by frame_ids;
      apply P end.
  - apply (preserves_markStepCompleted props
             (fun s => map eq_id (equipmentPositions s))).
  - destruct k as [|n msg|r st|r cv ci|r b|d]; cbn [run_task]; try reflexivity.
    + assert (P : preserves (fun s => map eq_id (equipmentPositions s))
                    (animateColor props r st now))
        by (unfold animateColor; frame_ids).
      apply P.
    + assert (P : preserves (fun s => map eq_id (equipmentPositions s))
                    (cycleClose r cv ci now))
        by (unfold cycleClose; frame_ids).
      apply P.
    + assert (P : preserves (fun s => map eq_id (equipmentPositions s))
                    (dropTick r b now rnd))
        by (unfold dropTick; frame_ids).
      apply P.
Qed.

(** Proves [proj (fst (c s)) = proj s] for an event handler [c] that
    leaves [proj] alone. *)
Ltac event_frame proj :=
  match goal with
  | |- _ (fst (?c _)) = _ =>
      let P := fresh "P" in
      assert (P : preserves proj c)
        by (try unfold handleStopTitration; try unfold handleStartTitration;
            try unfold handleStopStirring; try unfold handleStartStirring;
            try unfold handleUndo; try unfold handleTrialAdded;
            try unfold animateColor; try unfold cycleClose; try unfold dropTick;
            frame);
      apply P
  end.

Lemma perform_history (e : event) (now : Z) :
  e <> ResetExperiment -> e <> Undo ->
  preserves undoHistory (perform props e now).
Proof.
  intros Hreset Hundo s.
  destruct e as [| | | | | | |stepId| |n msg|k rnd]; cbn [perform];
    try contradiction; try reflexivity.
  - unfold titrationButton_onClick. destruct (isTitrating s); event_frame undoHistory.
  - unfold stirringButton_onClick. destruct (isStirring s); event_frame undoHistory.
  - event_frame undoHistory.
  - apply (preserves_markStepCompleted props undoHistory).
  - destruct k as [|n msg|r st|r cv ci|r b|d]; cbn [run_task]; try reflexivity;
      event_frame undoHistory.
Qed.

Lemma perform_guided (e : event) (now : Z) :
  e <> ResetExperiment ->
  preserves currentGuidedStep (perform props e now).
Proof.
  intros Hreset s.
  destruct e as [| | | | | | |stepId| |n msg|k rnd]; cbn [perform];
    try contradiction; try reflexivity.
  - unfold titrationButton_onClick. destruct (isTitrating s);
      event_frame currentGuidedStep.
  - unfold stirringButton_onClick. destruct (isStirring s);
      event_frame currentGuidedStep.
  - event_frame currentGuidedStep.
  - event_frame currentGuidedStep.
  - apply (preserves_markStepCompleted props currentGuidedStep).
  - destruct k as [|n msg|r st|r cv ci|r b|d]; cbn [run_task]; try reflexivity;
      event_frame currentGuidedStep.
Qed.

(** The invariant: equipment ids are pairwise distinct, on the workbench
    and in every saved list; the undo history holds at most ten lists;
    no step is recorded twice; the guided step is one of the six
    steps. *)
Let steady (s : State) : Prop :=
  NoDup (map eq_id (equipmentPositions s))
  /\ Forall (fun saved => NoDup (map eq_id saved)) (undoHistory s)
  /\ (List.length (undoHistory s) <= 10)%nat
  /\ NoDup (completedSteps s)
  /\ 1 <= currentGuidedStep s <= 6.

Lemma steady_initial : steady (initialState props).
Proof.
  unfold steady, initialState. cbn.
  repeat split; try constructor; try lia; discriminate.
Qed.

Lemma slice_last_Forall {A : Type} (P : A -> Prop) (n : nat) (xs : list A) :
  Forall P xs -> Forall P (slice_last n xs).
Proof.
  intro H. unfold slice_last. rewrite <- (firstn_skipn (List.length xs - n) xs) in H.
  apply Forall_app in H. apply H.
Qed.

Lemma saved_history_steady (h : list (list EquipmentPosition))
    (saved : list EquipmentPosition) :
  Forall (fun l => NoDup (map eq_id l)) h -> NoDup (map eq_id saved) ->
  Forall (fun l => NoDup (map eq_id l)) (slice_last 9 h ++ [saved])
  /\ (List.length (slice_last 9 h ++ [saved]) <= 10)%nat.
Proof.
  intros Hh Hs. split.
  - apply Forall_app. split; [now apply slice_last_Forall|now constructor].
  - rewrite length_app. cbn [List.length].
    pose proof (slice_last_length 9 h). lia.
Qed.

Lemma removelast_Forall {A : Type} (P : A -> Prop) (xs : list A) :
  Forall P xs -> Forall P (removelast xs).
Proof.
  intro H. destruct xs as [|x xs] using rev_ind; [constructor|].
  rewrite removelast_last. apply Forall_app in H. apply H.
Qed.

Lemma removelast_length {A : Type} (xs : list A) :
  (List.length (removelast xs) <= List.length xs)%nat.
Proof.
  destruct xs as [|x xs] using rev_ind; [cbn; lia|].
  rewrite removelast_last, length_app. lia.
Qed.

Lemma act_steady (a : action) (now : Z) (s : State) :
  steady s -> steady (fst (act Math_sqrt log10_pos props a now s)).
Proof.
  intros (Hids & Hsaved & Hlen & Hsteps & Hg).
  destruct a as [e|id x y|chemicalId equipmentId amount|shown|id|]; cbn [act].
  - (* an event of the titration model *)
    assert (D : e = ResetExperiment \/ e = Undo
                \/ (e <> ResetExperiment /\ e <> Undo)).
    { destruct e; try (right; right; split; discriminate); auto. }
    destruct D as [->|[->|[D1 D2]]].
    + unfold steady. cbn [perform]. repeat split.
      * exact (NoDup_nil _).
      * exact (Forall_nil _).
      * exact (Nat.le_0_l 10).
      * exact (NoDup_nil _).
      * change (1 <= 1). lia.
      * change (1 <= 6). lia.
    + cbn [perform]. unfold handleUndo.
      destruct (rev (undoHistory s)) as [|previousState older] eqn:Er.
      * repeat split; assumption || apply Hg.
      * assert (Hprev : NoDup (map eq_id previousState)).
        { rewrite Forall_forall in Hsaved. apply Hsaved.
          apply in_rev. rewrite Er. now left. }
        cbn. repeat split; try assumption; try apply Hg.
        -- now apply removelast_Forall.
        -- change (List.length (removelast (undoHistory s)) <= 10)%nat.
           pose proof (removelast_length (undoHistory s)). lia.
    + unfold steady.
      rewrite (perform_ids e now D1 D2 s), (perform_history e now D1 D2 s),
        (perform_guided e now D1 s).
      repeat split; try assumption; try apply Hg.
      now apply perform_steps_NoDup.
  - (* a drop of equipment *)
    unfold steady.
    rewrite (handleEquipmentDrop_history Math_sqrt props s id x y s).
    destruct (saved_history_steady (undoHistory s) (equipmentPositions s) Hsaved Hids)
      as [Hs1 Hs2].
    destruct (guided_after_equipment_drop Math_sqrt props s id x y Hg)
      as (d & Hd & -> & Hle).
    rewrite (handleEquipmentDrop_frame Math_sqrt props completedSteps s id x y
               (fun _ _ => eq_refl) (fun _ _ => eq_refl)
               (fun _ _ => eq_refl) (fun _ _ => eq_refl) s).
    repeat split; try assumption; try lia.
    now apply (equipment_drop_ids Math_sqrt props s id x y s).
  - (* a drop of a chemical *)
    unfold steady.
    destruct (guided_after_chemical_drop log10_pos props s chemicalId equipmentId
                amount now Hg Hids) as (d & Hd & -> & Hle).
    rewrite (handleChemicalDrop_frame log10_pos props completedSteps s chemicalId
               equipmentId amount now
               (fun _ _ => eq_refl) (fun _ _ => eq_refl) (fun _ _ => eq_refl)
               (fun _ _ => eq_refl) (fun _ _ => eq_refl) (fun _ _ => eq_refl)
               (fun _ _ => eq_refl) (fun _ _ => eq_refl) s).
    destruct (find (fun c => String.eqb (info_id c) chemicalId) (experimentChemicals props))
      as [chemical|] eqn:Ef.
    + rewrite (handleChemicalDrop_positions log10_pos props s chemical) by exact Ef.
      rewrite (handleChemicalDrop_history log10_pos props s chemical) by exact Ef.
      destruct (saved_history_steady (undoHistory s) (equipmentPositions s) Hsaved Hids)
        as [Hs1 Hs2].
      rewrite add_chemical_ids.
      repeat split; try assumption; lia.
    + unfold handleChemicalDrop. rewrite Ef. cbn [fst skip].
      repeat split; try assumption; lia.
  - (* a button of the procedure panel *)
    exact (conj Hids (conj Hsaved (conj Hlen (conj Hsteps Hg)))).
  - (* the selection of a chemical *)
    exact (conj Hids (conj Hsaved (conj Hlen (conj Hsteps Hg)))).
  - (* the Reset button of the calculator bar *)
    exact (conj Hids (conj Hsaved (conj Hlen (conj Hsteps Hg)))).
Qed.

Lemma run_actions_snoc (history : list (Z * action)) (now : Z) (a : action) (s : State) :
  run_actions Math_sqrt log10_pos props (history ++ [(now, a)]) s
  = fst (act Math_sqrt log10_pos props a now (run_actions Math_sqrt log10_pos props history s)).
Proof. unfold run_actions. now rewrite fold_left_app. Qed.

Lemma run_actions_steady (history : list (Z * action)) :
  steady (run_actions Math_sqrt log10_pos props history (initialState props)).
Proof.
  induction history as [|[now a] history IH] using rev_ind; [apply steady_initial|].
  rewrite run_actions_snoc. now apply act_steady.
Qed.

Lemma equipment_stays_distinct (history : list (Z * action)) :
  let s := run_actions Math_sqrt log10_pos props history (initialState props) in
  NoDup (map eq_id (equipmentPositions s))
  /\ Forall (fun saved => NoDup (map eq_id saved)) (undoHistory s)
  /\ (List.length (undoHistory s) <= 10)%nat.
Proof.
  destruct (run_actions_steady history) as (H1 & H2 & H3 & _). now repeat split.
Qed.

Lemma steps_stay_in_order (history : list (Z * action)) :
  let s := run_actions Math_sqrt log10_pos props history (initialState props) in
  NoDup (completedSteps s) /\ 1 <= currentGuidedStep s <= 6.
Proof.
  destruct (run_actions_steady history) as (_ & _ & _ & H4 & H5). now split.
Qed.

End WorkbenchInvariants.

(** X24. One piece per id, always.  Along every history of events and
    drops from the first render, the equipment ids on the workbench are
    pairwise distinct, so are those of every list saved for undo, and
    the undo history never holds more than ten lists. *)
Theorem equipment_ids_stay_distinct :
  forall (Math_sqrt : number -> number) (log10_pos : Q -> Q) (props : Props)
         (history : list (Z * action)),
    let s := run_actions Math_sqrt log10_pos props history (initialState props) in
    NoDup (map eq_id (equipmentPositions s))
    /\ Forall (fun saved => NoDup (map eq_id saved)) (undoHistory s)
    /\ (List.length (undoHistory s) <= 10)%nat.
Proof. exact equipment_stays_distinct. Qed.

(** X25. Steps stay in order.  Along every history of events and drops
    from the first render, the completed-step set holds no step twice
    and the guided step is one of the six steps of the procedure. *)
Theorem steps_never_repeat_nor_overrun :
  forall (Math_sqrt : number -> number) (log10_pos : Q -> Q) (props : Props)
         (history : list (Z * action)),
    let s := run_actions Math_sqrt log10_pos props history (initialState props) in
    NoDup (completedSteps s) /\ 1 <= currentGuidedStep s <= 6.
Proof. exact steps_stay_in_order. Qed.

(** X26. What the reset restores.  From every state, the reset brings
    every cell of the component back to its value in the first render,
    with two exceptions: the toast, which confirms the reset, and
    [showSteps], which the reset does not write, so that a procedure
    panel folded before the reset is still folded after it.  The reset
    also calls the timer and progress resets of the parent. *)
Theorem onReset_restores_all_but_the_panel :
  forall (props : Props) (s : State) (now : Z),
    let after := perform props ResetExperiment now s in
    (exists confirmation,
       fst after
       = with_toastMessage (fun _ => Some confirmation)
           (with_showSteps (fun _ => showSteps s) (initialState props)))
    /\ showSteps (fst after) = showSteps s
    /\ showSteps (fst (perform props ResetExperiment now
                         (fst (setShowSteps false s)))) = false
    /\ In (Emit TimerReset) (snd after)
    /\ In (Emit ProgressReset) (snd after).
Proof.
  intros props s now after. subst after. repeat split.
  - eexists. reflexivity.
  - cbn. tauto.
  - cbn. tauto.
Qed.

(* ------------------------------------------------------------------ *)
(** ** The colour of the flask during a titration *)

Section TitrationColour.

Lemma Math_round_between (lo hi : Z) (a : number) (y : Q) :
  represents a y -> (inject_Z lo <= y <= inject_Z hi)%Q ->
  exists z, Math_round a = int z /\ lo <= z <= hi.
Proof.
  intros (x & -> & Hx) [Hlo Hhi]. exists (Qfloor (x + (1 # 2))).
  split; [reflexivity|]. split.
  - rewrite <- (Qfloor_Z lo). apply Qfloor_resp_le. rewrite Hx. lra.
  - assert (H : (inject_Z (Qfloor (x + (1 # 2))) < inject_Z (hi + 1))%Q).
    { apply (Qle_lt_trans _ (x + (1 # 2))); [apply Qfloor_le|].
      rewrite inject_Z_plus, Hx. unfold inject_Z at 2. lra. }
    rewrite <- Zlt_Qlt in H. lia.
Qed.

Lemma smoothstep_unit (p : number) (x : Q) :
  represents p x -> (0 <= x <= 1)%Q ->
  exists e, represents (mul (mul p p) (sub (int 3) (mul (int 2) p))) e /\ (0 <= e <= 1)%Q.
Proof.
  intros Hp [H0 H1]. exists (x * x * (inject_Z 3 - inject_Z 2 * x))%Q. split.
  - apply represents_mul; [now apply represents_mul|].
    apply represents_sub; [apply represents_int|].
    apply represents_mul; [apply represents_int|assumption].
  - unfold inject_Z. split.
    + apply Qmult_le_0_compat; [apply Qmult_le_0_compat; assumption|lra].
    + assert (E : (1 - x * x * (3 - 2 * x) == (1 - x) * (1 - x) * (1 + 2 * x))%Q) by ring.
      assert (N : (0 <= (1 - x) * (1 - x) * (1 + 2 * x))%Q).
      { apply Qmult_le_0_compat; [apply Qmult_le_0_compat|]; lra. }
      lra.
Qed.

Lemma blend_between (s t : Z) (eased : number) (e : Q) :
  represents eased e -> (0 <= e <= 1)%Q -> t <= s ->
  exists z, blend (int s) (int t) eased = int z /\ t <= z <= s.
Proof.
  intros He [H0 H1] Hts. unfold blend.
  apply (Math_round_between t s _ (inject_Z s + (inject_Z t - inject_Z s) * e)).
  - apply represents_add; [apply represents_int|].
    apply represents_mul; [|assumption].
    apply represents_sub; apply represents_int.
  - assert (Hq : (inject_Z t <= inject_Z s)%Q) by (rewrite <- Zle_Qle; assumption).
    split.
    + assert (N : (0 <= (inject_Z s - inject_Z t) * (1 - e))%Q)
        by (apply Qmult_le_0_compat; lra).
      assert (E : (inject_Z s + (inject_Z t - inject_Z s) * e - inject_Z t
                   == (inject_Z s - inject_Z t) * (1 - e))%Q) by ring.
      lra.
    + assert (N : (0 <= (inject_Z s - inject_Z t) * e)%Q)
        by (apply Qmult_le_0_compat; lra).
      assert (E : (inject_Z s - (inject_Z s + (inject_Z t - inject_Z s) * e)
                   == (inject_Z s - inject_Z t) * e)%Q) by ring.
      lra.
Qed.

Lemma normalized_saturates (p : number) :
  le (int 3) p = true ->
  Math_min (div (sub p (int 1)) (int 2)) (int 1) = int 1.
Proof.
  destruct p as [x| | |]; try discriminate; [|reflexivity].
  intro H. apply le_Fin in H. unfold inject_Z in H.
  change (div (sub (Fin x) (int 1)) (int 2))
    with (Fin (Qred (Qred (x + Qred (- inject_Z 1)) / inject_Z 2))).
  set (q := Qred (Qred (x + Qred (- inject_Z 1)) / inject_Z 2)).
  assert (Hq : (q == (x - 1) / 2)%Q).
  { subst q. rewrite !Qred_correct. unfold inject_Z. field. }
  change (Math_min (Fin q) (int 1)) with (if lt (int 1) (Fin q) then int 1 else Fin q).
  destruct (lt (int 1) (Fin q)) eqn:E; [reflexivity|].
  apply lt_Fin_false in E. unfold inject_Z in E.
  assert (H1 : (q == 1)%Q).
  { apply Qle_antisym; [exact E|]. rewrite Hq.
    apply Qle_shift_div_l; [reflexivity|]. lra. }
  assert (Hr : (Qred (x + Qred (- inject_Z 1)) / inject_Z 2 == 1)%Q).
  { apply (Qeq_trans _ q); [unfold q; symmetry; apply Qred_correct|exact H1]. }
  subst q. change (int 1) with (Fin (Qred 1)). f_equal. exact (Qred_complete _ 1 Hr).
Qed.

Lemma three_reagents_branch (chemicals : list ChemicalQuantity) (p : number) :
  In "hcl" (map chem_id chemicals) ->
  In "naoh" (map chem_id chemicals) ->
  In "phenol" (map chem_id chemicals) ->
  gt p (int 0) = true ->
  getMixedColor chemicals p
  = if le p (int 1)
    then rgb_template
           (blend (int 255) (int 255) (mul (mul p p) (sub (int 3) (mul (int 2) p))))
           (blend (int 220) (int 182) (mul (mul p p) (sub (int 3) (mul (int 2) p))))
           (blend (int 230) (int 193) (mul (mul p p) (sub (int 3) (mul (int 2) p))))
    else rgb_template
           (blend (int 255) (int 199)
              (mul (mul (Math_min (div (sub p (int 1)) (int 2)) (int 1))
                        (Math_min (div (sub p (int 1)) (int 2)) (int 1)))
                   (sub (int 3)
                        (mul (int 2) (Math_min (div (sub p (int 1)) (int 2)) (int 1))))))
           (blend (int 182) (int 21)
              (mul (mul (Math_min (div (sub p (int 1)) (int 2)) (int 1))
                        (Math_min (div (sub p (int 1)) (int 2)) (int 1)))
                   (sub (int 3)
                        (mul (int 2) (Math_min (div (sub p (int 1)) (int 2)) (int 1))))))
           (blend (int 193) (int 133)
              (mul (mul (Math_min (div (sub p (int 1)) (int 2)) (int 1))
                        (Math_min (div (sub p (int 1)) (int 2)) (int 1)))
                   (sub (int 3)
                        (mul (int 2) (Math_min (div (sub p (int 1)) (int 2)) (int 1)))))).
Proof.
  intros Hh Hn Hp Hpos.
  destruct chemicals as [|c1 [|c2 rest]].
  - contradiction.
  - cbn in Hh, Hn. destruct Hh as [Hh|[]], Hn as [Hn|[]]. congruence.
  - unfold getMixedColor. rewrite !includes_sort.
    apply includes_In in Hh, Hn, Hp. rewrite Hh, Hn, Hp.
    cbn [andb]. rewrite Hpos. reflexivity.
Qed.

End TitrationColour.

(** X27. The colour of the flask that holds hcl, naoh and phenol.  While
    the colour progress is above 0 and at most 1 the flask is painted
    rgb(255, g, b) with g between 182 and 220 and b between 193 and 230;
    from a colour progress of 3 on (infinite included) it is painted
    rgb(199, 21, 133) and further cycles change nothing. *)
Theorem getMixedColor_titration_stages :
  forall (chemicals : list ChemicalQuantity) (p : number),
    In "hcl" (map chem_id chemicals) ->
    In "naoh" (map chem_id chemicals) ->
    In "phenol" (map chem_id chemicals) ->
    (gt p (int 0) = true -> le p (int 1) = true ->
     exists g b : Z,
       getMixedColor chemicals p = rgb_template (int 255) (int g) (int b)
       /\ 182 <= g <= 220 /\ 193 <= b <= 230)
    /\ (le (int 3) p = true -> getMixedColor chemicals p = "rgb(199, 21, 133)").
Proof.
  intros chemicals p Hh Hn Hp. split.
  - intros Hpos Hle.
    rewrite (three_reagents_branch chemicals p Hh Hn Hp Hpos), Hle.
    destruct p as [x| | |]; try discriminate.
    apply lt_Fin in Hpos. apply le_Fin in Hle. unfold inject_Z in Hpos, Hle.
    destruct (smoothstep_unit (Fin x) x (represents_Fin x)) as (e & He & Be); [lra|].
    destruct (blend_between 255 255 _ e He Be) as (r & -> & Hr); [lia|].
    destruct (blend_between 220 182 _ e He Be) as (g & -> & Hg); [lia|].
    destruct (blend_between 230 193 _ e He Be) as (b & -> & Hb); [lia|].
    assert (r = 255) by lia. subst r.
    exists g, b. now repeat split.
  - intro H3.
    assert (Hpos : gt p (int 0) = true).
    { destruct p as [x| | |]; try discriminate; [|reflexivity].
      apply le_Fin in H3. apply lt_Fin. unfold inject_Z in *. lra. }
    assert (Hle : le p (int 1) = false).
    { destruct p as [x| | |]; try discriminate; [|reflexivity].
      apply le_Fin in H3. destruct (le (Fin x) (int 1)) eqn:E; [|reflexivity].
      apply le_Fin in E. unfold inject_Z in *. lra. }
    rewrite (three_reagents_branch chemicals p Hh Hn Hp Hpos), Hle.
    rewrite (normalized_saturates p H3). reflexivity.
Qed.

Lemma getMixedColor_titration_stages_witness :
  getMixedColor
    [ mkChemical "hcl" "Hydrochloric Acid" "#FFE135" (int 25) "0.1 M";
      mkChemical "phenol" "Phenolphthalein" "#FFB6C1" (int 10) "Indicator";
      mkChemical "naoh" "Sodium Hydroxide" "transparent" (int 1) "0.1 M" ] (int 4)
  = "rgb(199, 21, 133)".
Proof.
  apply (getMixedColor_titration_stages
           [ mkChemical "hcl" "Hydrochloric Acid" "#FFE135" (int 25) "0.1 M";
             mkChemical "phenol" "Phenolphthalein" "#FFB6C1" (int 10) "Indicator";
             mkChemical "naoh" "Sodium Hydroxide" "transparent" (int 1) "0.1 M" ] (int 4)).
  - left. reflexivity.
  - right. right. left. reflexivity.
  - right. left. reflexivity.
  - reflexivity.
Defined.

(* ------------------------------------------------------------------ *)
(** ** The stirring button *)

(** X28. Stirring needs a stirrer and a flask.  A click on the stirring
    button while the stirrer runs stops it; a click while it is idle
    starts it exactly when a magnetic stirrer and a conical flask are
    both on the workbench, and otherwise only shows a warning: the state
    is the old one with the toast set, and the one thing scheduled is
    the timer that clears the toast. *)
Theorem stirringButton_needs_stirrer_and_flask :
  forall (props : Props) (s : State) (now : Z),
    let outcome := perform props StirringButton now s in
    (isStirring s = true ->
     isStirring (fst outcome) = false /\ stirrerActive (fst outcome) = false)
    /\ (isStirring s = false ->
        (isStirring (fst outcome) = true
         <-> (exists p, In p (equipmentPositions s) /\ eq_id p = "magnetic_stirrer")
             /\ (exists f, In f (equipmentPositions s) /\ eq_id f = "conical_flask")))
    /\ (isStirring s = false -> isStirring (fst outcome) = false ->
        exists warning, outcome = refusal warning s).
Proof.
  intros props s now outcome. subst outcome.
  unfold perform, stirringButton_onClick.
  split; [|split].
  - intros ->. split; reflexivity.
  - intros Hidle. rewrite Hidle. unfold handleStartStirring.
    destruct (find (is_equipment "magnetic_stirrer") (equipmentPositions s))
      as [st|] eqn:Es;
      destruct (find (is_equipment "conical_flask") (equipmentPositions s))
        as [fl|] eqn:Ef; cbn.
    + apply find_equipment_some in Es, Ef.
      split; [intros _|reflexivity].
      split; [exists st|exists fl]; tauto.
    + rewrite Hidle. split; [discriminate|].
      intros [_ (f & Hf & Hid)]. apply find_none with (x := f) in Ef; [|exact Hf].
      unfold is_equipment in Ef. rewrite Hid in Ef. discriminate.
    + rewrite Hidle. split; [discriminate|].
      intros [(p & Hp & Hid) _]. apply find_none with (x := p) in Es; [|exact Hp].
      unfold is_equipment in Es. rewrite Hid in Es. discriminate.
    + rewrite Hidle. split; [discriminate|].
      intros [(p & Hp & Hid) _]. apply find_none with (x := p) in Es; [|exact Hp].
      unfold is_equipment in Es. rewrite Hid in Es. discriminate.
  - intros Hidle. rewrite Hidle. unfold handleStartStirring.
    destruct (find (is_equipment "magnetic_stirrer") (equipmentPositions s));
      destruct (find (is_equipment "conical_flask") (equipmentPositions s));
      cbn; try discriminate; intros _; eexists; reflexivity.
Qed.
